(** * computesdk: the binary WebSocket protocol and the WebSocket client

    A shallow embedding of [computesdk/protocol.py] (class [BinaryProtocol])
    and of the connection logic of [computesdk/websocket_client.py] (class
    [WebSocketClient]), with the properties of the real-time transport layer
    stated and proved over the embedding.

    Conventions.
    - Python [bytes] are [list byte]; Python [int]s are [Z]; [len] is [Z]-valued.
    - A Python [str] is the list of its code points.
    - A Python [float] is its IEEE-754 binary64 bit pattern (a [Z] below
      [2^64]): [struct.pack(">d", x)] writes exactly these 64 bits, and two
      floats are compared through their bit patterns.
    - A call that may raise returns a [res]: [Ok v] or [Raise e]. *)

From Stdlib Require Import ZArith Lia List String Ascii Bool.
From Stdlib Require Import Strings.Byte.
From Stdlib Require Import Floats.SpecFloat.
From Stdlib Require Import Reals Lra.
From stdpp Require Import gmap list.
Import ListNotations.

Local Open Scope Z_scope.

(** ** Exceptions and fallible computations *)

Inductive exn : Type :=
| StructError                 (* struct.error *)
| IndexError
| UnicodeDecodeError
| UnicodeEncodeError
| OverflowError
| TypeError
| ConnectionClosed            (* websockets.ConnectionClosed *)
| OSError                     (* any other transport failure *)
| HandlerFault (tag : nat)    (* an Exception raised by user handler code *)
| WebSocketError (msg : string)                  (* raise WebSocketError(msg) *)
| WebSocketErrorFrom (msg : string) (cause : exn).  (* raise WebSocketError(f"{msg}: {e}") from e *)

Inductive res (A : Type) : Type :=
| Ok (a : A)
| Raise (e : exn).
Arguments Ok {A} a.
Arguments Raise {A} e.

#[global] Instance res_ret : MRet res := @Ok.
#[global] Instance res_bind : MBind res :=
  fun A B k r => match r with Ok a => k a | Raise e => Raise e end.

(** ** Bytes, [len], slices and indexing *)

Definition byte_val (b : byte) : Z := Z.of_N (Byte.to_N b).

Definition byte_of (z : Z) : byte :=
  default x00 (Byte.of_N (Z.to_N (z mod 256))).

Definition len {A} (l : list A) : Z := Z.of_nat (length l).

(** [l[lo:hi]] for a non-negative [lo]: out-of-range bounds are clipped. *)
Definition slice {A} (l : list A) (lo hi : Z) : list A :=
  take (Z.to_nat (hi - lo)) (drop (Z.to_nat lo) l).

(** [l[i]]: a negative index counts from the end; out of range raises. *)
Definition index (l : list byte) (i : Z) : res byte :=
  let j := if i <? 0 then i + len l else i in
  if (0 <=? j) && (j <? len l)
  then match l !! Z.to_nat j with
       | Some b => Ok b
       | None => Raise IndexError
       end
  else Raise IndexError.

(** ** [struct.pack] / [struct.unpack], big-endian *)

Fixpoint be_bytes (k : nat) (n : Z) : list byte :=
  match k with
  | O => []
  | S k' => be_bytes k' (n / 256) ++ [byte_of n]
  end.

Definition be_value (bs : list byte) : Z :=
  fold_left (fun acc b => acc * 256 + byte_val b) bs 0.

(** [struct.pack(">H", n)] *)
Definition pack_H (n : Z) : res (list byte) :=
  if (0 <=? n) && (n <=? 0xFFFF) then Ok (be_bytes 2 n) else Raise StructError.

(** [struct.pack(">I", n)] *)
Definition pack_I (n : Z) : res (list byte) :=
  if (0 <=? n) && (n <=? 0xFFFFFFFF) then Ok (be_bytes 4 n) else Raise StructError.

(** [struct.unpack(">H", bs)[0]] *)
Definition unpack_H (bs : list byte) : res Z :=
  if len bs =? 2 then Ok (be_value bs) else Raise StructError.

(** [struct.unpack(">I", bs)[0]] *)
Definition unpack_I (bs : list byte) : res Z :=
  if len bs =? 4 then Ok (be_value bs) else Raise StructError.

(** A Python float, as its binary64 bit pattern. *)
Definition float64 : Type := Z.

Definition float_zero : float64 := 0.                        (* 0.0 *)
Definition float_one : float64 := 0x3FF0000000000000.        (* 1.0 *)

(** [struct.pack(">d", x)] *)
Definition pack_d (x : float64) : list byte := be_bytes 8 x.

(** [struct.unpack(">d", bs)[0]] *)
Definition unpack_d (bs : list byte) : res float64 :=
  if len bs =? 8 then Ok (be_value bs) else Raise StructError.

(** The bit pattern of a binary64 value given as a [spec_float]. *)
Definition bits_of_spec (f : spec_float) : float64 :=
  let sign (s : bool) := if s then 2 ^ 63 else 0 in
  match f with
  | S754_zero s => sign s
  | S754_infinity s => sign s + 0x7FF * 2 ^ 52
  | S754_nan => 0x7FF8 * 2 ^ 48
  | S754_finite s m e =>
      sign s + (if Z.pos m <? 2 ^ 52 then Z.pos m
                else (e + 1075) * 2 ^ 52 + (Z.pos m - 2 ^ 52))
  end.

(** [float(n)] for an int [n]: nearest double, ties to even; an int beyond
    the double range raises [OverflowError]. *)
Definition float_of_int (n : Z) : res float64 :=
  match binary_normalize 53 1024 n 0 false with
  | S754_infinity _ => Raise OverflowError
  | f => Ok (bits_of_spec f)
  end.

(** ** Strings and UTF-8 *)

(** A Python [str]: its code points. *)
Definition str : Type := list Z.

(** A string literal of the source (ASCII). *)
Definition lit (s : string) : str :=
  map (fun a => Z.of_N (N_of_ascii a)) (list_ascii_of_string s).

(** The UTF-8 encoding of one code point; surrogates (and numbers that are
    not code points) cannot be encoded. *)
Definition utf8_encode_cp (c : Z) : res (list byte) :=
  if c <? 0 then Raise UnicodeEncodeError
  else if c <? 0x80 then Ok [byte_of c]
  else if c <? 0x800 then Ok [byte_of (0xC0 + c / 64); byte_of (0x80 + c mod 64)]
  else if c <? 0x10000 then
    if (0xD800 <=? c) && (c <=? 0xDFFF) then Raise UnicodeEncodeError
    else Ok [byte_of (0xE0 + c / 4096); byte_of (0x80 + (c / 64) mod 64);
             byte_of (0x80 + c mod 64)]
  else if c <? 0x110000 then
    Ok [byte_of (0xF0 + c / 262144); byte_of (0x80 + (c / 4096) mod 64);
        byte_of (0x80 + (c / 64) mod 64); byte_of (0x80 + c mod 64)]
  else Raise UnicodeEncodeError.

(** [s.encode("utf-8")] *)
Fixpoint utf8_encode (s : str) : res (list byte) :=
  match s with
  | [] => Ok []
  | c :: s' =>
      b ← utf8_encode_cp c;
      bs ← utf8_encode s';
      Ok (b ++ bs)
  end.

(** The [errors] argument of [bytes.decode]. *)
Inductive errors_mode := Strict | Replace.

(** What the decoder does with an ill-formed sequence: raise, or put
    U+FFFD and go on with [k]. *)
Definition on_bad (errors : errors_mode) (k : res str) : res str :=
  match errors with
  | Strict => Raise UnicodeDecodeError
  | Replace => s ← k; Ok (0xFFFD :: s)
  end.

Definition emit (c : Z) (k : res str) : res str :=
  s ← k; Ok (c :: s).

Definition is_cont (b : byte) : bool :=
  (0x80 <=? byte_val b) && (byte_val b <=? 0xBF).

(** The second byte admitted after the lead byte [v0] of a three-byte
    sequence (no overlong forms, no surrogates). *)
Definition second3_ok (v0 : Z) (b : byte) : bool :=
  is_cont b &&
  (if v0 =? 0xE0 then 0xA0 <=? byte_val b
   else if v0 =? 0xED then byte_val b <=? 0x9F else true).

(** The second byte admitted after the lead byte [v0] of a four-byte
    sequence (no overlong forms, nothing above U+10FFFF). *)
Definition second4_ok (v0 : Z) (b : byte) : bool :=
  is_cont b &&
  (if v0 =? 0xF0 then 0x90 <=? byte_val b
   else if v0 =? 0xF4 then byte_val b <=? 0x8F else true).

Definition low6 (b : byte) : Z := byte_val b - 0x80.

(** [bs.decode("utf-8", errors=...)]: an ill-formed sequence is replaced as
    a whole by one U+FFFD (its longest well-formed prefix, at least one
    byte), and decoding resumes at the offending byte. *)
Fixpoint utf8_decode (errors : errors_mode) (bs : list byte) : res str :=
  match bs with
  | [] => Ok []
  | b0 :: r0 =>
      let v0 := byte_val b0 in
      if v0 <? 0x80 then emit v0 (utf8_decode errors r0)
      else if (v0 <? 0xC2) || (0xF4 <? v0) then on_bad errors (utf8_decode errors r0)
      else if v0 <? 0xE0 then
        match r0 with
        | [] => on_bad errors (Ok [])
        | b1 :: r1 =>
            if is_cont b1
            then emit ((v0 - 0xC0) * 64 + low6 b1) (utf8_decode errors r1)
            else on_bad errors (utf8_decode errors r0)
        end
      else if v0 <? 0xF0 then
        match r0 with
        | [] => on_bad errors (Ok [])
        | b1 :: r1 =>
            if second3_ok v0 b1 then
              match r1 with
              | [] => on_bad errors (Ok [])
              | b2 :: r2 =>
                  if is_cont b2
                  then emit ((v0 - 0xE0) * 4096 + low6 b1 * 64 + low6 b2)
                            (utf8_decode errors r2)
                  else on_bad errors (utf8_decode errors r1)
              end
            else on_bad errors (utf8_decode errors r0)
        end
      else
        match r0 with
        | [] => on_bad errors (Ok [])
        | b1 :: r1 =>
            if second4_ok v0 b1 then
              match r1 with
              | [] => on_bad errors (Ok [])
              | b2 :: r2 =>
                  if is_cont b2 then
                    match r2 with
                    | [] => on_bad errors (Ok [])
                    | b3 :: r3 =>
                        if is_cont b3
                        then emit ((v0 - 0xF0) * 262144 + low6 b1 * 4096
                                   + low6 b2 * 64 + low6 b3)
                                  (utf8_decode errors r3)
                        else on_bad errors (utf8_decode errors r2)
                    end
                  else on_bad errors (utf8_decode errors r1)
              end
            else on_bad errors (utf8_decode errors r0)
        end
  end.

(** ** Python values carried in a payload *)

Inductive pyclass :=
| cls_str | cls_bool | cls_int | cls_float | cls_bytes
| cls_dict | cls_list | cls_NoneType | cls_object.

(** The values [_encode_data] tells apart. A nested dict or list is kept
    with the text [json.dumps] renders it to, any other object with the text
    [str] renders it to. *)
Inductive pyval :=
| PyStr (s : str)
| PyBool (b : bool)
| PyInt (n : Z)
| PyFloat (x : float64)
| PyBytes (b : list byte)
| PyDict (json : str)
| PyList (json : str)
| PyNone
| PyObject (repr : str).

Definition type_of (v : pyval) : pyclass :=
  match v with
  | PyStr _ => cls_str
  | PyBool _ => cls_bool
  | PyInt _ => cls_int
  | PyFloat _ => cls_float
  | PyBytes _ => cls_bytes
  | PyDict _ => cls_dict
  | PyList _ => cls_list
  | PyNone => cls_NoneType
  | PyObject _ => cls_object
  end.

Definition pyclass_eqb (c d : pyclass) : bool :=
  match c, d with
  | cls_str, cls_str | cls_bool, cls_bool | cls_int, cls_int
  | cls_float, cls_float | cls_bytes, cls_bytes | cls_dict, cls_dict
  | cls_list, cls_list | cls_NoneType, cls_NoneType
  | cls_object, cls_object => true
  | _, _ => false
  end.

(** [bool] is a subclass of [int]; every class is a subclass of [object]. *)
Definition issubclass (c d : pyclass) : bool :=
  match c, d with
  | cls_bool, cls_int => true
  | _, cls_object => true
  | _, _ => pyclass_eqb c d
  end.

Definition isinstance (v : pyval) (c : pyclass) : bool :=
  issubclass (type_of v) c.

(** [v.encode("utf-8")] of a str, [bool(v)] of a bool, the bytes of a bytes
    value. *)
Definition str_value (v : pyval) : str :=
  match v with PyStr s => s | _ => [] end.

Definition truth (v : pyval) : bool :=
  match v with PyBool b => b | _ => false end.

Definition bytes_value (v : pyval) : list byte :=
  match v with PyBytes b => b | _ => [] end.

(** [float(v)] *)
Definition to_float (v : pyval) : res float64 :=
  match v with
  | PyBool b => Ok (if b then float_one else float_zero)
  | PyInt n => float_of_int n
  | PyFloat x => Ok x
  | _ => Raise TypeError
  end.

(** [json.dumps(v)] of a dict or list, [str(v)] of another object. *)
Definition json_dumps (v : pyval) : str :=
  match v with PyDict j | PyList j => j | _ => [] end.

Definition str_of (v : pyval) : str :=
  match v with PyObject r => r | _ => [] end.

(** A payload: a dict with str keys, in insertion order. *)
Definition payload : Type := list (str * pyval).

(** [d[key] = value]: an existing key keeps its place, a new key goes last. *)
Fixpoint dict_set (d : payload) (key : str) (value : pyval) : payload :=
  match d with
  | [] => [(key, value)]
  | (k, v) :: d' =>
      if decide (k = key) then (k, value) :: d'
      else (k, v) :: dict_set d' key value
  end.

(** A message dict; [encode] reads its three entries with [dict.get], so
    each may be absent. *)
Record message := Message {
  m_type : option str;
  m_channel : option str;
  m_data : option payload
}.

(** ** [BinaryProtocol] *)

Definition MSG_SUBSCRIBE : byte := x01.
Definition MSG_UNSUBSCRIBE : byte := x02.
Definition MSG_DATA : byte := x03.
Definition MSG_ERROR : byte := x04.
Definition MSG_CONNECTED : byte := x05.

Definition VAL_STRING : byte := x01.
Definition VAL_NUMBER : byte := x02.
Definition VAL_BOOLEAN : byte := x03.
Definition VAL_BYTES : byte := x04.

(** [TYPE_TO_BYTE.get(msg_type)] *)
Definition TYPE_TO_BYTE (msg_type : str) : option byte :=
  if decide (msg_type = lit "subscribe") then Some MSG_SUBSCRIBE
  else if decide (msg_type = lit "unsubscribe") then Some MSG_UNSUBSCRIBE
  else if decide (msg_type = lit "data") then Some MSG_DATA
  else if decide (msg_type = lit "error") then Some MSG_ERROR
  else if decide (msg_type = lit "connected") then Some MSG_CONNECTED
  else None.

(** One turn of the loop of [_encode_data]: the bytes appended to [result]
    for the item [(key, value)]. *)
Definition encode_field (kv : str * pyval) : res (list byte) :=
  let '(key, value) := kv in
  key_bytes ← utf8_encode key;
  key_len ← pack_H (len key_bytes);
  let result := key_len ++ key_bytes in
  if isinstance value cls_str then
    val_bytes ← utf8_encode (str_value value);
    val_len ← pack_I (len val_bytes);
    Ok (result ++ [VAL_STRING] ++ val_len ++ val_bytes)
  else if isinstance value cls_bool then
    val_len ← pack_I 1;
    Ok (result ++ [VAL_BOOLEAN] ++ val_len ++ [if truth value then x01 else x00])
  else if isinstance value cls_int || isinstance value cls_float then
    val_len ← pack_I 8;
    x ← to_float value;
    Ok (result ++ [VAL_NUMBER] ++ val_len ++ pack_d x)
  else if isinstance value cls_bytes then
    val_len ← pack_I (len (bytes_value value));
    Ok (result ++ [VAL_BYTES] ++ val_len ++ bytes_value value)
  else if isinstance value cls_dict then
    val_bytes ← utf8_encode (json_dumps value);
    val_len ← pack_I (len val_bytes);
    Ok (result ++ [VAL_STRING] ++ val_len ++ val_bytes)
  else if isinstance value cls_list then
    val_bytes ← utf8_encode (json_dumps value);
    val_len ← pack_I (len val_bytes);
    Ok (result ++ [VAL_STRING] ++ val_len ++ val_bytes)
  else if isinstance value cls_NoneType then
    val_len ← pack_I 0;
    Ok (result ++ [VAL_STRING] ++ val_len)
  else
    val_bytes ← utf8_encode (str_of value);
    val_len ← pack_I (len val_bytes);
    Ok (result ++ [VAL_STRING] ++ val_len ++ val_bytes).

(** The loop [for key, value in data.items()] over [result]. *)
Fixpoint encode_fields (items : payload) (result : list byte) : res (list byte) :=
  match items with
  | [] => Ok result
  | kv :: items' =>
      field ← encode_field kv;
      encode_fields items' (result ++ field)
  end.

Definition _encode_data (data : payload) : res (list byte) :=
  match data with
  | [] => pack_H 0
  | _ =>
      result ← pack_H (len data);
      encode_fields data result
  end.

Definition encode (msg : message) : res (list byte) :=
  let msg_type := default (lit "data") (m_type msg) in
  let channel := default (lit "") (m_channel msg) in
  let data := default [] (m_data msg) in
  let type_byte := default MSG_DATA (TYPE_TO_BYTE msg_type) in
  channel_bytes ← utf8_encode channel;
  channel_len ← pack_H (len channel_bytes);
  msg_type_bytes ← utf8_encode msg_type;
  msg_type_len ← pack_H (len msg_type_bytes);
  data_bytes ← _encode_data data;
  data_len ← pack_I (len data_bytes);
  Ok ([type_byte] ++ channel_len ++ channel_bytes ++ msg_type_len
      ++ msg_type_bytes ++ data_len ++ data_bytes).

(** The dict [{"type": "error", "channel": channel, "data": {"error": text}}]. *)
Definition error_message (channel : str) (text : string) : message :=
  Message (Some (lit "error")) (Some channel)
          (Some [(lit "error", PyStr (lit text))]).

(** One turn of the loop of [_decode_data] at [offset] with the fields
    decoded so far: [None] is [break], [Some] the offset and dict the next
    turn starts from. *)
Definition decode_field (data : list byte) (offset : Z) (result : payload)
  : res (option (Z * payload)) :=
  if offset + 2 >? len data then Ok None else
  key_len ← unpack_H (slice data offset (offset + 2));
  let offset := offset + 2 in
  if offset + key_len >? len data then Ok None else
  key ← utf8_decode Strict (slice data offset (offset + key_len));
  let offset := offset + key_len in
  if offset + 1 >? len data then Ok None else
  val_type ← index data offset;
  let offset := offset + 1 in
  if offset + 4 >? len data then Ok None else
  val_len ← unpack_I (slice data offset (offset + 4));
  let offset := offset + 4 in
  if offset + val_len >? len data then Ok None else
  value ←
    (if Byte.eqb val_type VAL_STRING then
       s ← utf8_decode Strict (slice data offset (offset + val_len));
       Ok (PyStr s)
     else if Byte.eqb val_type VAL_NUMBER then
       if val_len >=? 8 then
         x ← unpack_d (slice data offset (offset + 8));
         Ok (PyFloat x)
       else Ok (PyFloat float_zero)
     else if Byte.eqb val_type VAL_BOOLEAN then
       if val_len >=? 1 then
         b ← index data offset;
         Ok (PyBool (Byte.eqb b x01))
       else Ok (PyBool false)
     else if Byte.eqb val_type VAL_BYTES then
       Ok (PyBytes (slice data offset (offset + val_len)))
     else
       s ← utf8_decode Replace (slice data offset (offset + val_len));
       Ok (PyStr s));
  Ok (Some (offset + val_len, dict_set result key value)).

(** The loop [for _ in range(num_fields)], [n] turns left. *)
Fixpoint decode_fields (n : nat) (data : list byte) (offset : Z) (result : payload)
  : res payload :=
  match n with
  | O => Ok result
  | S n' =>
      step ← decode_field data offset result;
      match step with
      | None => Ok result
      | Some (offset', result') => decode_fields n' data offset' result'
      end
  end.

Definition _decode_data (data : list byte) : res payload :=
  if len data <? 2 then Ok [] else
  let offset := 0 in
  num_fields ← unpack_H (slice data offset (offset + 2));
  let offset := offset + 2 in
  decode_fields (Z.to_nat num_fields) data offset [].

Definition decode (data : list byte) : res message :=
  if len data <? 1 then Ok (error_message (lit "") "Empty message") else
  let offset := 0 in
  type_byte ← index data offset;
  let offset := offset + 1 in
  if offset + 2 >? len data
  then Ok (error_message (lit "") "Invalid message") else
  channel_len ← unpack_H (slice data offset (offset + 2));
  let offset := offset + 2 in
  if offset + channel_len >? len data
  then Ok (error_message (lit "") "Invalid message") else
  channel ← utf8_decode Strict (slice data offset (offset + channel_len));
  let offset := offset + channel_len in
  if offset + 2 >? len data
  then Ok (error_message channel "Invalid message") else
  msg_type_len ← unpack_H (slice data offset (offset + 2));
  let offset := offset + 2 in
  if offset + msg_type_len >? len data
  then Ok (error_message channel "Invalid message") else
  msg_type ← utf8_decode Strict (slice data offset (offset + msg_type_len));
  let offset := offset + msg_type_len in
  if offset + 4 >? len data
  then Ok (Message (Some msg_type) (Some channel) (Some [])) else
  data_len ← unpack_I (slice data offset (offset + 4));
  let offset := offset + 4 in
  if offset + data_len >? len data
  then Ok (Message (Some msg_type) (Some channel) (Some [])) else
  payload ← _decode_data (slice data offset (offset + data_len));
  Ok (Message (Some msg_type) (Some channel) (Some payload)).


(** ** [WebSocketClient]

    The client is modelled sequentially: each coroutine is a state
    transformer over the client object, the network and the trace of what
    it did. The network answers from scripts fixed in advance, so that every
    behaviour of the peer is one choice of scripts. Every exception of
    [exn] is an instance of [Exception]; [asyncio.CancelledError], which is
    not one, is the matter of [Cancellation] below. The interleaving of the
    receive task with the caller's coroutines is not modelled. *)

(** The socket object held in [_ws]; [sock_open] is its [open] property. *)
Record socket := Socket { sock_open : bool }.

(** What travels over the socket: a bytes frame, or a str frame, kept with
    the document [json.loads] makes of it. *)
Inductive frame :=
| Binary (data : list byte)
| Text (doc : res message).

(** A registered handler: an identity, and whether [await handler(data)]
    returns or raises. *)
Record handler := Handler {
  h_id : nat;
  h_run : message -> res unit
}.

Record client := Client {
  _binary : bool;                    (* self._encoder is not None *)
  _auto_reconnect : bool;
  _reconnect_delay : R;
  _max_reconnect_delay : R;
  _ws : option socket;
  _running : bool;
  _handlers : gmap str handler;
  _subscriptions : gset str;
  _receive_task : bool;              (* self._receive_task is not None *)
  _current_reconnect_delay : R
}.

(** [WebSocketClient(url, token, protocol, auto_reconnect, reconnect_delay,
    max_reconnect_delay)] *)
Definition __init__ (binary auto_reconnect : bool)
    (reconnect_delay max_reconnect_delay : R) : client :=
  Client binary auto_reconnect reconnect_delay max_reconnect_delay
         None false ∅ ∅ false reconnect_delay.

(** The answers of the network to the coming calls, in order:
    [websockets.connect] and [ws.send] ([None]: done, [Some e]: raises [e]),
    and [ws.recv]. An exhausted script answers: no connection, sent,
    connection closed. *)
Record world := World {
  w_connect : list (option exn);
  w_send : list (option exn);
  w_recv : list (res frame)
}.

(** What a coroutine did, in order. *)
Inductive event :=
| EvConnect (established : bool)       (* websockets.connect(self._url) *)
| EvSend (f : frame)                   (* self._ws.send(f), written *)
| EvClose                              (* self._ws.close() *)
| EvSleep (d : R)                      (* asyncio.sleep(d) *)
| EvCall (h : nat) (msg : message).    (* handler(msg) *)

Record sys := Sys {
  s_client : client;
  s_world : world;
  s_trace : list event
}.

(** A coroutine: it ends with a value or an exception, in a new state. *)
Definition M (A : Type) : Type := sys -> res A * sys.

Definition ret {A} (a : A) : M A := fun s => (Ok a, s).

Definition bind {A B} (m : M A) (k : A -> M B) : M B :=
  fun s => match m s with
           | (Ok a, s') => k a s'
           | (Raise e, s') => (Raise e, s')
           end.

Definition raise {A} (e : exn) : M A := fun s => (Raise e, s).

(** [try: m except Exception as e: h(e)] *)
Definition try_except {A} (m : M A) (h : exn -> M A) : M A :=
  fun s => match m s with
           | (Ok a, s') => (Ok a, s')
           | (Raise e, s') => h e s'
           end.

Notation "'do' x <- m ; k" := (bind m (fun x => k))
  (at level 10, x name, m at level 100, k at level 200).
Notation "m ;; k" := (bind m (fun _ => k))
  (at level 100, k at level 200, right associativity).

(** The result of a pure fallible call, inside a coroutine. *)
Definition lift {A} (r : res A) : M A := fun s => (r, s).

Definition get_client : M client := fun s => (Ok (s_client s), s).

Definition modify (f : client -> client) : M unit :=
  fun s => (Ok tt, Sys (f (s_client s)) (s_world s) (s_trace s)).

Definition log (e : event) : M unit :=
  fun s => (Ok tt, Sys (s_client s) (s_world s) (s_trace s ++ [e])).

(** [for x in xs: body(x)] *)
Fixpoint for_each {A} (xs : list A) (body : A -> M unit) : M unit :=
  match xs with
  | [] => ret tt
  | x :: xs' => body x ;; for_each xs' body
  end.

Definition set_ws (w : option socket) (c : client) : client :=
  Client (_binary c) (_auto_reconnect c) (_reconnect_delay c)
         (_max_reconnect_delay c) w (_running c) (_handlers c)
         (_subscriptions c) (_receive_task c) (_current_reconnect_delay c).

Definition set_running (b : bool) (c : client) : client :=
  Client (_binary c) (_auto_reconnect c) (_reconnect_delay c)
         (_max_reconnect_delay c) (_ws c) b (_handlers c)
         (_subscriptions c) (_receive_task c) (_current_reconnect_delay c).

Definition set_handlers (h : gmap str handler) (c : client) : client :=
  Client (_binary c) (_auto_reconnect c) (_reconnect_delay c)
         (_max_reconnect_delay c) (_ws c) (_running c) h
         (_subscriptions c) (_receive_task c) (_current_reconnect_delay c).

Definition set_subscriptions (subs : gset str) (c : client) : client :=
  Client (_binary c) (_auto_reconnect c) (_reconnect_delay c)
         (_max_reconnect_delay c) (_ws c) (_running c) (_handlers c)
         subs (_receive_task c) (_current_reconnect_delay c).

Definition set_receive_task (t : bool) (c : client) : client :=
  Client (_binary c) (_auto_reconnect c) (_reconnect_delay c)
         (_max_reconnect_delay c) (_ws c) (_running c) (_handlers c)
         (_subscriptions c) t (_current_reconnect_delay c).

Definition set_current_reconnect_delay (d : R) (c : client) : client :=
  Client (_binary c) (_auto_reconnect c) (_reconnect_delay c)
         (_max_reconnect_delay c) (_ws c) (_running c) (_handlers c)
         (_subscriptions c) (_receive_task c) d.

(** [await websockets.connect(self._url)]: the socket, open. *)
Definition ws_connect : M socket :=
  fun s =>
    let w := s_world s in
    match w_connect w with
    | None :: rest =>
        (Ok (Socket true),
         Sys (s_client s) (World rest (w_send w) (w_recv w))
             (s_trace s ++ [EvConnect true]))
    | Some e :: rest =>
        (Raise e,
         Sys (s_client s) (World rest (w_send w) (w_recv w))
             (s_trace s ++ [EvConnect false]))
    | [] => (Raise OSError, Sys (s_client s) w (s_trace s ++ [EvConnect false]))
    end.

(** [await self._ws.send(f)]; a send that finds the connection closed
    leaves the socket closed. *)
Definition ws_send (f : frame) : M unit :=
  fun s =>
    let w := s_world s in
    match w_send w with
    | Some e :: rest =>
        let c := match e with
                 | ConnectionClosed => set_ws (Some (Socket false)) (s_client s)
                 | _ => s_client s
                 end in
        (Raise e, Sys c (World (w_connect w) rest (w_recv w)) (s_trace s))
    | None :: rest =>
        (Ok tt, Sys (s_client s) (World (w_connect w) rest (w_recv w))
                    (s_trace s ++ [EvSend f]))
    | [] => (Ok tt, Sys (s_client s) w (s_trace s ++ [EvSend f]))
    end.

(** [await self._ws.recv()]; a closed connection leaves the socket closed. *)
Definition ws_recv : M frame :=
  fun s =>
    let w := s_world s in
    let closed := set_ws (Some (Socket false)) (s_client s) in
    match w_recv w with
    | Ok f :: rest =>
        (Ok f, Sys (s_client s) (World (w_connect w) (w_send w) rest) (s_trace s))
    | Raise e :: rest =>
        let c := match e with
                 | ConnectionClosed => closed
                 | _ => s_client s
                 end in
        (Raise e, Sys c (World (w_connect w) (w_send w) rest) (s_trace s))
    | [] => (Raise ConnectionClosed, Sys closed w (s_trace s))
    end.

(** [await self._ws.close()], when it returns. A close that raises is not
    modelled: [_reconnect] discards what it raises, and what is stated of
    [disconnect] is stated of calls that return. *)
Definition ws_close : M unit := log EvClose.

(** [json.dumps(message)]: bytes and arbitrary objects are not JSON
    serializable. *)
Definition json_serializable (v : pyval) : bool :=
  match v with
  | PyBytes _ | PyObject _ => false
  | _ => true
  end.

Definition dumps (msg : message) : res frame :=
  if forallb (fun kv => json_serializable (snd kv)) (default [] (m_data msg))
  then Ok (Text (Ok msg))
  else Raise TypeError.

(** [json.loads(message)], as far as the receive loop needs it: the
    document of a str frame; a bytes frame on a JSON connection is taken not
    to hold a document. *)
Definition loads (f : frame) : res message :=
  match f with
  | Text doc => doc
  | Binary _ => Raise TypeError
  end.

(** The property [connected]. *)
Definition connected (c : client) : bool :=
  match _ws c with
  | Some sock => sock_open sock
  | None => false
  end.

Definition _send_message (msg : message) : M unit :=
  do c <- get_client;
  if negb (connected c)
  then raise (WebSocketError "WebSocket is not connected")
  else
    try_except
      (if _binary c
       then (do data <- lift (encode msg); ws_send (Binary data))
       else (do text <- lift (dumps msg); ws_send text))
      (fun e => raise (WebSocketErrorFrom "Failed to send message" e)).

Definition _send_subscribe (channel : str) : M unit :=
  _send_message (Message (Some (lit "subscribe")) (Some channel) None).

Definition _send_unsubscribe (channel : str) : M unit :=
  _send_message (Message (Some (lit "unsubscribe")) (Some channel) None).

(** [connect]: the receive task is created, and runs when the scheduler
    gives it the turn. The set of subscriptions is walked in the order
    [elements] lists it. *)
Definition connect : M unit :=
  try_except
    (do sock <- ws_connect;
     modify (set_ws (Some sock)) ;;
     modify (set_running true) ;;
     modify (fun c => set_current_reconnect_delay (_reconnect_delay c) c) ;;
     modify (set_receive_task true) ;;
     do c <- get_client;
     for_each (elements (_subscriptions c)) _send_subscribe)
    (fun e => raise (WebSocketErrorFrom "Failed to connect" e)).

Definition disconnect : M unit :=
  modify (set_running false) ;;
  modify (set_receive_task false) ;;
  do c <- get_client;
  match _ws c with
  | Some _ => ws_close ;; modify (set_ws None)
  | None => ret tt
  end.

Definition subscribe (channel : str) : M unit :=
  modify (fun c => set_subscriptions ({[channel]} ∪ _subscriptions c) c) ;;
  do c <- get_client;
  if connected c then _send_subscribe channel else ret tt.

Definition unsubscribe (channel : str) : M unit :=
  modify (fun c => set_subscriptions (_subscriptions c ∖ {[channel]}) c) ;;
  do c <- get_client;
  if connected c then _send_unsubscribe channel else ret tt.

Definition on (event_type : str) (h : handler) : M unit :=
  modify (fun c => set_handlers (<[event_type := h]> (_handlers c)) c).

Definition off (event_type : str) : M unit :=
  modify (fun c => set_handlers (delete event_type (_handlers c)) c).

Definition send_terminal_input (terminal_id input_text : str) : M unit :=
  _send_message
    (Message (Some (lit "terminal:input")) None
       (Some [(lit "terminal_id", PyStr terminal_id);
              (lit "input", PyStr input_text)])).

Definition resize_terminal (terminal_id : str) (cols rows : Z) : M unit :=
  _send_message
    (Message (Some (lit "terminal:resize")) None
       (Some [(lit "terminal_id", PyStr terminal_id);
              (lit "cols", PyInt cols); (lit "rows", PyInt rows)])).

Definition start_command (cmd_id : str) : M unit :=
  _send_message
    (Message (Some (lit "command:start")) None
       (Some [(lit "cmd_id", PyStr cmd_id)])).

Definition _reconnect : M unit :=
  do c <- get_client;
  match _ws c with
  | Some _ => ws_close ;; modify (set_ws None)
  | None => ret tt
  end ;;
  do c <- get_client;
  log (EvSleep (_current_reconnect_delay c)) ;;
  modify (fun c => set_current_reconnect_delay
                     (Rmin (_current_reconnect_delay c * 2)
                           (_max_reconnect_delay c)) c) ;;
  try_except
    (do sock <- ws_connect;
     modify (set_ws (Some sock)) ;;
     modify (fun c => set_current_reconnect_delay (_reconnect_delay c) c) ;;
     do c <- get_client;
     for_each (elements (_subscriptions c)) _send_subscribe)
    (fun _ => ret tt).

(** [await handler(data)] *)
Definition call (h : handler) (data : message) : M unit :=
  log (EvCall (h_id h) data) ;;
  lift (h_run h data).

(** The dispatch step of the receive loop: the handler of the message's
    type, then the wildcard handler. *)
Definition dispatch (data : message) : M unit :=
  let event_type := default (lit "") (m_type data) in
  do c <- get_client;
  match _handlers c !! event_type with
  | Some h => try_except (call h data) (fun _ => ret tt)
  | None => ret tt
  end ;;
  do c <- get_client;
  match _handlers c !! lit "*" with
  | Some h => try_except (call h data) (fun _ => ret tt)
  | None => ret tt
  end.

(** What the receive loop makes of a frame it received: a bytes frame goes
    to the binary decoder when the client has one, anything else to
    [json.loads]. *)
Definition decode_frame (binary : bool) (f : frame) : res message :=
  match f with
  | Binary b => if binary then decode b else loads f
  | Text _ => loads f
  end.

(** One turn of the [while self._running] loop of [_receive_loop], entered
    with [_running] true: [true] goes on to the next test of the loop,
    [false] is [break]. *)
Definition receive_step : M bool :=
  fun s =>
    match
      (do c <- get_client;
       if negb (connected c) then
         (if _auto_reconnect c then (_reconnect ;; ret true) else ret false)
       else
         do f <- ws_recv;
         do data <- lift (decode_frame (_binary c) f);
         dispatch data ;;
         ret true) s
    with
    | (Ok b, s') => (Ok b, s')
    | (Raise ConnectionClosed, s') =>
        (do c <- get_client;
         if _auto_reconnect c && _running c
         then (_reconnect ;; ret true) else ret false) s'
    | (Raise _, s') =>
        (do c <- get_client;
         if _auto_reconnect c && _running c
         then (log (EvSleep (1 / 10)%R) ;; ret true) else ret false) s'
    end.

(** [_receive_loop], for at most [fuel] turns. *)
Fixpoint _receive_loop (fuel : nat) : M unit :=
  match fuel with
  | O => ret tt
  | S fuel' =>
      do c <- get_client;
      if _running c then
        do continue <- receive_step;
        if continue then _receive_loop fuel' else ret tt
      else ret tt
  end.

(** ** Cancellation

    [asyncio.CancelledError] is a [BaseException] and not an [Exception]:
    a clause [except Exception] lets it through, and [_receive_loop] has a
    clause of its own for it. The exceptions of [exn] are all instances of
    [Exception]; here are the dispatch step and the receive loop once more,
    clause by clause, for handlers whose [await] may also end with
    [CancelledError]. *)
Module Cancellation.

Inductive base_exception : Type :=
| Exception (e : exn)          (* an instance of Exception *)
| CancelledError.              (* asyncio.CancelledError *)

Inductive outcome (A : Type) : Type :=
| Returns (a : A)
| Raises (e : base_exception).
Arguments Returns {A} a.
Arguments Raises {A} e.

Definition coroutine (A : Type) : Type := sys -> outcome A * sys.

Definition co_ret {A} (a : A) : coroutine A := fun s => (Returns a, s).

Definition co_bind {A B} (m : coroutine A) (k : A -> coroutine B) : coroutine B :=
  fun s => match m s with
           | (Returns a, s') => k a s'
           | (Raises e, s') => (Raises e, s')
           end.

(** A coroutine of the client as modelled above: what it raises is an
    instance of [Exception]. *)
Definition await {A} (m : M A) : coroutine A :=
  fun s => match m s with
           | (Ok a, s') => (Returns a, s')
           | (Raise e, s') => (Raises (Exception e), s')
           end.

(** [await handler(data)], where [cancelled (h_id h) data] says that the
    await ends with [CancelledError]; otherwise the handler returns or
    raises as [h_run] says. *)
Definition call (cancelled : nat -> message -> bool) (h : handler)
    (data : message) : coroutine unit :=
  if cancelled (h_id h) data
  then co_bind (await (log (EvCall (h_id h) data)))
               (fun _ s => (Raises CancelledError, s))
  else await (call h data).

(** [try: m except Exception: pass] *)
Definition except_Exception_pass (m : coroutine unit) : coroutine unit :=
  fun s => match m s with
           | (Raises (Exception _), s') => (Returns tt, s')
           | r => r
           end.

Definition dispatch (cancelled : nat -> message -> bool) (data : message) :
    coroutine unit :=
  let event_type := default (lit "") (m_type data) in
  co_bind (await get_client) (fun c =>
  co_bind (match _handlers c !! event_type with
           | Some h => except_Exception_pass (call cancelled h data)
           | None => co_ret tt
           end) (fun _ =>
  co_bind (await get_client) (fun c =>
  match _handlers c !! lit "*" with
  | Some h => except_Exception_pass (call cancelled h data)
  | None => co_ret tt
  end))).

(** One turn of the [while self._running] loop, with its three [except]
    clauses in the order of the source: [true] goes on to the next test of
    the loop, [false] is [break]. *)
Definition receive_step (cancelled : nat -> message -> bool) : coroutine bool :=
  fun s =>
    match
      co_bind (await get_client) (fun c =>
        if negb (connected c) then
          (if _auto_reconnect c
           then co_bind (await _reconnect) (fun _ => co_ret true)
           else co_ret false)
        else
          co_bind (await ws_recv) (fun f =>
          co_bind (await (lift (decode_frame (_binary c) f))) (fun data =>
          co_bind (dispatch cancelled data) (fun _ =>
          co_ret true)))) s
    with
    | (Returns b, s') => (Returns b, s')
    | (Raises (Exception ConnectionClosed), s') =>
        await (do c <- get_client;
               if _auto_reconnect c && _running c
               then (_reconnect ;; ret true) else ret false) s'
    | (Raises CancelledError, s') => (Returns false, s')
    | (Raises (Exception _), s') =>
        await (do c <- get_client;
               if _auto_reconnect c && _running c
               then (log (EvSleep (1 / 10)%R) ;; ret true) else ret false) s'
    end.

(** [_receive_loop], for at most [fuel] turns. *)
Fixpoint _receive_loop (cancelled : nat -> message -> bool) (fuel : nat) :
    coroutine unit :=
  match fuel with
  | O => co_ret tt
  | S fuel' =>
      co_bind (await get_client) (fun c =>
      if _running c then
        co_bind (receive_step cancelled) (fun continue =>
        if continue then _receive_loop cancelled fuel' else co_ret tt)
      else co_ret tt)
  end.

End Cancellation.

(** ** Reading aids

    The value of a field as the loop of [_decode_data] reads it, given the
    tag and the declared value bytes [vb] (the bytes
    [data[offset : offset + val_len]]). *)
Definition wire_value (val_type : byte) (vb : list byte) : res pyval :=
  if Byte.eqb val_type VAL_STRING then
    s ← utf8_decode Strict vb; Ok (PyStr s)
  else if Byte.eqb val_type VAL_NUMBER then
    if len vb >=? 8 then x ← unpack_d (slice vb 0 8); Ok (PyFloat x)
    else Ok (PyFloat float_zero)
  else if Byte.eqb val_type VAL_BOOLEAN then
    if len vb >=? 1 then b ← index vb 0; Ok (PyBool (Byte.eqb b x01))
    else Ok (PyBool false)
  else if Byte.eqb val_type VAL_BYTES then Ok (PyBytes vb)
  else s ← utf8_decode Replace vb; Ok (PyStr s).

(** The values the wire format has a tag for: text, booleans, floats
    (a bit pattern of 64 bits) and byte sequences. *)
Definition wire_typed (v : pyval) : Prop :=
  match v with
  | PyStr _ | PyBool _ | PyBytes _ => True
  | PyFloat x => 0 <= x < 2 ^ 64
  | _ => False
  end.

(** A payload as a Python dict holds it: no key twice. *)
Definition is_dict (d : payload) : Prop := NoDup (map fst d).

(** [decode(encode(m))] *)
Definition roundtrip (m : message) : res message :=
  data ← encode m; decode data.

(** The messages of the round-trip property as the specification words it:
    channel and message type encode to at most 65535 bytes, and the payload
    maps keys that do so to text or bytes of at most 4294967295 bytes, to
    booleans or to floats. *)
Definition fits (limit : Z) (s : str) : Prop :=
  exists bs, utf8_encode s = Ok bs /\ len bs <= limit.

Definition value_fits (v : pyval) : Prop :=
  match v with
  | PyStr s => fits 0xFFFFFFFF s
  | PyBool _ => True
  | PyFloat x => 0 <= x < 2 ^ 64
  | PyBytes b => len b <= 0xFFFFFFFF
  | _ => False
  end.

Definition fields_fit (m : message) : Prop :=
  exists t c d,
    m = Message (Some t) (Some c) (Some d) /\
    fits 0xFFFF t /\ fits 0xFFFF c /\ is_dict d /\
    Forall (fun kv => fits 0xFFFF (fst kv) /\ value_fits (snd kv)) d.

(** The [2^k] consecutive code points from [base] on. *)
Fixpoint code_points (k : nat) (base : Z) : list Z :=
  match k with
  | O => [base]
  | S k' => code_points k' base ++ code_points k' (base + 2 ^ Z.of_nat k')
  end.

(** A payload of 65536 boolean fields, each under a key of one character
    (U+10000, U+10001, ...). *)
Definition many_fields : payload :=
  map (fun c => ([c], PyBool true)) (code_points 16 0x10000).

Definition many_fields_message : message :=
  Message (Some (lit "data")) (Some (lit "c")) (Some many_fields).

(** The end-to-end example of the specification. *)
Definition terminal_message : message :=
  Message (Some (lit "data")) (Some (lit "terminal:1"))
    (Some [(lit "output", PyStr [104; 105; 10]);
           (lit "exit_code", PyFloat float_zero);
           (lit "done", PyBool true)]).

(** The frame [_send_subscribe(channel)] hands to the socket. *)
Definition subscribe_frame (binary : bool) (channel : str) : res frame :=
  let msg := Message (Some (lit "subscribe")) (Some channel) None in
  if binary then data ← encode msg; Ok (Binary data) else dumps msg.

(** The outbound traffic of a trace: the frames written to the socket. *)
Definition sent (tr : list event) : list frame :=
  omap (fun e => match e with EvSend f => Some f | _ => None end) tr.


(** The invocations the dispatch step owes a message: the handler of its
    type if there is one, then the wildcard handler if there is one. *)
Definition handler_calls (c : client) (data : message) : list event :=
  match _handlers c !! default (lit "") (m_type data) with
  | Some h => [EvCall (h_id h) data]
  | None => []
  end ++
  match _handlers c !! lit "*" with
  | Some h => [EvCall (h_id h) data]
  | None => []
  end.


(** A JSON client, connected and running, with a handler for "x" that
    raises and a handler for "y" that returns; and a message of each type. *)
Definition example_client : client :=
  Client false true 1 30 (Some (Socket true)) true
    (<[lit "x" := Handler 1 (fun _ => Raise (HandlerFault 0))]>
       (<[lit "y" := Handler 2 (fun _ => Ok tt)]> ∅))
    ∅ true 1.

Definition message_x : message := Message (Some (lit "x")) (Some (lit "c")) (Some []).

(** None of the awaits the dispatch step owes [data] is cancelled. *)
Definition uncancelled (cancelled : nat -> message -> bool) (c : client)
    (data : message) : Prop :=
  Forall (fun ev => match ev with
                    | EvCall id msg => cancelled id msg = false
                    | _ => True
                    end)
         (handler_calls c data).



(** A new binary client, and a network on which the next connection
    attempt is answered. *)
Definition new_client_system : sys :=
  Sys (__init__ true true 1 30) (World [None] [] []) [].




(** ** Further parts of [BinaryProtocol] *)

(** The items of the dict literal [TYPE_TO_BYTE]. *)
Definition TYPE_TO_BYTE_items : list (str * byte) :=
  [(lit "subscribe", MSG_SUBSCRIBE); (lit "unsubscribe", MSG_UNSUBSCRIBE);
   (lit "data", MSG_DATA); (lit "error", MSG_ERROR);
   (lit "connected", MSG_CONNECTED)].

(** [BYTE_TO_TYPE.get(b)], where [BYTE_TO_TYPE] is
    [{v: k for k, v in TYPE_TO_BYTE.items()}]: the key of the last item
    whose value is [b]. *)
Definition BYTE_TO_TYPE (b : byte) : option str :=
  fold_left (fun found kv => if Byte.eqb (snd kv) b then Some (fst kv) else found)
            TYPE_TO_BYTE_items None.

(** ** Dict lookup *)

(** [d.get(key)] *)
Fixpoint dict_get (d : payload) (key : str) : option pyval :=
  match d with
  | [] => None
  | (k, v) :: d' => if decide (k = key) then Some v else dict_get d' key
  end.

(** ** [TerminalSession] *)

Module TerminalSession.

(** A session object. Its [_client] is the client of the system state;
    [_output_handler] is the callback set with [on_output], if any, as the
    outcome of calling it on a value. *)
Record t := Session {
  _terminal_id : str;
  _channel : str;
  _output_handler : option (pyval -> res unit)
}.

(** [TerminalSession(sandbox_url, token, terminal_id, channel)]: the
    session, and its client [WebSocketClient(ws_url, token)]. *)
Definition __init__ (terminal_id channel : str) : t * client :=
  (Session terminal_id channel None, __init__ true true 1 30).

Definition on_output (self : t) (handler : pyval -> res unit) : t :=
  Session (_terminal_id self) (_channel self) (Some handler).

Definition write (self : t) (text : str) : M unit :=
  send_terminal_input (_terminal_id self) text.

Definition resize (self : t) (cols rows : Z) : M unit :=
  resize_terminal (_terminal_id self) cols rows.

(** [_handle_output(data)]: [data.get("data", {}).get("output", "")] goes
    to the output handler, if there is one. *)
Definition _handle_output (self : t) (data : message) : res unit :=
  match _output_handler self with
  | Some handler =>
      let output := default (PyStr (lit ""))
                      (dict_get (default [] (m_data data)) (lit "output")) in
      handler output
  | None => Ok tt
  end.

(** [__aenter__]; [id] is the identity under which the bound method
    [self._handle_output] appears in traces. *)
Definition __aenter__ (self : t) (id : nat) : M unit :=
  on (lit "terminal:output") (Handler id (_handle_output self)) ;;
  connect ;;
  subscribe (_channel self).

Definition __aexit__ : M unit := disconnect.

End TerminalSession.

(** ** Reading aids for the further properties *)

(** An outcome that, if it is an exception, is the [UnicodeDecodeError]
    of some run of bytes of [data] that is not UTF-8. *)
Definition unicode_fault_of {A} (data : list byte) (r : res A) : Prop :=
  forall e, r = Raise e ->
    e = UnicodeDecodeError /\
    exists bs, bs ⊆ data /\ utf8_decode Strict bs = Raise UnicodeDecodeError.

(** The value a field comes back with after [encode] and [decode]: text,
    booleans, floats and bytes as they are, an int as the float [float(n)],
    a nested dict or list as its JSON text, [None] as the empty string and
    any other object as its [str] text. *)
Definition wire_form (v : pyval) : res pyval :=
  match v with
  | PyStr s => Ok (PyStr s)
  | PyBool b => Ok (PyBool b)
  | PyInt n => x ← float_of_int n; Ok (PyFloat x)
  | PyFloat x => Ok (PyFloat x)
  | PyBytes b => Ok (PyBytes b)
  | PyDict json | PyList json => Ok (PyStr json)
  | PyNone => Ok (PyStr [])
  | PyObject repr => Ok (PyStr repr)
  end.

(** A float value is a bit pattern of 64 bits. *)
Definition float_pattern (v : pyval) : Prop :=
  match v with
  | PyFloat x => 0 <= x < 2 ^ 64
  | _ => True
  end.

(** The dict built by [result[key] = value] for each item in turn. *)
Definition dict_of (items : list (str * pyval)) : payload :=
  fold_left (fun d kv => dict_set d (fst kv) (snd kv)) items [].

(** Field by field: same key, value in its wire form. *)
Definition wire_forms (d d' : payload) : Prop :=
  Forall2 (fun kv kv' => fst kv' = fst kv /\ wire_form (snd kv) = Ok (snd kv')) d d'.

(** The message [resize_terminal("t1", 80, 24)] sends. *)
Definition resize_message : message :=
  Message (Some (lit "terminal:resize")) None
    (Some [(lit "terminal_id", PyStr (lit "t1"));
           (lit "cols", PyInt 80); (lit "rows", PyInt 24)]).

(** Two boolean fields; and three items, the first key coming twice. *)
Definition two_flags : payload :=
  [(lit "a", PyBool true); (lit "b", PyBool false)].

Definition repeated_items : list (str * pyval) :=
  [(lit "a", PyBool true); (lit "b", PyBool true); (lit "a", PyBool false)].

(** The frame [_send_message(msg)] hands to the socket: the binary
    encoding when the client has an encoder, the JSON text otherwise. *)
Definition message_frame (binary : bool) (msg : message) : res frame :=
  if binary then data ← encode msg; Ok (Binary data) else dumps msg.

(** The frame [_send_unsubscribe(channel)] hands to the socket. *)
Definition unsubscribe_frame (binary : bool) (channel : str) : res frame :=
  message_frame binary (Message (Some (lit "unsubscribe")) (Some channel) None).

(** The event of closing the socket held in [ws], if any. *)
Definition closing (ws : option socket) : list event :=
  match ws with Some _ => [EvClose] | None => [] end.

(** A binary client with an open socket, running, on a network that
    accepts every frame. *)
Definition connected_system : sys :=
  Sys (set_ws (Some (Socket true)) (set_running true (__init__ true true 1 30)))
      (World [] [] []) [].

(** A new binary client that has recorded subscriptions to "a" and "b",
    on a network on which the next connection attempt is answered. *)
Definition offline_subscribed_system : sys :=
  Sys (set_subscriptions ({[lit "a"]} ∪ {[lit "b"]}) (__init__ true true 1 30))
      (World [None] [] []) [].

(** The same with an open socket, running. *)
Definition subscribed_system : sys :=
  Sys (set_subscriptions ({[lit "a"]} ∪ {[lit "b"]})
         (set_ws (Some (Socket true)) (set_running true (__init__ true true 1 30))))
      (World [None] [] []) [].


(** The same with auto-reconnect. *)
Definition auto_reconnect_system : sys :=
  Sys (set_ws (Some (Socket true)) (set_running true (__init__ true true 1 30)))
      (World [] [] [Ok (Binary [x03; x00; x01; xff]);
                    Ok (Binary [x03; x00; x00; x00; x00])])
      [].

(** The invocation the dispatch step owes the wildcard handler. *)
Definition wildcard_calls (c : client) (data : message) : list event :=
  match _handlers c !! lit "*" with
  | Some h => [EvCall (h_id h) data]
  | None => []
  end.

(** A client with a wildcard handler only. *)
Definition wildcard_client : client :=
  Client true true 1 30 (Some (Socket true)) true
    (<[lit "*" := Handler 9 (fun _ => Ok tt)]> ∅) ∅ true 1.

Definition message_star : message :=
  Message (Some (lit "*")) (Some (lit "c")) (Some []).

(** A session on terminal "t1" with channel "terminal:t1", whose output
    handler accepts text and rejects anything else. *)
Definition example_session : TerminalSession.t :=
  TerminalSession.on_output
    (fst (TerminalSession.__init__ (lit "t1") (lit "terminal:t1")))
    (fun v => match v with PyStr _ => Ok tt | _ => Raise TypeError end).

(** The client of a new session on terminal "t1", on a network that
    answers the next two connection attempts. *)
Definition session_system : sys :=
  Sys (snd (TerminalSession.__init__ (lit "t1") (lit "terminal:t1")))
      (World [None; None] [] []) [].

(** * Properties *)

(** ** Bytes and big-endian numbers *)

Arguments be_bytes : simpl never.
Arguments be_value : simpl never.
Arguments byte_of : simpl never.
Arguments byte_val : simpl never.

Lemma byte_val_range (b : byte) : 0 <= byte_val b < 256.
Proof.
  unfold byte_val. pose proof (Byte.to_N_bounded b). lia.
Qed.

Lemma byte_of_val (b : byte) : byte_of (byte_val b) = b.
Proof.
  unfold byte_of. rewrite Z.mod_small by apply byte_val_range.
  unfold byte_val. rewrite N2Z.id, Byte.of_to_N. reflexivity.
Qed.

Lemma byte_val_of_mod (z : Z) : byte_val (byte_of z) = z mod 256.
Proof.
  unfold byte_of, byte_val.
  pose proof (Z.mod_pos_bound z 256 ltac:(lia)) as Hm.
  destruct (Byte.of_N (Z.to_N (z mod 256))) as [b|] eqn:E; simpl.
  - apply Byte.to_of_N in E. rewrite E. lia.
  - apply Byte.of_N_None_iff in E. lia.
Qed.

Lemma byte_val_of (z : Z) : 0 <= z < 256 -> byte_val (byte_of z) = z.
Proof.
  intros H. rewrite byte_val_of_mod. apply Z.mod_small, H.
Qed.

Lemma byte_val_inj (a b : byte) : byte_val a = byte_val b -> a = b.
Proof.
  intros H. rewrite <- (byte_of_val a), <- (byte_of_val b). congruence.
Qed.

Lemma len_nil {A} : len (@nil A) = 0.
Proof. reflexivity. Qed.

Lemma len_cons {A} (x : A) (l : list A) : len (x :: l) = 1 + len l.
Proof. unfold len. simpl length. lia. Qed.

Lemma len_app {A} (l k : list A) : len (l ++ k) = len l + len k.
Proof. unfold len. rewrite length_app. lia. Qed.

Lemma len_nonneg {A} (l : list A) : 0 <= len l.
Proof. unfold len. lia. Qed.

Lemma be_bytes_S (k : nat) (n : Z) :
  be_bytes (S k) n = be_bytes k (n / 256) ++ [byte_of n].
Proof. reflexivity. Qed.

Lemma len_be_bytes (k : nat) (n : Z) : len (be_bytes k n) = Z.of_nat k.
Proof.
  revert n. induction k as [|k IH]; intros n; [reflexivity|].
  rewrite be_bytes_S, len_app, IH, len_cons, len_nil. lia.
Qed.

Lemma be_value_snoc (bs : list byte) (b : byte) :
  be_value (bs ++ [b]) = be_value bs * 256 + byte_val b.
Proof. unfold be_value. rewrite fold_left_app. reflexivity. Qed.

Lemma be_value_be_bytes (k : nat) (n : Z) :
  0 <= n < 256 ^ Z.of_nat k -> be_value (be_bytes k n) = n.
Proof.
  revert n. induction k as [|k IH]; intros n Hn.
  - unfold be_value, be_bytes. simpl in *. lia.
  - rewrite be_bytes_S, be_value_snoc, byte_val_of_mod.
    rewrite Nat2Z.inj_succ, Z.pow_succ_r in Hn by lia.
    rewrite IH.
    + pose proof (Z.div_mod n 256 ltac:(lia)). lia.
    + split; [apply Z.div_pos; lia|].
      apply Z.div_lt_upper_bound; lia.
Qed.

Lemma be_value_nonneg (bs : list byte) : 0 <= be_value bs.
Proof.
  induction bs as [|b bs IH] using rev_ind; [unfold be_value; simpl; lia|].
  rewrite be_value_snoc. pose proof (byte_val_range b). lia.
Qed.

Lemma unpack_H_pack (n : Z) (bs : list byte) :
  pack_H n = Ok bs -> unpack_H bs = Ok n /\ len bs = 2.
Proof.
  unfold pack_H, unpack_H. intros H.
  destruct ((0 <=? n) && (n <=? 65535)) eqn:E; [|discriminate].
  replace bs with (be_bytes 2 n) by congruence. rewrite len_be_bytes.
  split; [|reflexivity]. simpl. f_equal. apply be_value_be_bytes. lia.
Qed.

Lemma unpack_I_pack (n : Z) (bs : list byte) :
  pack_I n = Ok bs -> unpack_I bs = Ok n /\ len bs = 4.
Proof.
  unfold pack_I, unpack_I. intros H.
  destruct ((0 <=? n) && (n <=? 4294967295)) eqn:E; [|discriminate].
  replace bs with (be_bytes 4 n) by congruence. rewrite len_be_bytes.
  split; [|reflexivity]. simpl. f_equal. apply be_value_be_bytes. lia.
Qed.

Lemma unpack_d_pack (x : float64) :
  0 <= x < 2 ^ 64 -> unpack_d (pack_d x) = Ok x.
Proof.
  intros H. unfold unpack_d, pack_d. rewrite len_be_bytes. simpl.
  f_equal. apply be_value_be_bytes. lia.
Qed.

Lemma unpack_H_nonneg (bs : list byte) (n : Z) : unpack_H bs = Ok n -> 0 <= n.
Proof.
  unfold unpack_H. destruct (len bs =? 2); [|discriminate].
  intros [= <-]. apply be_value_nonneg.
Qed.

Lemma unpack_I_nonneg (bs : list byte) (n : Z) : unpack_I bs = Ok n -> 0 <= n.
Proof.
  unfold unpack_I. destruct (len bs =? 4); [|discriminate].
  intros [= <-]. apply be_value_nonneg.
Qed.

(** ** Slices and indexing of a byte string laid out as [pre ++ x ++ post] *)

Lemma slice_at {A} (pre x post : list A) (lo hi : Z) :
  lo = len pre -> hi = lo + len x -> slice (pre ++ x ++ post) lo hi = x.
Proof.
  intros -> ->. unfold slice, len.
  replace (Z.of_nat (length pre) + Z.of_nat (length x) - Z.of_nat (length pre))
    with (Z.of_nat (length x)) by lia.
  rewrite !Nat2Z.id, drop_app_length, take_app_length. reflexivity.
Qed.

Lemma slice_short {A} (pre x : list A) (lo hi : Z) :
  lo = len pre -> lo + len x <= hi -> slice (pre ++ x) lo hi = x.
Proof.
  intros -> H. unfold slice, len in *.
  rewrite Nat2Z.id, drop_app_length. apply take_ge. lia.
Qed.

Lemma slice_cons {A} (a b : A) (l : list A) (lo hi : Z) :
  1 <= lo -> slice (a :: l) lo hi = slice (b :: l) lo hi.
Proof.
  intros H. unfold slice.
  destruct (Z.to_nat lo) as [|n] eqn:E; [lia|]. reflexivity.
Qed.

Lemma index_at (pre : list byte) (b : byte) (post : list byte) (i : Z) :
  i = len pre -> index (pre ++ b :: post) i = Ok b.
Proof.
  intros ->. unfold index.
  pose proof (len_nonneg pre) as Hp.
  destruct (len pre <? 0) eqn:E; [lia|].
  rewrite len_app, len_cons.
  pose proof (len_nonneg post).
  replace ((0 <=? len pre) && (len pre <? len pre + (1 + len post))) with true
    by (symmetry; apply andb_true_iff; lia).
  unfold len. rewrite Nat2Z.id, list_lookup_middle by reflexivity. reflexivity.
Qed.

Lemma index_head (a : byte) (l : list byte) : index (a :: l) 0 = Ok a.
Proof. apply (index_at [] a l). reflexivity. Qed.

Lemma index_cons (a b : byte) (l : list byte) (i : Z) :
  1 <= i -> index (a :: l) i = index (b :: l) i.
Proof.
  intros H. unfold index. rewrite !len_cons.
  destruct (i <? 0) eqn:E; [lia|].
  destruct ((0 <=? i) && (i <? 1 + len l)); [|reflexivity].
  destruct (Z.to_nat i) as [|n] eqn:En; [lia|]. reflexivity.
Qed.

(** ** The fallible-computation monad *)

Lemma bind_Ok {A B} (a : A) (k : A -> res B) : (Ok a ≫= k) = k a.
Proof. reflexivity. Qed.

Lemma bind_Raise {A B} (e : exn) (k : A -> res B) : (Raise e ≫= k) = Raise e.
Proof. reflexivity. Qed.

(** ** The kind byte *)

Ltac kind_step b b' :=
  first
    [ rewrite (slice_cons b b') by lia
    | progress rewrite !bind_Ok
    | match goal with
      | |- (if ?c then _ else _) = (if ?c then _ else _) =>
          destruct c; [reflexivity|]
      | |- (unpack_H ?x ≫= _) = _ =>
          let E := fresh "E" in
          destruct (unpack_H x) eqn:E; [apply unpack_H_nonneg in E|reflexivity]
      | |- (unpack_I ?x ≫= _) = _ =>
          let E := fresh "E" in
          destruct (unpack_I x) eqn:E; [apply unpack_I_nonneg in E|reflexivity]
      | |- (?m ≫= _) = (?m ≫= _) => destruct m; [|reflexivity]
      end ].

(** C9. The kind byte of an incoming frame is never consulted: whatever
    byte [b] stands first (in particular one outside 0x01..0x05), decoding
    [bytes([b]) + rest] raises exactly when decoding [bytes([0x03]) + rest]
    does and otherwise returns the same message. *)
Theorem decode_unknown_kind_as_data (b : byte) (rest : list byte) :
  decode (b :: rest) = decode (MSG_DATA :: rest).
Proof.
  unfold decode. cbv zeta. rewrite !len_cons.
  pose proof (len_nonneg rest) as Hrest.
  destruct (1 + len rest <? 1) eqn:E0; [lia|].
  rewrite !index_head.
  repeat kind_step b MSG_DATA.
  reflexivity.
Qed.

(** ** Reading a laid-out frame *)

Lemma gtb_false (x y : Z) : x <= y -> (x >? y) = false.
Proof. intros H. rewrite Z.gtb_ltb. apply Z.ltb_ge. lia. Qed.

Lemma gtb_true (x y : Z) : y < x -> (x >? y) = true.
Proof. intros H. rewrite Z.gtb_ltb. apply Z.ltb_lt. lia. Qed.

Lemma slice_of {A} (data pre x post : list A) (lo hi : Z) :
  data = pre ++ x ++ post -> lo = len pre -> hi = lo + len x ->
  slice data lo hi = x.
Proof. intros ->. apply slice_at. Qed.

Lemma index_of (data pre : list byte) (b : byte) (post : list byte) (i : Z) :
  data = pre ++ b :: post -> i = len pre -> index data i = Ok b.
Proof. intros ->. apply index_at. Qed.

Lemma slice_app_pre {A} (pre rest : list A) (lo hi a b : Z) :
  lo = len pre + a -> hi = len pre + b -> 0 <= a ->
  slice (pre ++ rest) lo hi = slice rest a b.
Proof.
  intros -> -> Ha. unfold slice, len.
  replace (Z.of_nat (length pre) + b - (Z.of_nat (length pre) + a)) with (b - a)
    by lia.
  replace (Z.to_nat (Z.of_nat (length pre) + a))
    with (length pre + Z.to_nat a)%nat by lia.
  rewrite drop_app_add. reflexivity.
Qed.

Lemma unpack_H_len (l : list byte) : len l = 2 -> unpack_H l = Ok (be_value l).
Proof. intros H. unfold unpack_H. rewrite H. reflexivity. Qed.

Lemma unpack_I_len (l : list byte) : len l = 4 -> unpack_I l = Ok (be_value l).
Proof. intros H. unfold unpack_I. rewrite H. reflexivity. Qed.

Ltac lens :=
  unfold len in *;
  repeat (progress (rewrite ?length_app in *; simpl length in * ));
  lia.

Ltac layout :=
  first [ solve [rewrite <- ?app_assoc; simpl; reflexivity]
        | solve [lens] ].

Lemma gtb_eq (x y x' y' : Z) : x - y = x' - y' -> (x >? y) = (x' >? y').
Proof.
  intros H. rewrite !Z.gtb_ltb.
  destruct (Z.ltb_spec y x), (Z.ltb_spec y' x'); (reflexivity || lia).
Qed.

Ltac decode_start data :=
  unfold decode; cbv zeta;
  replace (len data <? 1) with false by (symmetry; apply Z.ltb_ge; lens);
  replace (index data 0) with (Ok (hd x00 data)) by (symmetry; apply index_head);
  rewrite bind_Ok.

(** The frame stops before the channel length is complete. *)
Lemma decode_no_channel_len (b : byte) (rest : list byte) :
  len rest < 2 ->
  decode (b :: rest) = Ok (error_message (lit "") "Invalid message").
Proof.
  intros H. decode_start (b :: rest).
  rewrite gtb_true by lens. reflexivity.
Qed.

(** The frame stops before the declared channel bytes are complete. *)
Lemma decode_channel_short (b : byte) (l2 rest : list byte) :
  len l2 = 2 -> len rest < be_value l2 ->
  decode ([b] ++ l2 ++ rest) = Ok (error_message (lit "") "Invalid message").
Proof.
  intros Hl2 H. set (data := [b] ++ l2 ++ rest). decode_start data.
  rewrite gtb_false by lens.
  rewrite (slice_of data [b] l2 rest (0 + 1) (0 + 1 + 2)) by layout.
  rewrite (unpack_H_len l2 Hl2), bind_Ok, gtb_true by lens.
  reflexivity.
Qed.

(** What [decode] makes of the bytes after the channel, once the channel
    has been read. *)
Lemma decode_channel (b : byte) (l2 cb : list byte) (c : str) (rest : list byte) :
  len l2 = 2 -> be_value l2 = len cb -> utf8_decode Strict cb = Ok c ->
  decode ([b] ++ l2 ++ cb ++ rest) =
    if 2 >? len rest then Ok (error_message c "Invalid message") else
    msg_type_len ← unpack_H (slice rest 0 2);
    if 2 + msg_type_len >? len rest
    then Ok (error_message c "Invalid message") else
    msg_type ← utf8_decode Strict (slice rest 2 (2 + msg_type_len));
    if 2 + msg_type_len + 4 >? len rest
    then Ok (Message (Some msg_type) (Some c) (Some [])) else
    data_len ← unpack_I (slice rest (2 + msg_type_len) (2 + msg_type_len + 4));
    if 2 + msg_type_len + 4 + data_len >? len rest
    then Ok (Message (Some msg_type) (Some c) (Some [])) else
    payload ← _decode_data (slice rest (2 + msg_type_len + 4)
                                  (2 + msg_type_len + 4 + data_len));
    Ok (Message (Some msg_type) (Some c) (Some payload)).
Proof.
  intros Hl2 Hv Hc.
  set (data := [b] ++ l2 ++ cb ++ rest).
  assert (Hlen : len data = 3 + len cb + len rest) by (subst data; lens).
  decode_start data.
  rewrite gtb_false by lens.
  rewrite (slice_of data [b] l2 (cb ++ rest) (0 + 1) (0 + 1 + 2)) by layout.
  rewrite (unpack_H_len l2 Hl2), bind_Ok, Hv, gtb_false by lens.
  rewrite (slice_of data ([b] ++ l2) cb rest (0 + 1 + 2) (0 + 1 + 2 + len cb))
    by layout.
  rewrite Hc, bind_Ok.
  rewrite (gtb_eq _ (len data) 2 (len rest)) by lens.
  destruct (2 >? len rest); [reflexivity|].
  replace data with (([b] ++ l2 ++ cb) ++ rest) by layout.
  set (pre := [b] ++ l2 ++ cb).
  assert (Hpre : len pre = 3 + len cb) by (subst pre; lens).
  rewrite (slice_app_pre pre rest
             (0 + 1 + 2 + len cb) (0 + 1 + 2 + len cb + 2) 0 2) by lia.
  destruct (unpack_H (slice rest 0 2)) as [n|e] eqn:En; [|reflexivity].
  apply unpack_H_nonneg in En. rewrite !bind_Ok.
  rewrite (gtb_eq _ (len (pre ++ rest)) (2 + n) (len rest))
    by (rewrite len_app; lia).
  destruct (2 + n >? len rest) eqn:Egt; [reflexivity|].
  rewrite (slice_app_pre pre rest
             (0 + 1 + 2 + len cb + 2) (0 + 1 + 2 + len cb + 2 + n) 2 (2 + n))
    by lia.
  destruct (utf8_decode Strict (slice rest 2 (2 + n))) as [t|e]; [|reflexivity].
  rewrite !bind_Ok.
  rewrite (gtb_eq _ (len (pre ++ rest)) (2 + n + 4) (len rest))
    by (rewrite len_app; lia).
  destruct (2 + n + 4 >? len rest); [reflexivity|].
  rewrite (slice_app_pre pre rest
             (0 + 1 + 2 + len cb + 2 + n) (0 + 1 + 2 + len cb + 2 + n + 4)
             (2 + n) (2 + n + 4)) by lia.
  destruct (unpack_I _) as [dl|e] eqn:Edl; [|reflexivity].
  apply unpack_I_nonneg in Edl. rewrite !bind_Ok.
  rewrite (gtb_eq _ (len (pre ++ rest)) (2 + n + 4 + dl) (len rest))
    by (rewrite len_app; lia).
  destruct (2 + n + 4 + dl >? len rest); [reflexivity|].
  rewrite (slice_app_pre pre rest
             (0 + 1 + 2 + len cb + 2 + n + 4)
             (0 + 1 + 2 + len cb + 2 + n + 4 + dl)
             (2 + n + 4) (2 + n + 4 + dl)) by lia.
  reflexivity.
Qed.

(** What [decode] makes of the bytes after the message type, once channel
    and message type have been read. *)
Lemma decode_header (b : byte) (l2 cb : list byte) (c : str)
    (t2 tb : list byte) (t : str) (rest : list byte) :
  len l2 = 2 -> be_value l2 = len cb -> utf8_decode Strict cb = Ok c ->
  len t2 = 2 -> be_value t2 = len tb -> utf8_decode Strict tb = Ok t ->
  decode ([b] ++ l2 ++ cb ++ t2 ++ tb ++ rest) =
    if 4 >? len rest then Ok (Message (Some t) (Some c) (Some [])) else
    data_len ← unpack_I (slice rest 0 4);
    if 4 + data_len >? len rest
    then Ok (Message (Some t) (Some c) (Some [])) else
    payload ← _decode_data (slice rest 4 (4 + data_len));
    Ok (Message (Some t) (Some c) (Some payload)).
Proof.
  intros Hl2 Hv Hc Ht2 Hw Ht.
  rewrite (decode_channel b l2 cb c _ Hl2 Hv Hc).
  set (r := t2 ++ tb ++ rest).
  assert (Hlen : len r = 2 + len tb + len rest) by (subst r; lens).
  rewrite gtb_false by lens.
  rewrite (slice_of r [] t2 (tb ++ rest) 0 2) by layout.
  rewrite (unpack_H_len t2 Ht2), bind_Ok, Hw, gtb_false by lens.
  rewrite (slice_of r t2 tb rest 2 (2 + len tb)) by layout.
  rewrite Ht, bind_Ok.
  rewrite (gtb_eq _ (len r) 4 (len rest)) by lens.
  destruct (4 >? len rest); [reflexivity|].
  replace r with ((t2 ++ tb) ++ rest) by layout.
  set (pre := t2 ++ tb).
  assert (Hpre : len pre = 2 + len tb) by (subst pre; lens).
  rewrite (slice_app_pre pre rest (2 + len tb) (2 + len tb + 4) 0 4) by lia.
  destruct (unpack_I (slice rest 0 4)) as [dl|e] eqn:Edl; [|reflexivity].
  apply unpack_I_nonneg in Edl. rewrite !bind_Ok.
  rewrite (gtb_eq _ (len (pre ++ rest)) (4 + dl) (len rest))
    by (rewrite len_app; lia).
  destruct (4 + dl >? len rest); [reflexivity|].
  rewrite (slice_app_pre pre rest (2 + len tb + 4) (2 + len tb + 4 + dl)
             4 (4 + dl)) by lia.
  reflexivity.
Qed.



(** ** The payload encoder *)

Lemma encode_fields_app (d1 d2 : payload) (r : list byte) :
  encode_fields (d1 ++ d2) r = encode_fields d1 r ≫= encode_fields d2.
Proof.
  revert r. induction d1 as [|kv d1 IH]; intros r; [reflexivity|].
  cbn [encode_fields app]. destruct (encode_field kv) as [f|e]; [|reflexivity].
  rewrite !bind_Ok. apply IH.
Qed.

Lemma encode_fields_prefix (d : payload) (r out : list byte) :
  encode_fields d r = Ok out -> exists post, out = r ++ post.
Proof.
  revert r. induction d as [|kv d IH]; intros r H.
  - injection H as <-. exists []. symmetry. apply app_nil_r.
  - cbn [encode_fields] in H. destruct (encode_field kv) as [f|e]; [|discriminate].
    rewrite bind_Ok in H. destruct (IH _ H) as [post ->].
    exists (f ++ post). rewrite app_assoc. reflexivity.
Qed.

Lemma encode_field_bool (key : str) (b : bool) :
  encode_field (key, PyBool b) =
    key_bytes ← utf8_encode key;
    key_len ← pack_H (len key_bytes);
    Ok (key_len ++ key_bytes
        ++ [VAL_BOOLEAN; x00; x00; x00; x01; if b then x01 else x00]).
Proof.
  unfold encode_field. cbn [isinstance type_of issubclass pyclass_eqb truth].
  destruct (utf8_encode key) as [kb|e]; [|reflexivity]. rewrite !bind_Ok.
  destruct (pack_H (len kb)) as [kl|e]; [|reflexivity]. rewrite !bind_Ok.
  cbv iota. replace (pack_I 1) with (Ok [x00; x00; x00; x01]) by reflexivity.
  rewrite bind_Ok, <- app_assoc. reflexivity.
Qed.

(** C6. A boolean is a numeric value too ([isinstance(True, int)] holds),
    yet wherever a boolean [b] stands under a key in a payload that
    [_encode_data] encodes, its field is written right after the fields
    before it as: key length, key bytes, the Boolean tag 0x03, the length 1
    on four bytes, and the single byte 0x01 for true or 0x00 for false. *)
Theorem bool_encoded_with_boolean_tag (d1 : payload) (key : str) (b : bool)
    (d2 : payload) (out : list byte) :
  _encode_data (d1 ++ (key, PyBool b) :: d2) = Ok out ->
  isinstance (PyBool b) cls_int = true /\
  exists header before key_bytes key_len after,
    pack_H (len (d1 ++ (key, PyBool b) :: d2)) = Ok header /\
    encode_fields d1 header = Ok before /\
    utf8_encode key = Ok key_bytes /\
    pack_H (len key_bytes) = Ok key_len /\
    out = before ++ key_len ++ key_bytes
          ++ [x03; x00; x00; x00; x01; if b then x01 else x00] ++ after.
Proof.
  intros H. split; [reflexivity|].
  unfold _encode_data in H.
  destruct (d1 ++ (key, PyBool b) :: d2) as [|kv d] eqn:Ed.
  { destruct d1; discriminate. }
  rewrite <- Ed in *. clear Ed kv d.
  destruct (pack_H _) as [header|e] eqn:E1; [|discriminate].
  rewrite bind_Ok, encode_fields_app in H.
  destruct (encode_fields d1 header) as [before|e] eqn:E2; [|discriminate].
  rewrite bind_Ok in H. cbn [encode_fields] in H.
  rewrite encode_field_bool in H.
  destruct (utf8_encode key) as [kb|e] eqn:E3; [|discriminate].
  rewrite !bind_Ok in H.
  destruct (pack_H (len kb)) as [kl|e] eqn:E4; [|discriminate].
  rewrite !bind_Ok in H.
  destruct (encode_fields_prefix _ _ _ H) as [after ->].
  exists header, before, kb, kl, after.
  split; [reflexivity|]. split; [exact E2|].
  split; [reflexivity|]. split; [exact E4|].
  rewrite <- !app_assoc. reflexivity.
Qed.

Lemma bool_encoded_with_boolean_tag_witness :
  exists after,
    [x00; x02; x00; x01; x61; x02; x00; x00; x00; x08;
     x3f; xf0; x00; x00; x00; x00; x00; x00;
     x00; x01; x62; x03; x00; x00; x00; x01; x01]
    = [x00; x02; x00; x01; x61; x02; x00; x00; x00; x08;
       x3f; xf0; x00; x00; x00; x00; x00; x00]
      ++ [x00; x01] ++ [x62] ++ [x03; x00; x00; x00; x01; x01] ++ after.
Proof.
  destruct (bool_encoded_with_boolean_tag
              [(lit "a", PyInt 1)] (lit "b") true [] _ eq_refl)
    as (_ & header & before & kb & kl & after & H1 & H2 & H3 & H4 & H5).
  injection H1 as <-. injection H2 as <-. injection H3 as <-. injection H4 as <-.
  exists after. exact H5.
Defined.

(** ** UTF-8: decoding what was encoded *)

Ltac arith := Z.div_mod_to_equations; lia.

Ltac zbool :=
  repeat match goal with
    | |- context [Z.ltb ?a ?b] =>
        first [ replace (Z.ltb a b) with true
                  by (symmetry; apply Z.ltb_lt; arith)
              | replace (Z.ltb a b) with false
                  by (symmetry; apply Z.ltb_ge; arith) ]
    | |- context [Z.leb ?a ?b] =>
        first [ replace (Z.leb a b) with true
                  by (symmetry; apply Z.leb_le; arith)
              | replace (Z.leb a b) with false
                  by (symmetry; apply Z.leb_gt; arith) ]
    | |- context [Z.eqb ?a ?b] =>
        first [ replace (Z.eqb a b) with true
                  by (symmetry; apply Z.eqb_eq; arith)
              | replace (Z.eqb a b) with false
                  by (symmetry; apply Z.eqb_neq; arith) ]
    end.

Ltac utf8_case :=
  cbn [utf8_decode app];
  unfold second3_ok, second4_ok, is_cont, low6;
  rewrite !byte_val_of by arith;
  zbool;
  repeat (match goal with
          | |- context [Z.eqb ?x ?y] => destruct (Z.eqb_spec x y)
          end; zbool);
  cbn [orb andb];
  f_equal; arith.

Lemma utf8_decode_encode_cp (errors : errors_mode) (c : Z) (bs rest : list byte) :
  utf8_encode_cp c = Ok bs ->
  utf8_decode errors (bs ++ rest) = emit c (utf8_decode errors rest).
Proof.
  unfold utf8_encode_cp.
  destruct (Z.ltb_spec c 0); [discriminate|].
  destruct (Z.ltb_spec c 128).
  { intros [= <-]. utf8_case. }
  destruct (Z.ltb_spec c 2048).
  { intros [= <-]. utf8_case. }
  destruct (Z.ltb_spec c 65536).
  { destruct (Z.leb_spec 55296 c), (Z.leb_spec c 57343);
      cbn [andb]; try discriminate; try lia; intros [= <-]; utf8_case. }
  destruct (Z.ltb_spec c 1114112); [|discriminate].
  intros [= <-]. utf8_case.
Qed.

Lemma utf8_decode_encode (s : str) (bs : list byte) :
  utf8_encode s = Ok bs -> utf8_decode Strict bs = Ok s.
Proof.
  revert bs. induction s as [|c s IH]; intros bs H.
  - injection H as <-. reflexivity.
  - cbn [utf8_encode] in H.
    destruct (utf8_encode_cp c) as [b|e] eqn:Ec; [|discriminate].
    rewrite bind_Ok in H.
    destruct (utf8_encode s) as [bs'|e] eqn:Es; [|discriminate].
    rewrite bind_Ok in H. injection H as <-.
    rewrite (utf8_decode_encode_cp Strict c b bs' Ec), (IH bs' eq_refl).
    reflexivity.
Qed.

(** ** Reading a laid-out payload field *)

Lemma slice_app_l {A} (x post : list A) (lo hi : Z) :
  0 <= lo -> hi <= len x -> slice (x ++ post) lo hi = slice x lo hi.
Proof.
  intros H0 H. unfold slice, len in *.
  destruct (Z.le_gt_cases (Z.of_nat (length x)) lo) as [Hlo|Hlo].
  - replace (Z.to_nat (hi - lo)) with O by lia. reflexivity.
  - rewrite drop_app_le by lia. apply take_app_le.
    rewrite length_drop. lia.
Qed.

Lemma slice_all {A} (x : list A) : slice x 0 (len x) = x.
Proof.
  unfold slice, len. rewrite Z.sub_0_r, Nat2Z.id. cbn [Z.to_nat drop].
  apply firstn_all.
Qed.

Lemma decode_field_layout (data pre k2 kb : list byte) (key : str)
    (tag : byte) (v4 vb post : list byte) (offset : Z) (result : payload) :
  data = pre ++ k2 ++ kb ++ [tag] ++ v4 ++ vb ++ post ->
  offset = len pre ->
  len k2 = 2 -> be_value k2 = len kb -> utf8_decode Strict kb = Ok key ->
  len v4 = 4 -> be_value v4 = len vb ->
  decode_field data offset result =
    value ← wire_value tag vb;
    Ok (Some (offset + (2 + len kb + 1 + 4 + len vb), dict_set result key value)).
Proof.
  intros Hd -> Hk2 Hkv Hkey Hv4 Hvv.
  assert (Hlen : len data = len pre + 2 + len kb + 1 + 4 + len vb + len post)
    by (subst data; lens).
  unfold decode_field. cbv zeta.
  rewrite gtb_false by lens.
  rewrite (slice_of data pre k2 (kb ++ [tag] ++ v4 ++ vb ++ post)
             (len pre) (len pre + 2)) by (assumption || lens).
  rewrite (unpack_H_len k2 Hk2), bind_Ok, Hkv, gtb_false by lens.
  rewrite (slice_of data (pre ++ k2) kb ([tag] ++ v4 ++ vb ++ post)
             (len pre + 2) (len pre + 2 + len kb))
    by (first [subst data; layout | lens]).
  rewrite Hkey, bind_Ok, gtb_false by lens.
  rewrite (index_of data (pre ++ k2 ++ kb) tag (v4 ++ vb ++ post)
             (len pre + 2 + len kb))
    by (first [subst data; layout | lens]).
  rewrite bind_Ok, gtb_false by lens.
  rewrite (slice_of data (pre ++ k2 ++ kb ++ [tag]) v4 (vb ++ post)
             (len pre + 2 + len kb + 1) (len pre + 2 + len kb + 1 + 4))
    by (first [subst data; layout | lens]).
  rewrite (unpack_I_len v4 Hv4), bind_Ok, Hvv, gtb_false by lens.
  rewrite (slice_of data (pre ++ k2 ++ kb ++ [tag] ++ v4) vb post
             (len pre + 2 + len kb + 1 + 4)
             (len pre + 2 + len kb + 1 + 4 + len vb))
    by (first [subst data; layout | lens]).
  set (pre' := pre ++ k2 ++ kb ++ [tag] ++ v4).
  assert (Hpre' : len pre' = len pre + 2 + len kb + 1 + 4) by (subst pre'; lens).
  assert (Hd' : data = pre' ++ vb ++ post) by (subst data pre'; layout).
  assert (Hnum : len vb >= 8 ->
                 slice data (len pre + 2 + len kb + 1 + 4)
                            (len pre + 2 + len kb + 1 + 4 + 8)
                 = slice vb 0 8).
  { intros H8. rewrite Hd'.
    rewrite (slice_app_pre pre' (vb ++ post) _ _ 0 8) by lia.
    apply slice_app_l; lia. }
  assert (Hbool : len vb >= 1 ->
                  index data (len pre + 2 + len kb + 1 + 4) = index vb 0).
  { intros H1. destruct vb as [|b0 vb']; [unfold len in H1; simpl in H1; lia|].
    rewrite index_head.
    apply (index_of data pre' b0 (vb' ++ post)); [exact Hd'|lia]. }
  unfold wire_value.
  destruct (Byte.eqb tag VAL_STRING).
  { destruct (utf8_decode Strict vb); [|reflexivity].
    rewrite !bind_Ok. do 3 f_equal. lia. }
  destruct (Byte.eqb tag VAL_NUMBER).
  { destruct (Z.geb_spec (len vb) 8) as [H8|H8].
    - rewrite Hnum by lia. destruct (unpack_d _); [|reflexivity].
      rewrite !bind_Ok. do 3 f_equal. lia.
    - rewrite !bind_Ok. do 3 f_equal. lia. }
  destruct (Byte.eqb tag VAL_BOOLEAN).
  { destruct (Z.geb_spec (len vb) 1) as [H1|H1].
    - rewrite Hbool by lia. destruct (index vb 0); [|reflexivity].
      rewrite !bind_Ok. do 3 f_equal. lia.
    - rewrite !bind_Ok. do 3 f_equal. lia. }
  destruct (Byte.eqb tag VAL_BYTES).
  { rewrite !bind_Ok. do 3 f_equal. lia. }
  destruct (utf8_decode Replace vb); [|reflexivity].
  rewrite !bind_Ok. do 3 f_equal. lia.
Qed.

(** C10. In the loop of [_decode_data], take a field laid out at [offset]
    as key length [k2], key bytes [kb] (decoding to [key]), tag, value
    length [v4] and the declared value bytes [vb], all present. If the tag
    is Number and fewer than 8 value bytes are declared, the field decodes
    to 0.0; if the tag is Boolean and no value byte is declared, it decodes
    to False. In both cases the turn neither breaks nor raises: the loop goes
    on with the remaining turns right after the declared value bytes, with
    the value stored under [key]. *)
Theorem short_number_and_empty_boolean (data pre k2 kb : list byte) (key : str)
    (tag : byte) (v4 vb post : list byte) (offset : Z) (result : payload)
    (value : pyval) (n : nat) :
  data = pre ++ k2 ++ kb ++ [tag] ++ v4 ++ vb ++ post ->
  offset = len pre ->
  len k2 = 2 -> be_value k2 = len kb -> utf8_decode Strict kb = Ok key ->
  len v4 = 4 -> be_value v4 = len vb ->
  (tag = VAL_NUMBER /\ len vb < 8 /\ value = PyFloat float_zero) \/
  (tag = VAL_BOOLEAN /\ len vb = 0 /\ value = PyBool false) ->
  decode_fields (S n) data offset result =
  decode_fields n data (offset + (2 + len kb + 1 + 4 + len vb))
                (dict_set result key value).
Proof.
  intros Hd Ho Hk2 Hkv Hkey Hv4 Hvv Hcase.
  cbn [decode_fields].
  rewrite (decode_field_layout data pre k2 kb key tag v4 vb post offset result)
    by assumption.
  assert (Hw : wire_value tag vb = Ok value).
  { unfold wire_value.
    destruct Hcase as [(-> & Hlt & ->)|(-> & Hz & ->)]; cbn [Byte.eqb].
    - change (Byte.eqb VAL_NUMBER VAL_STRING) with false.
      change (Byte.eqb VAL_NUMBER VAL_NUMBER) with true. cbv iota.
      destruct (Z.geb_spec (len vb) 8); [lia|reflexivity].
    - change (Byte.eqb VAL_BOOLEAN VAL_STRING) with false.
      change (Byte.eqb VAL_BOOLEAN VAL_NUMBER) with false.
      change (Byte.eqb VAL_BOOLEAN VAL_BOOLEAN) with true. cbv iota.
      destruct (Z.geb_spec (len vb) 1); [lia|reflexivity]. }
  rewrite Hw, !bind_Ok. reflexivity.
Qed.

Lemma short_number_and_empty_boolean_witness :
  decode_fields 2
    ([x00; x02] ++ [x00; x01] ++ [x61] ++ [x02] ++ [x00; x00; x00; x01]
     ++ [xff] ++ [x00; x01; x62; x03; x00; x00; x00; x00]) 2 []
  = Ok [(lit "a", PyFloat float_zero); (lit "b", PyBool false)].
Proof.
  rewrite (short_number_and_empty_boolean _ [x00; x02] [x00; x01] [x61]
             (lit "a") x02 [x00; x00; x00; x01] [xff]
             [x00; x01; x62; x03; x00; x00; x00; x00] 2 []
             (PyFloat float_zero) 1 eq_refl eq_refl eq_refl eq_refl eq_refl
             eq_refl eq_refl
             (or_introl (conj eq_refl (conj eq_refl eq_refl)))).
  reflexivity.
Defined.

(** ** Decoding what was encoded *)

Lemma pack_H_spec (n : Z) (bs : list byte) :
  pack_H n = Ok bs -> len bs = 2 /\ be_value bs = n.
Proof.
  intros H. destruct (unpack_H_pack n bs H) as [Hu Hl]. split; [exact Hl|].
  rewrite (unpack_H_len bs Hl) in Hu. congruence.
Qed.

Lemma pack_I_spec (n : Z) (bs : list byte) :
  pack_I n = Ok bs -> len bs = 4 /\ be_value bs = n.
Proof.
  intros H. destruct (unpack_I_pack n bs H) as [Hu Hl]. split; [exact Hl|].
  rewrite (unpack_I_len bs Hl) in Hu. congruence.
Qed.

Lemma encode_field_layout (key : str) (v : pyval) (f : list byte) :
  encode_field (key, v) = Ok f -> wire_typed v ->
  exists k2 kb tag v4 vb,
    f = k2 ++ kb ++ [tag] ++ v4 ++ vb /\
    len k2 = 2 /\ be_value k2 = len kb /\ utf8_decode Strict kb = Ok key /\
    len v4 = 4 /\ be_value v4 = len vb /\ wire_value tag vb = Ok v.
Proof.
  intros H Hv. unfold encode_field in H.
  destruct (utf8_encode key) as [kb|e] eqn:Ek; [|discriminate].
  rewrite bind_Ok in H.
  destruct (pack_H (len kb)) as [k2|e] eqn:Ek2; [|discriminate].
  rewrite bind_Ok in H. cbv zeta in H.
  destruct (pack_H_spec _ _ Ek2) as [Hk2 Hkv].
  apply utf8_decode_encode in Ek.
  destruct v as [s|b|n|x|bs| | | |]; try contradiction;
    cbn [isinstance type_of issubclass pyclass_eqb orb
         str_value truth bytes_value to_float] in H.
  - destruct (utf8_encode s) as [vb|e] eqn:Es; [|discriminate].
    rewrite bind_Ok in H.
    destruct (pack_I (len vb)) as [v4|e] eqn:E4; [|discriminate].
    rewrite bind_Ok in H. injection H as <-.
    destruct (pack_I_spec _ _ E4) as [Hv4 Hvv].
    exists k2, kb, VAL_STRING, v4, vb.
    rewrite <- !app_assoc. repeat (split; [assumption || reflexivity|]).
    unfold wire_value. change (Byte.eqb VAL_STRING VAL_STRING) with true.
    cbv iota. rewrite (utf8_decode_encode s vb Es). reflexivity.
  - destruct (pack_I 1) as [v4|e] eqn:E4; [|discriminate].
    rewrite bind_Ok in H. injection H as <-.
    destruct (pack_I_spec _ _ E4) as [Hv4 Hvv].
    exists k2, kb, VAL_BOOLEAN, v4, [if b then x01 else x00].
    rewrite <- !app_assoc. repeat (split; [assumption || reflexivity|]).
    destruct b; reflexivity.
  - destruct (pack_I 8) as [v4|e] eqn:E4; [|discriminate].
    rewrite !bind_Ok in H. injection H as <-.
    destruct (pack_I_spec _ _ E4) as [Hv4 Hvv].
    assert (Hl : len (pack_d x) = 8) by apply len_be_bytes.
    exists k2, kb, VAL_NUMBER, v4, (pack_d x).
    rewrite <- !app_assoc.
    repeat (split; [assumption || reflexivity || congruence|]).
    unfold wire_value.
    change (Byte.eqb VAL_NUMBER VAL_STRING) with false.
    change (Byte.eqb VAL_NUMBER VAL_NUMBER) with true. cbv iota.
    rewrite Hl. change (8 >=? 8) with true. cbv iota.
    rewrite <- Hl at 1. rewrite slice_all, (unpack_d_pack x Hv). reflexivity.
  - destruct (pack_I (len bs)) as [v4|e] eqn:E4; [|discriminate].
    rewrite bind_Ok in H. injection H as <-.
    destruct (pack_I_spec _ _ E4) as [Hv4 Hvv].
    exists k2, kb, VAL_BYTES, v4, bs.
    rewrite <- !app_assoc. repeat (split; [assumption || reflexivity|]).
    reflexivity.
Qed.

Lemma dict_set_fresh (d : payload) (key : str) (value : pyval) :
  key ∉ map fst d -> dict_set d key value = d ++ [(key, value)].
Proof.
  induction d as [|[k v] d IH]; intros H; [reflexivity|].
  cbn [dict_set]. cbn [map fst] in H. apply not_elem_of_cons in H as [Hne Hd].
  destruct (decide (k = key)); [congruence|].
  cbn [app]. f_equal. apply IH, Hd.
Qed.

Lemma decode_fields_encoded (d : payload) :
  forall (pre out : list byte) (acc : payload),
    encode_fields d pre = Ok out ->
    Forall (fun kv => wire_typed (snd kv)) d ->
    NoDup (map fst (acc ++ d)) ->
    decode_fields (length d) out (len pre) acc = Ok (acc ++ d).
Proof.
  induction d as [|[k v] d IH]; intros pre out acc He Hty Hnd.
  - cbn [length decode_fields]. rewrite app_nil_r. reflexivity.
  - cbn [encode_fields] in He.
    destruct (encode_field (k, v)) as [f|e] eqn:Ef; [|discriminate].
    rewrite bind_Ok in He.
    inversion Hty as [|? ? Hv Hty']; subst.
    destruct (encode_field_layout k v f Ef Hv)
      as (k2 & kb & tag & v4 & vb & -> & Hk2 & Hkv & Hkey & Hv4 & Hvv & Hw).
    destruct (encode_fields_prefix _ _ _ He) as [post Hout].
    cbn [length decode_fields].
    rewrite (decode_field_layout out pre k2 kb k tag v4 vb post (len pre) acc)
      by (assumption || reflexivity
          || (rewrite Hout, <- !app_assoc; reflexivity)).
    rewrite Hw, !bind_Ok.
    assert (Hfresh : k ∉ map fst acc).
    { rewrite map_app in Hnd. apply NoDup_app in Hnd as (_ & Hdis & _).
      intros Hin. apply (Hdis k Hin). cbn [map fst]. left. }
    rewrite (dict_set_fresh acc k v Hfresh).
    replace (len pre + (2 + len kb + 1 + 4 + len vb))
      with (len (pre ++ k2 ++ kb ++ [tag] ++ v4 ++ vb)) by lens.
    rewrite (IH _ out (acc ++ [(k, v)]) He Hty').
    + rewrite <- app_assoc. reflexivity.
    + rewrite <- app_assoc. exact Hnd.
Qed.

Lemma decode_data_encoded (d : payload) (db : list byte) :
  _encode_data d = Ok db ->
  Forall (fun kv => wire_typed (snd kv)) d -> is_dict d ->
  _decode_data db = Ok d.
Proof.
  intros He Hty Hnd. unfold _encode_data in He.
  destruct d as [|kv d'] eqn:Ed.
  { replace db with [x00; x00] by (cbv in He; congruence). reflexivity. }
  rewrite <- Ed in *. clear Ed.
  destruct (pack_H (len d)) as [hdr|e] eqn:Eh; [|discriminate].
  rewrite bind_Ok in He.
  destruct (pack_H_spec _ _ Eh) as [Hl Hv].
  destruct (encode_fields_prefix _ _ _ He) as [post Hdb].
  unfold _decode_data. cbv zeta.
  replace (len db <? 2) with false
    by (symmetry; apply Z.ltb_ge; subst db; lens).
  rewrite (slice_of db [] hdr post 0 (0 + 2)) by (assumption || lens).
  rewrite (unpack_H_len hdr Hl), bind_Ok, Hv.
  unfold len at 1. rewrite Nat2Z.id.
  replace (0 + 2) with (len hdr) by lia.
  apply (decode_fields_encoded d hdr db [] He Hty Hnd).
Qed.

(** C2 (as amended). Let [m] be a message with message type [t], channel
    [c] and payload [d], where [d] holds no key twice and only text,
    boolean, float and byte-sequence values. Whenever [encode(m)] returns
    bytes (which is when every length fits its prefix: channel, message
    type and keys on 16 bits, text and bytes values on 32 bits, the number
    of fields on 16 bits and the whole payload on 32 bits), decoding these
    bytes gives back [m]: the same message type (one of the five known
    kinds or not), the same channel, and the same fields in the same order. *)
Theorem decode_encode (t c : str) (d : payload) (data : list byte) :
  is_dict d ->
  Forall (fun kv => wire_typed (snd kv)) d ->
  encode (Message (Some t) (Some c) (Some d)) = Ok data ->
  decode data = Ok (Message (Some t) (Some c) (Some d)).
Proof.
  intros Hnd Hty He. unfold encode in He.
  cbn [m_type m_channel m_data default] in He. cbv zeta in He.
  unfold Datatypes.id in He.
  destruct (utf8_encode c) as [cb|e] eqn:Ec; [|discriminate].
  rewrite bind_Ok in He.
  destruct (pack_H (len cb)) as [c2|e] eqn:Ec2; [|discriminate].
  rewrite bind_Ok in He.
  destruct (utf8_encode t) as [tb|e] eqn:Et; [|discriminate].
  rewrite bind_Ok in He.
  destruct (pack_H (len tb)) as [t2|e] eqn:Et2; [|discriminate].
  rewrite bind_Ok in He.
  destruct (_encode_data d) as [db|e] eqn:Ed; [|discriminate].
  rewrite bind_Ok in He.
  destruct (pack_I (len db)) as [d4|e] eqn:Ed4; [|discriminate].
  rewrite bind_Ok in He.
  set (kind := default MSG_DATA (TYPE_TO_BYTE t)) in He.
  assert (Hdata : data = [kind] ++ c2 ++ cb ++ t2 ++ tb ++ d4 ++ db)
    by (injection He as <-; reflexivity).
  rewrite Hdata. clear He Hdata.
  destruct (pack_H_spec _ _ Ec2) as [Hc2 Hcv].
  destruct (pack_H_spec _ _ Et2) as [Ht2 Htv].
  destruct (pack_I_spec _ _ Ed4) as [Hd4 Hdv].
  rewrite (decode_header _ c2 cb c t2 tb t (d4 ++ db) Hc2 Hcv
             (utf8_decode_encode c cb Ec) Ht2 Htv (utf8_decode_encode t tb Et)).
  rewrite gtb_false by lens.
  rewrite (slice_of (d4 ++ db) [] d4 db 0 4) by layout.
  rewrite (unpack_I_len d4 Hd4), bind_Ok, Hdv, gtb_false by lens.
  rewrite (slice_short d4 db 4 (4 + len db)) by lens.
  rewrite (decode_data_encoded d db Ed Hty Hnd). reflexivity.
Qed.

Lemma decode_encode_witness : roundtrip terminal_message = Ok terminal_message.
Proof.
  unfold roundtrip.
  destruct (encode terminal_message) as [data|e] eqn:E;
    [|vm_compute in E; discriminate E].
  rewrite bind_Ok.
  apply (decode_encode _ _ _ data); [| |exact E].
  - unfold is_dict. apply (bool_decide_unpack _). vm_compute. exact I.
  - apply List.Forall_cons; [exact I|].
    apply List.Forall_cons; [cbn; unfold float_zero; lia|].
    apply List.Forall_cons; [exact I|]. apply List.Forall_nil.
Defined.

Lemma fits_supplementary (c : Z) : 0x10000 <= c < 0x110000 -> fits 0xFFFF [c].
Proof.
  intros H. unfold fits. cbn [utf8_encode]. unfold utf8_encode_cp. zbool.
  rewrite !bind_Ok. eexists. split; [reflexivity|].
  unfold len. simpl length. lia.
Qed.

Lemma len_code_points (k : nat) (base : Z) :
  len (code_points k base) = 2 ^ Z.of_nat k.
Proof.
  revert base. induction k as [|k IH]; intros base; [reflexivity|].
  cbn [code_points]. rewrite len_app, !IH, Nat2Z.inj_succ, Z.pow_succ_r by lia.
  lia.
Qed.

Lemma code_points_range (k : nat) (base x : Z) :
  x ∈ code_points k base -> base <= x < base + 2 ^ Z.of_nat k.
Proof.
  revert base. induction k as [|k IH]; intros base H.
  - apply list_elem_of_singleton in H. subst x. simpl. lia.
  - cbn [code_points] in H. rewrite Nat2Z.inj_succ, Z.pow_succ_r by lia.
    pose proof (Z.pow_pos_nonneg 2 (Z.of_nat k) ltac:(lia) ltac:(lia)).
    apply elem_of_app in H as [H|H]; apply IH in H; lia.
Qed.

Lemma NoDup_code_points (k : nat) (base : Z) : NoDup (code_points k base).
Proof.
  revert base. induction k as [|k IH]; intros base.
  - apply NoDup_singleton.
  - cbn [code_points]. apply NoDup_app. split; [apply IH|]. split; [|apply IH].
    intros x H1 H2. apply code_points_range in H1, H2. lia.
Qed.

Lemma len_map {A B} (f : A -> B) (l : list A) : len (map f l) = len l.
Proof. unfold len. rewrite length_map. reflexivity. Qed.

Lemma map_fmap {A B} (f : A -> B) (l : list A) : map f l = f <$> l.
Proof. reflexivity. Qed.

Lemma many_fields_fit : fields_fit many_fields_message.
Proof.
  exists (lit "data"), (lit "c"), many_fields. split; [reflexivity|].
  split; [eexists; split; [vm_compute; reflexivity|vm_compute; discriminate]|].
  split; [eexists; split; [vm_compute; reflexivity|vm_compute; discriminate]|].
  split.
  - unfold is_dict, many_fields. rewrite map_map. cbn [fst].
    rewrite map_fmap.
    apply NoDup_fmap_2; [|apply NoDup_code_points].
    intros x y [= H]. exact H.
  - apply List.Forall_forall. intros [k v] Hin.
    apply in_map_iff in Hin as (c & [= <- <-] & Hc).
    apply list_elem_of_In, code_points_range in Hc.
    split; [|exact I]. apply fits_supplementary. cbn [fst].
    change (2 ^ Z.of_nat 16) with 65536 in Hc. lia.
Qed.

Lemma many_fields_raises : roundtrip many_fields_message = Raise StructError.
Proof.
  assert (Hlen : len many_fields = 65536).
  { unfold many_fields. rewrite len_map, len_code_points. reflexivity. }
  unfold roundtrip, encode, many_fields_message.
  cbn [m_type m_channel m_data default]. unfold Datatypes.id.
  replace (utf8_encode (lit "c")) with (Ok [x63]) by reflexivity.
  rewrite bind_Ok.
  replace (pack_H (len [x63])) with (Ok [x00; x01]) by reflexivity.
  rewrite bind_Ok.
  replace (utf8_encode (lit "data")) with (Ok [x64; x61; x74; x61])
    by reflexivity.
  rewrite bind_Ok.
  replace (pack_H (len [x64; x61; x74; x61])) with (Ok [x00; x04])
    by reflexivity.
  rewrite bind_Ok.
  unfold _encode_data.
  destruct many_fields as [|kv d] eqn:E; [discriminate Hlen|].
  rewrite Hlen. reflexivity.
Qed.

(** C2 (counterexample). A message whose channel, message type, keys and
    values all fit their length prefixes, but whose payload has 65536
    fields: the field count does not fit its 16-bit prefix, [encode] raises
    [struct.error], and [decode(encode(m))] is not [m]. *)
Lemma roundtrip_fails_with_65536_fields :
  fields_fit many_fields_message /\
  roundtrip many_fields_message = Raise StructError /\
  roundtrip many_fields_message <> Ok many_fields_message.
Proof.
  split; [exact many_fields_fit|]. split; [exact many_fields_raises|].
  rewrite many_fields_raises. discriminate.
Qed.

(** C1 (failing input). The four bytes 03 00 01 FF hold a kind byte, the
    channel length 1 and the byte FF, which is not UTF-8: [decode] raises
    [UnicodeDecodeError] instead of returning a message. *)
Theorem decode_raises_on_invalid_utf8 :
  decode [x03; x00; x01; xff] = Raise UnicodeDecodeError.
Proof. reflexivity. Qed.

(** ** The client: sending *)

(** C8. Whatever the message, [_send_message] on a client that is not
    connected ([_ws] is [None], or the socket is not open) raises
    [WebSocketError("WebSocket is not connected")] to its caller and
    leaves everything as it was: nothing is written to the socket, and the
    network scripts and the client are untouched. The public senders
    ([send_terminal_input], [resize_terminal], [start_command]) are calls
    of [_send_message] and behave the same. *)
Theorem send_not_connected (msg : message) (s : sys) :
  connected (s_client s) = false ->
  _send_message msg s = (Raise (WebSocketError "WebSocket is not connected"), s)
  /\ sent (s_trace (snd (_send_message msg s))) = sent (s_trace s)
  /\ (forall terminal_id input_text,
        send_terminal_input terminal_id input_text s
        = (Raise (WebSocketError "WebSocket is not connected"), s))
  /\ (forall terminal_id cols rows,
        resize_terminal terminal_id cols rows s
        = (Raise (WebSocketError "WebSocket is not connected"), s))
  /\ (forall cmd_id,
        start_command cmd_id s
        = (Raise (WebSocketError "WebSocket is not connected"), s)).
Proof.
  intros H.
  assert (Hsend : forall m,
             _send_message m s
             = (Raise (WebSocketError "WebSocket is not connected"), s)).
  { intros m. unfold _send_message, bind, get_client, raise.
    rewrite H. reflexivity. }
  split; [apply Hsend|]. split; [rewrite Hsend; reflexivity|].
  split; [|split]; intros; apply Hsend.
Qed.

Lemma send_not_connected_witness :
  _send_message terminal_message
    (Sys (__init__ true true 1 30) (World [] [] []) [])
  = (Raise (WebSocketError "WebSocket is not connected"),
     Sys (__init__ true true 1 30) (World [] [] []) []).
Proof.
  apply (send_not_connected terminal_message
           (Sys (__init__ true true 1 30) (World [] [] []) [])).
  reflexivity.
Defined.

(** ** The client: dispatch *)

Lemma dispatch_spec (data : message) (s : sys) :
  dispatch data s =
  (Ok tt, Sys (s_client s) (s_world s)
              (s_trace s ++ handler_calls (s_client s) data)).
Proof.
  destruct s as [c w tr].
  cbv [dispatch handler_calls bind get_client try_except call log lift ret
       s_client s_world s_trace].
  destruct (_handlers c !! default (lit "") (m_type data)) as [h|];
    [destruct (h_run h data)|];
    (destruct (_handlers c !! lit "*") as [h'|];
     [destruct (h_run h' data) as [[]|]|]);
    rewrite <- ?app_assoc, ?app_nil_r; reflexivity.
Qed.

Lemma receive_step_message (c : client) (wc ws : list (option exn))
    (f : frame) (rest : list (res frame)) (tr : list event) (data : message) :
  connected c = true ->
  decode_frame (_binary c) f = Ok data ->
  receive_step (Sys c (World wc ws (Ok f :: rest)) tr) =
  (Ok true, Sys c (World wc ws rest) (tr ++ handler_calls c data)).
Proof.
  intros Hc Hf. unfold receive_step.
  unfold bind at 1. unfold get_client at 1. cbn [s_client].
  rewrite Hc. cbn [negb].
  unfold bind at 1. unfold ws_recv at 1. cbn [s_client s_world s_trace w_recv
    w_connect w_send].
  unfold bind at 1. unfold lift at 1. rewrite Hf.
  unfold bind at 1. rewrite dispatch_spec. cbn [s_client s_world s_trace].
  reflexivity.
Qed.


(** ** The client: dispatch, with cancellation *)

(** The dispatch step, the turn and the loop of [Cancellation] where none
    of the awaits owed to the messages is cancelled. *)
Lemma dispatch_not_cancelled (cancelled : nat -> message -> bool)
    (data : message) (s : sys) :
  uncancelled cancelled (s_client s) data ->
  Cancellation.dispatch cancelled data s =
  (Cancellation.Returns tt,
   Sys (s_client s) (s_world s) (s_trace s ++ handler_calls (s_client s) data)).
Proof.
  destruct s as [c w tr]. unfold uncancelled.
  cbv [Cancellation.dispatch Cancellation.co_bind Cancellation.await
       Cancellation.except_Exception_pass Cancellation.call Cancellation.co_ret
       handler_calls bind get_client call log lift
       s_client s_world s_trace].
  intros H. apply Forall_app in H as [H1 H2].
  destruct (_handlers c !! default (lit "") (m_type data)) as [h|].
  - apply Forall_cons in H1 as [-> _].
    destruct (h_run h data) as [[]|e];
      (destruct (_handlers c !! lit "*") as [h'|];
       [apply Forall_cons in H2 as [-> _]; destruct (h_run h' data) as [[]|e']|]);
      rewrite <- ?app_assoc, ?app_nil_r; reflexivity.
  - destruct (_handlers c !! lit "*") as [h'|];
      [apply Forall_cons in H2 as [-> _]; destruct (h_run h' data) as [[]|e']|];
      rewrite <- ?app_assoc, ?app_nil_r; reflexivity.
Qed.



Lemma uncancelled_all (cancelled : nat -> message -> bool) (c : client)
    (data : message) :
  (forall id msg, cancelled id msg = false) -> uncancelled cancelled c data.
Proof.
  intros H. unfold uncancelled, handler_calls.
  apply Forall_app. split.
  - destruct (_handlers c !! _); repeat constructor. apply H.
  - destruct (_handlers c !! _); repeat constructor. apply H.
Qed.

(** Where no await is cancelled, the turn with the three clauses is the
    turn of [receive_step], and the loop is [_receive_loop]. *)
Lemma receive_step_without_cancellation (cancelled : nat -> message -> bool)
    (s : sys) :
  (forall id msg, cancelled id msg = false) ->
  Cancellation.receive_step cancelled s = Cancellation.await receive_step s.
Proof.
  intros H. destruct s as [c w tr].
  cbv [Cancellation.receive_step receive_step Cancellation.co_bind
       Cancellation.await Cancellation.co_ret bind get_client ret lift
       s_client].
  destruct (connected c); cbn [negb].
  - destruct (ws_recv (Sys c w tr)) as [[f|e] s1].
    + destruct (decode_frame (_binary c) f) as [data|e].
      * rewrite dispatch_not_cancelled by (apply uncancelled_all; exact H).
        rewrite dispatch_spec. reflexivity.
      * destruct e; reflexivity.
    + destruct e; reflexivity.
  - destruct (_auto_reconnect c); [|reflexivity].
    destruct (_reconnect (Sys c w tr)) as [[[]|e] s1]; [reflexivity|].
    destruct e; reflexivity.
Qed.

Lemma receive_loop_without_cancellation (cancelled : nat -> message -> bool)
    (fuel : nat) (s : sys) :
  (forall id msg, cancelled id msg = false) ->
  Cancellation._receive_loop cancelled fuel s
  = Cancellation.await (_receive_loop fuel) s.
Proof.
  intros H. revert s. induction fuel as [|fuel IH]; intros s; [reflexivity|].
  cbn [Cancellation._receive_loop _receive_loop].
  cbv [Cancellation.co_bind Cancellation.await Cancellation.co_ret bind
       get_client ret].
  destruct (_running (s_client s)); [|reflexivity].
  rewrite receive_step_without_cancellation by exact H.
  unfold Cancellation.await at 1.
  destruct (receive_step s) as [[[|]|e] s1].
  - rewrite IH. reflexivity.
  - reflexivity.
  - reflexivity.
Qed.




(** ** The client: subscriptions replayed on connect *)

Ltac simpl_client :=
  cbn [set_ws set_running set_handlers set_subscriptions set_receive_task
       set_current_reconnect_delay
       _binary _auto_reconnect _reconnect_delay _max_reconnect_delay _ws
       _running _handlers _subscriptions _receive_task
       _current_reconnect_delay
       s_client s_world s_trace w_connect w_send w_recv] in *.

Lemma send_subscribe_ok (channel : str) (s s' : sys) :
  _send_subscribe channel s = (Ok tt, s') ->
  exists f,
    subscribe_frame (_binary (s_client s)) channel = Ok f /\
    s_client s' = s_client s /\
    s_trace s' = s_trace s ++ [EvSend f].
Proof.
  destruct s as [c w tr].
  cbv [_send_subscribe _send_message subscribe_frame bind get_client
       try_except raise lift ws_send s_client s_world s_trace].
  destruct (connected c); cbn [negb]; [|discriminate].
  destruct (_binary c).
  - destruct (encode _) as [data|e]; [|discriminate].
    rewrite bind_Ok.
    destruct (w_send w) as [|[e|] rest];
      intros [= <-]; eexists; repeat split; reflexivity.
  - destruct (dumps _) as [text|e]; [|discriminate].
    destruct (w_send w) as [|[e|] rest];
      intros [= <-]; eexists; repeat split; reflexivity.
Qed.

Lemma for_each_subscribe_ok (channels : list str) :
  forall s s',
    for_each channels _send_subscribe s = (Ok tt, s') ->
    exists fs,
      Forall2 (fun ch f => subscribe_frame (_binary (s_client s)) ch = Ok f)
              channels fs /\
      s_client s' = s_client s /\
      s_trace s' = s_trace s ++ map EvSend fs.
Proof.
  induction channels as [|ch channels IH]; intros s s' H.
  - injection H as <-. exists []. rewrite app_nil_r.
    repeat split. constructor.
  - cbn [for_each] in H. unfold bind in H.
    destruct (_send_subscribe ch s) as [[[]|e] s1] eqn:E1; [|discriminate].
    destruct (send_subscribe_ok ch s s1 E1) as (f & Hf & Hc & Ht).
    destruct (IH s1 s' H) as (fs & Hfs & Hc' & Ht').
    exists (f :: fs). rewrite Hc in Hfs.
    split; [constructor; assumption|]. split; [congruence|].
    rewrite Ht', Ht, <- app_assoc. reflexivity.
Qed.

Lemma subscribe_disconnected (channel : str) (s : sys) :
  connected (s_client s) = false ->
  subscribe channel s =
  (Ok tt, Sys (set_subscriptions ({[channel]} ∪ _subscriptions (s_client s))
                                 (s_client s))
              (s_world s) (s_trace s)).
Proof.
  intros H. destruct s as [c w tr].
  cbv [subscribe bind modify get_client ret s_client s_world s_trace].
  cbn [s_client] in H.
  replace (connected (set_subscriptions _ c)) with (connected c) by reflexivity.
  rewrite H. reflexivity.
Qed.

(** C4. Take a client that is not connected and has no subscription, and
    let it subscribe to two different channels [A] and [B]. Both calls
    return normally and nothing is sent. If [connect()] then returns
    normally, its trace is the connection being established followed by
    exactly two frames written to the socket and nothing else: the
    Subscribe frame for [A] and the Subscribe frame for [B], in the order
    in which the set of subscriptions is walked. *)
Theorem resubscribe_on_connect (A B : str) (s : sys) :
  A <> B ->
  connected (s_client s) = false ->
  _subscriptions (s_client s) = ∅ ->
  let r := (subscribe A ;; subscribe B) s in
  fst r = Ok tt /\
  s_trace (snd r) = s_trace s /\
  forall s', connect (snd r) = (Ok tt, s') ->
    exists fA fB fs,
      subscribe_frame (_binary (s_client s)) A = Ok fA /\
      subscribe_frame (_binary (s_client s)) B = Ok fB /\
      fs ≡ₚ [fA; fB] /\
      s_trace s' = s_trace s ++ EvConnect true :: map EvSend fs.
Proof.
  intros Hne Hc Hs. destruct s as [c w tr]. cbn [s_client s_trace] in *.
  assert (Hr : (subscribe A ;; subscribe B) (Sys c w tr) =
               (Ok tt, Sys (set_subscriptions ({[B]} ∪ ({[A]} ∪ ∅)) c) w tr)).
  { unfold bind.
    rewrite (subscribe_disconnected A) by exact Hc.
    rewrite (subscribe_disconnected B) by exact Hc.
    cbn [s_client s_world s_trace set_subscriptions _subscriptions].
    rewrite Hs. reflexivity. }
  cbv zeta. rewrite !Hr. cbn [fst snd s_trace].
  split; [reflexivity|]. split; [reflexivity|].
  intros s' Hconn.
  cbv [connect try_except bind ws_connect modify get_client raise
       s_client s_world s_trace] in Hconn.
  destruct (w_connect w) as [|[e|] rest]; try discriminate.
  cbn [set_ws set_running set_current_reconnect_delay set_receive_task
       _subscriptions _binary _auto_reconnect _reconnect_delay
       _max_reconnect_delay _ws _running _handlers _receive_task
       _current_reconnect_delay] in Hconn.
  match type of Hconn with
  | context [for_each ?l ?f ?s0] =>
      destruct (for_each l f s0) as [[[]|e] s1] eqn:E; [|discriminate]
  end.
  injection Hconn as <-.
  apply for_each_subscribe_ok in E as (fs & Hfs & _ & Ht).
  simpl_client.
  assert (Hperm : elements ({[B]} ∪ ({[A]} ∪ (∅ : gset str))) ≡ₚ [B; A]).
  { rewrite union_empty_r_L.
    rewrite elements_union_singleton by set_solver.
    rewrite elements_singleton. reflexivity. }
  symmetry in Hperm.
  apply Permutation_length_2_inv in Hperm as [Hl|Hl]; rewrite Hl in Hfs.
  - inversion Hfs as [|? fB ? fs1 HB H1]; subst.
    inversion H1 as [|? fA ? fs2 HA H2]; subst. inversion H2; subst.
    exists fA, fB, [fB; fA]. repeat split; try assumption.
    + apply perm_swap.
    + rewrite <- app_assoc in Ht. exact Ht.
  - inversion Hfs as [|? fA ? fs1 HA H1]; subst.
    inversion H1 as [|? fB ? fs2 HB H2]; subst. inversion H2; subst.
    exists fA, fB, [fA; fB]. repeat split; try assumption.
    + reflexivity.
    + rewrite <- app_assoc in Ht. exact Ht.
Qed.

Lemma resubscribe_on_connect_witness :
  exists fA fB fs,
    subscribe_frame true (lit "a") = Ok fA /\
    subscribe_frame true (lit "b") = Ok fB /\
    fs ≡ₚ [fA; fB] /\
    s_trace (snd (connect (snd ((subscribe (lit "a") ;; subscribe (lit "b"))
                                  new_client_system))))
    = EvConnect true :: map EvSend fs.
Proof.
  destruct (resubscribe_on_connect (lit "a") (lit "b") new_client_system
              ltac:(discriminate) eq_refl eq_refl) as (_ & _ & H).
  destruct (connect (snd ((subscribe (lit "a") ;; subscribe (lit "b"))
                            new_client_system))) as [[[]|e] s'] eqn:E.
  - exact (H s' eq_refl).
  - exfalso. vm_compute in E. discriminate E.
Defined.

(** ** The client: reconnecting with backoff *)








Ltac run_reconnect :=
  cbv [_reconnect bind get_client ws_close log modify try_except ws_connect
       ret]; simpl_client.




Lemma receive_loop_step (n : nat) (s s' : sys) :
  _running (s_client s) = true ->
  receive_step s = (Ok true, s') ->
  _receive_loop (S n) s = _receive_loop n s'.
Proof.
  intros Hr Hs. cbn [_receive_loop].
  unfold bind at 1. unfold get_client at 1. rewrite Hr.
  unfold bind at 1. rewrite Hs. reflexivity.
Qed.





(** ** Truncated frames *)

Lemma encode_layout (m : message) (data : list byte) :
  encode m = Ok data ->
  exists kind c2 cb c t2 tb t d4 db,
    data = [kind] ++ c2 ++ cb ++ t2 ++ tb ++ d4 ++ db /\
    len c2 = 2 /\ be_value c2 = len cb /\ utf8_decode Strict cb = Ok c /\
    len t2 = 2 /\ be_value t2 = len tb /\ utf8_decode Strict tb = Ok t /\
    len d4 = 4 /\ be_value d4 = len db.
Proof.
  intros He. unfold encode in He. cbv zeta in He.
  set (c := default (lit "") (m_channel m)) in He.
  set (t := default (lit "data") (m_type m)) in He.
  set (d := default [] (m_data m)) in He.
  set (kind := default MSG_DATA (TYPE_TO_BYTE t)) in He.
  destruct (utf8_encode c) as [cb|e] eqn:Ec; [|discriminate].
  rewrite bind_Ok in He.
  destruct (pack_H (len cb)) as [c2|e] eqn:Ec2; [|discriminate].
  rewrite bind_Ok in He.
  destruct (utf8_encode t) as [tb|e] eqn:Et; [|discriminate].
  rewrite bind_Ok in He.
  destruct (pack_H (len tb)) as [t2|e] eqn:Et2; [|discriminate].
  rewrite bind_Ok in He.
  destruct (_encode_data d) as [db|e] eqn:Ed; [|discriminate].
  rewrite bind_Ok in He.
  destruct (pack_I (len db)) as [d4|e] eqn:Ed4; [|discriminate].
  rewrite bind_Ok in He.
  destruct (pack_H_spec _ _ Ec2) as [Hc2 Hcv].
  destruct (pack_H_spec _ _ Et2) as [Ht2 Htv].
  destruct (pack_I_spec _ _ Ed4) as [Hd4 Hdv].
  exists kind, c2, cb, c, t2, tb, t, d4, db.
  split; [injection He as <-; reflexivity|].
  pose proof (utf8_decode_encode c cb Ec).
  pose proof (utf8_decode_encode t tb Et).
  repeat (split; [assumption|]). assumption.
Qed.

Lemma prefix_split {A} (p q x y : list A) :
  p ++ q = x ++ y ->
  len p < len x \/ exists p', p = x ++ p' /\ p' ++ q = y.
Proof.
  intros H. destruct (Z.lt_ge_cases (len p) (len x)) as [Hlt|Hge];
    [left; exact Hlt|right].
  unfold len in Hge.
  exists (drop (length x) p).
  assert (Hx : x = take (length x) p).
  { rewrite <- (take_app_le p q) by lia. rewrite H.
    symmetry. apply take_app_length. }
  assert (Hp : p = x ++ drop (length x) p).
  { rewrite Hx at 1. symmetry. apply take_drop. }
  split; [exact Hp|].
  rewrite Hp, <- app_assoc in H. apply app_inv_head in H. exact H.
Qed.

(** X10. Truncation: on every proper prefix of the bytes [encode]
    returns for a message, [decode] returns a message; it never raises on
    such a frame cut short. *)
Lemma decode_proper_prefix (m : message) (data p q : list byte) :
  encode m = Ok data -> data = p ++ q -> q <> [] ->
  exists msg, decode p = Ok msg.
Proof.
  intros He Hd Hq.
  destruct (encode_layout m data He)
    as (kind & c2 & cb & c & t2 & tb & t & d4 & db & Hdata &
        Hc2 & Hcv & Hc & Ht2 & Htv & Ht & Hd4 & Hdv).
  assert (S1 : forall rest, len rest < 4 ->
            exists msg, decode ([kind] ++ c2 ++ cb ++ t2 ++ tb ++ rest) = Ok msg).
  { intros rest H.
    rewrite (decode_header kind c2 cb c t2 tb t rest) by assumption.
    rewrite gtb_true by lia. eexists. reflexivity. }
  assert (S2 : forall rest, len rest < be_value d4 ->
            exists msg,
              decode ([kind] ++ c2 ++ cb ++ t2 ++ tb ++ d4 ++ rest) = Ok msg).
  { intros rest H.
    rewrite (decode_header kind c2 cb c t2 tb t (d4 ++ rest)) by assumption.
    destruct (4 >? len (d4 ++ rest)); [eexists; reflexivity|].
    rewrite (slice_of (d4 ++ rest) [] d4 rest 0 4) by layout.
    rewrite (unpack_I_len d4 Hd4), bind_Ok, gtb_true by lens.
    eexists. reflexivity. }
  assert (S5 : forall rest, len rest < 2 ->
            exists msg, decode ([kind] ++ c2 ++ cb ++ rest) = Ok msg).
  { intros rest H. rewrite (decode_channel kind c2 cb c rest) by assumption.
    rewrite gtb_true by lia. eexists. reflexivity. }
  assert (S6 : forall rest, len rest < be_value t2 ->
            exists msg, decode ([kind] ++ c2 ++ cb ++ t2 ++ rest) = Ok msg).
  { intros rest H.
    rewrite (decode_channel kind c2 cb c (t2 ++ rest)) by assumption.
    destruct (2 >? len (t2 ++ rest)); [eexists; reflexivity|].
    rewrite (slice_of (t2 ++ rest) [] t2 rest 0 2) by layout.
    rewrite (unpack_H_len t2 Ht2), bind_Ok, gtb_true by lens.
    eexists. reflexivity. }
  rewrite Hdata in Hd. symmetry in Hd.
  destruct p as [|b p0]; [eexists; reflexivity|].
  cbn [app] in Hd. injection Hd as -> Hd.
  change (kind :: p0) with ([kind] ++ p0).
  apply prefix_split in Hd as [H|(p1 & -> & Hd)].
  { eexists. apply (decode_no_channel_len kind p0). lia. }
  apply prefix_split in Hd as [H|(p2 & -> & Hd)].
  { eexists. apply decode_channel_short; [exact Hc2|lia]. }
  apply prefix_split in Hd as [H|(p3 & -> & Hd)].
  { apply S5. lia. }
  apply prefix_split in Hd as [H|(p4 & -> & Hd)].
  { apply S6. lia. }
  apply prefix_split in Hd as [H|(p5 & -> & Hd)].
  { apply S1. lia. }
  apply S2.
  rewrite Hdv, <- Hd, len_app.
  destruct q as [|x q]; [congruence|]. rewrite len_cons.
  pose proof (len_nonneg q). lia.
Qed.

(** * Further properties

    ** The bit pattern of [float(n)] *)

Lemma digits2_pos_bound (p : positive) : Z.pos p < 2 ^ Z.pos (digits2_pos p).
Proof.
  induction p as [p IH|p IH|]; cbn [digits2_pos]; [| |reflexivity];
    rewrite Pos2Z.inj_succ, Z.pow_succ_r by lia; lia.
Qed.

Lemma shr_1_half (r : shr_record) : 0 <= shr_m r -> shr_m (shr_1 r) = shr_m r / 2.
Proof.
  destruct r as [[|[p|p|]|p] r s]; cbn [shr_m shr_1]; intros H; try lia;
    try reflexivity.
  - rewrite Pos2Z.inj_xI. apply Z.div_unique with 1; lia.
  - rewrite Pos2Z.inj_xO. apply Z.div_unique with 0; lia.
Qed.

Lemma iter_shr_1 (p : positive) :
  forall r, 0 <= shr_m r -> shr_m (SpecFloat.iter_pos shr_1 p r) = shr_m r / 2 ^ Z.pos p.
Proof.
  induction p as [p IH|p IH|]; intros r H; cbn [SpecFloat.iter_pos].
  - assert (H1 : 0 <= shr_m (shr_1 r))
      by (rewrite shr_1_half by exact H; apply Z.div_pos; lia).
    assert (H2 : 0 <= shr_m (SpecFloat.iter_pos shr_1 p (shr_1 r)))
      by (rewrite IH by exact H1; apply Z.div_pos; lia).
    rewrite IH, IH, shr_1_half by assumption.
    rewrite !Z.div_div by lia. f_equal.
    replace (Z.pos p~1) with (1 + Z.pos p + Z.pos p) by lia.
    rewrite !Z.pow_add_r by lia. change (2 ^ 1) with 2. ring.
  - assert (H2 : 0 <= shr_m (SpecFloat.iter_pos shr_1 p r))
      by (rewrite IH by exact H; apply Z.div_pos; lia).
    rewrite IH, IH by assumption.
    rewrite !Z.div_div by lia. f_equal.
    replace (Z.pos p~0) with (Z.pos p + Z.pos p) by lia.
    rewrite Z.pow_add_r by lia. reflexivity.
  - rewrite shr_1_half by exact H. reflexivity.
Qed.

(** What [shr_fexp] leaves of a mantissa that is not negative: fewer than
    54 bits, at an exponent that is the old one or at least [emin]. *)
Lemma shr_fexp_bound (m e : Z) (l : location) (r : shr_record) (e' : Z) :
  0 <= m -> shr_fexp 53 1024 m e l = (r, e') ->
  0 <= shr_m r < 2 ^ 53 /\ (e' = e \/ -1074 <= e').
Proof.
  intros Hm. unfold shr_fexp, shr, fexp, emin.
  assert (Hrec : shr_m (shr_record_of_loc m l) = m)
    by (destruct l as [|[]]; reflexivity).
  assert (Hd : m < 2 ^ Zdigits2 m).
  { destruct m as [|p|p]; [reflexivity|apply digits2_pos_bound|lia]. }
  assert (Hd0 : 0 <= Zdigits2 m) by (destruct m; cbn; lia).
  destruct (Z.max (Zdigits2 m + e - 53) (3 - 1024 - 53) - e) as [|p|p] eqn:En;
    intros [= <- <-]; rewrite ?Hrec.
  - split; [|left; reflexivity]. split; [exact Hm|].
    eapply Z.lt_le_trans; [exact Hd|]. apply Z.pow_le_mono_r; lia.
  - rewrite iter_shr_1 by (rewrite Hrec; exact Hm). rewrite Hrec.
    split; [|right; lia]. split; [apply Z.div_pos; lia|].
    apply Z.div_lt_upper_bound; [lia|].
    rewrite <- Z.pow_add_r by lia.
    eapply Z.lt_le_trans; [exact Hd|]. apply Z.pow_le_mono_r; lia.
  - split; [|left; reflexivity]. split; [exact Hm|].
    eapply Z.lt_le_trans; [exact Hd|]. apply Z.pow_le_mono_r; lia.
Qed.

Lemma binary_round_aux_bits (sx : bool) (mx ex : Z) (l : location) :
  0 <= mx -> -1074 <= ex ->
  match binary_round_aux 53 1024 sx mx ex l with
  | S754_infinity _ => True
  | f => 0 <= bits_of_spec f < 2 ^ 64
  end.
Proof.
  intros Hm He. unfold binary_round_aux.
  destruct (shr_fexp 53 1024 mx ex l) as [r1 e1] eqn:E1.
  destruct (shr_fexp_bound _ _ _ _ _ Hm E1) as [[H1 _] He1].
  set (M := round_nearest_even (shr_m r1) (loc_of_shr_record r1)).
  assert (HM : 0 <= M).
  { unfold M, round_nearest_even.
    destruct (loc_of_shr_record r1) as [|[]]; try destruct (Z.even _); lia. }
  destruct (shr_fexp 53 1024 M e1 loc_Exact) as [r2 e2] eqn:E2.
  destruct (shr_fexp_bound _ _ _ _ _ HM E2) as [[_ H2] He2].
  destruct (shr_m r2) as [|m|m] eqn:Em.
  - destruct sx; cbn; lia.
  - destruct (Z.leb_spec e2 (1024 - 53)); [|exact I].
    unfold bits_of_spec.
    destruct (Z.ltb_spec (Z.pos m) (2 ^ 52)); destruct sx; nia.
  - cbn. lia.
Qed.

Lemma float_of_int_bits (n : Z) (x : float64) :
  float_of_int n = Ok x -> 0 <= x < 2 ^ 64.
Proof.
  unfold float_of_int, binary_normalize.
  destruct n as [|p|p].
  - intros [= <-]. cbn. lia.
  - unfold binary_round.
    destruct (shl_align p 0 _) as [mz ez] eqn:Ea.
    assert (Hez : -1074 <= ez).
    { unfold shl_align, fexp, emin in Ea.
      destruct (Z.max _ _ - 0) eqn:E; injection Ea as <- <-; lia. }
    pose proof (binary_round_aux_bits false (Z.pos mz) ez loc_Exact
                  ltac:(lia) Hez) as H.
    destruct (binary_round_aux 53 1024 false (Z.pos mz) ez loc_Exact);
      intros [= <-]; exact H.
  - unfold binary_round.
    destruct (shl_align p 0 _) as [mz ez] eqn:Ea.
    assert (Hez : -1074 <= ez).
    { unfold shl_align, fexp, emin in Ea.
      destruct (Z.max _ _ - 0) eqn:E; injection Ea as <- <-; lia. }
    pose proof (binary_round_aux_bits true (Z.pos mz) ez loc_Exact
                  ltac:(lia) Hez) as H.
    destruct (binary_round_aux 53 1024 true (Z.pos mz) ez loc_Exact);
      intros [= <-]; exact H.
Qed.

(** ** What [decode] can raise *)

Lemma len_slice {A} (l : list A) (lo hi : Z) :
  0 <= lo -> lo <= hi -> hi <= len l -> len (slice l lo hi) = hi - lo.
Proof.
  intros H0 H1 H2. unfold slice, len in *.
  rewrite length_take, length_drop. lia.
Qed.

Lemma slice_subseteq {A} (l : list A) (lo hi : Z) : slice l lo hi ⊆ l.
Proof.
  unfold slice. etransitivity; [apply subseteq_take|apply subseteq_drop].
Qed.

Lemma index_ok (l : list byte) (i : Z) :
  0 <= i < len l -> exists b, index l i = Ok b.
Proof.
  intros H. unfold index.
  replace (i <? 0) with false by (symmetry; apply Z.ltb_ge; lia).
  replace ((0 <=? i) && (i <? len l)) with true
    by (symmetry; apply andb_true_iff; split; [apply Z.leb_le|apply Z.ltb_lt]; lia).
  destruct (l !! Z.to_nat i) as [b|] eqn:E; [eexists; reflexivity|].
  apply lookup_ge_None in E. unfold len in H. lia.
Qed.

Lemma utf8_strict_raises (n : nat) :
  forall bs e, (length bs <= n)%nat ->
    utf8_decode Strict bs = Raise e -> e = UnicodeDecodeError.
Proof.
  induction n as [|n IH]; intros bs e Hl.
  - destruct bs; [discriminate|simpl in Hl; lia].
  - destruct bs as [|b0 r0]; [discriminate|]. cbn [utf8_decode].
    cbn [length] in Hl.
    repeat match goal with
      | |- (if ?c then _ else _) = _ -> _ => destruct c
      | |- match ?r with [] => _ | _ :: _ => _ end = _ -> _ =>
          destruct r; cbn [length] in Hl
      | |- on_bad Strict _ = _ -> _ => cbn [on_bad]; congruence
      | |- emit _ (utf8_decode Strict ?r) = _ -> _ =>
          unfold emit;
          let E := fresh "E" in
          destruct (utf8_decode Strict r) eqn:E; [discriminate|];
          apply IH in E; [cbn; congruence|lia]
      end.
Qed.

Lemma utf8_replace_ok (n : nat) :
  forall bs, (length bs <= n)%nat -> exists s, utf8_decode Replace bs = Ok s.
Proof.
  assert (Hbad : forall k, (exists s, k = Ok s) ->
                           exists s, on_bad Replace k = Ok s).
  { intros k [s ->]. eexists. reflexivity. }
  assert (Hemit : forall c k, (exists s, k = Ok s) -> exists s, emit c k = Ok s).
  { intros c k [s ->]. eexists. reflexivity. }
  induction n as [|n IH]; intros bs Hl.
  - destruct bs; [eexists; reflexivity|simpl in Hl; lia].
  - destruct bs as [|b0 r0]; [eexists; reflexivity|]. cbn [utf8_decode].
    cbn [length] in Hl.
    repeat match goal with
      | |- exists s, (if ?c then _ else _) = _ => destruct c
      | |- exists s, match ?r with [] => _ | _ :: _ => _ end = _ =>
          destruct r; cbn [length] in Hl
      | |- exists s, on_bad Replace _ = _ => apply Hbad
      | |- exists s, emit _ _ = _ => apply Hemit
      | |- exists s, Ok _ = Ok s => eexists; reflexivity
      | |- exists s, utf8_decode Replace ?r = _ => apply IH; cbn [length]; lia
      end.
Qed.

Lemma utf8_ascii (bs : list byte) :
  Forall (fun b => byte_val b < 0x80) bs ->
  utf8_decode Strict bs = Ok (map byte_val bs).
Proof.
  induction 1 as [|b bs Hb _ IH]; [reflexivity|].
  cbn [utf8_decode map].
  replace (byte_val b <? 128) with true by (symmetry; apply Z.ltb_lt; exact Hb).
  unfold emit. rewrite IH. reflexivity.
Qed.

Lemma fault_ok {A} (data : list byte) (a : A) : unicode_fault_of data (Ok a).
Proof. intros e H. discriminate. Qed.

Lemma fault_bind {A B} (data : list byte) (m : res A) (k : A -> res B) :
  unicode_fault_of data m ->
  (forall a, m = Ok a -> unicode_fault_of data (k a)) ->
  unicode_fault_of data (m ≫= k).
Proof.
  intros Hm Hk. destruct m as [a|e0].
  - rewrite bind_Ok. apply Hk. reflexivity.
  - intros e H. apply Hm. rewrite bind_Raise in H. congruence.
Qed.

Lemma fault_utf8 (data bs : list byte) :
  bs ⊆ data -> unicode_fault_of data (utf8_decode Strict bs).
Proof.
  intros Hsub e H.
  assert (e = UnicodeDecodeError) as ->
    by (eapply utf8_strict_raises; [reflexivity|exact H]).
  split; [reflexivity|]. exists bs. split; assumption.
Qed.

Lemma fault_mono {A} (data data' : list byte) (r : res A) :
  data' ⊆ data -> unicode_fault_of data' r -> unicode_fault_of data r.
Proof.
  intros Hsub Hr e H. destruct (Hr e H) as [-> (bs & Hbs & Hd)].
  split; [reflexivity|]. exists bs. split; [|exact Hd].
  etransitivity; eassumption.
Qed.

Ltac fault_step :=
  match goal with
  | |- unicode_fault_of _ (Ok _) => apply fault_ok
  | |- unicode_fault_of _ (if ?a >? ?b then _ else _) =>
      destruct (Z.gtb_spec a b)
  | |- unicode_fault_of _ (if ?a >=? ?b then _ else _) =>
      destruct (Z.geb_spec a b)
  | |- unicode_fault_of _ (if ?a <? ?b then _ else _) =>
      destruct (Z.ltb_spec a b)
  | |- unicode_fault_of _ (if ?c then _ else _) => destruct c
  | |- unicode_fault_of _ (unpack_H (slice ?d ?a ?b) ≫= _) =>
      rewrite (unpack_H_len (slice d a b)) by (rewrite len_slice; lia);
      rewrite bind_Ok;
      pose proof (be_value_nonneg (slice d a b))
  | |- unicode_fault_of _ (unpack_I (slice ?d ?a ?b) ≫= _) =>
      rewrite (unpack_I_len (slice d a b)) by (rewrite len_slice; lia);
      rewrite bind_Ok;
      pose proof (be_value_nonneg (slice d a b))
  | |- unicode_fault_of _ (unpack_d (slice ?d ?a ?b) ≫= _) =>
      unfold unpack_d;
      replace (len (slice d a b) =? 8) with true
        by (symmetry; apply Z.eqb_eq; rewrite len_slice; lia);
      rewrite bind_Ok
  | |- unicode_fault_of _ (utf8_decode Strict _ ≫= _) =>
      apply fault_bind; [apply fault_utf8, slice_subseteq|intros ? _]
  | |- unicode_fault_of _ (utf8_decode Replace ?x ≫= _) =>
      let s := fresh "s" in let E := fresh "E" in
      destruct (utf8_replace_ok (length x) x (Nat.le_refl _)) as [s E];
      rewrite E, bind_Ok
  | |- unicode_fault_of _ (index ?d ?i ≫= _) =>
      let b := fresh "b" in let E := fresh "E" in
      destruct (index_ok d i) as [b E]; [lia|]; rewrite E, bind_Ok
  | |- unicode_fault_of _ ((if _ then _ else _) ≫= _) =>
      apply fault_bind; [|intros ? _]
  end.

Lemma decode_field_fault (data : list byte) (offset : Z) (result : payload) :
  0 <= offset -> unicode_fault_of data (decode_field data offset result).
Proof.
  intros H0. unfold decode_field. cbv zeta.
  pose proof (len_nonneg data).
  repeat fault_step.
Qed.

Ltac bind_inv H :=
  repeat match type of H with
    | (if ?c then _ else _) = _ => destruct c; [discriminate H|]
    | (?m ≫= _) = _ =>
        let E := fresh "E" in
        destruct m eqn:E; [rewrite bind_Ok in H|discriminate H]
    end.

Lemma decode_field_offset (data : list byte) (offset : Z) (result : payload)
    (offset' : Z) (result' : payload) :
  decode_field data offset result = Ok (Some (offset', result')) ->
  offset <= offset'.
Proof.
  unfold decode_field. cbv zeta. intros H.
  bind_inv H.
  match goal with
  | E1 : unpack_H _ = Ok _, E2 : unpack_I _ = Ok _ |- _ =>
      apply unpack_H_nonneg in E1; apply unpack_I_nonneg in E2
  end.
  injection H as <- _. lia.
Qed.

Lemma decode_fields_fault (n : nat) :
  forall (data : list byte) (offset : Z) (result : payload),
    0 <= offset -> unicode_fault_of data (decode_fields n data offset result).
Proof.
  induction n as [|n IH]; intros data offset result H0; cbn [decode_fields].
  - apply fault_ok.
  - apply fault_bind; [apply decode_field_fault, H0|].
    intros [[offset' result']|] E; [|apply fault_ok].
    apply IH. apply decode_field_offset in E. lia.
Qed.

Lemma decode_data_fault (data : list byte) :
  unicode_fault_of data (_decode_data data).
Proof.
  unfold _decode_data. cbv zeta.
  pose proof (len_nonneg data).
  repeat fault_step.
  apply decode_fields_fault. lia.
Qed.

Lemma decode_fault (data : list byte) : unicode_fault_of data (decode data).
Proof.
  unfold decode. cbv zeta.
  pose proof (len_nonneg data).
  repeat fault_step.
  apply fault_bind; [|intros; apply fault_ok].
  eapply fault_mono; [apply slice_subseteq|apply decode_data_fault].
Qed.

(** X1. The only exception [decode] can raise is [UnicodeDecodeError]:
    every read is guarded by a bounds check, so no [struct.error] and no
    [IndexError] escapes, whatever the bytes. When it raises, some run of
    bytes of the frame (a channel, a message type, a key or a String value)
    is not valid UTF-8. *)
Theorem decode_raises_only_unicode (data : list byte) (e : exn) :
  decode data = Raise e ->
  e = UnicodeDecodeError /\
  exists bs, bs ⊆ data /\ utf8_decode Strict bs = Raise UnicodeDecodeError.
Proof.
  intros H. destruct (decode_fault data e H) as [He (bs & Hsub & Hbad)].
  split; [exact He|]. exists bs. split; [exact Hsub|exact Hbad].
Qed.

Lemma decode_raises_only_unicode_witness :
  decode [x03; x00; x01; xff] = Raise UnicodeDecodeError /\
  UnicodeDecodeError = UnicodeDecodeError.
Proof.
  split; [reflexivity|].
  apply (decode_raises_only_unicode [x03; x00; x01; xff] UnicodeDecodeError).
  reflexivity.
Defined.

(** X2. On a frame all of whose bytes are below 0x80, [decode] returns a
    message: it never raises on ASCII-only input, however the frame is cut
    or filled. *)
Theorem decode_ascii_returns (data : list byte) :
  Forall (fun b => byte_val b < 0x80) data -> exists msg, decode data = Ok msg.
Proof.
  intros Hascii. destruct (decode data) as [msg|e] eqn:E; [exists msg; reflexivity|].
  destruct (decode_fault data e E) as [_ (bs & Hsub & Hbad)].
  rewrite utf8_ascii in Hbad; [discriminate|].
  rewrite Forall_forall in *. intros b Hb. apply Hascii, Hsub, Hb.
Qed.

Lemma decode_ascii_returns_witness :
  exists msg, decode [x03; x00; x05; x61; x62] = Ok msg.
Proof.
  apply (decode_ascii_returns [x03; x00; x05; x61; x62]).
  repeat constructor.
Defined.

(** ** Wire forms: decoding what any message was encoded to *)

Lemma encode_field_wire (key : str) (v : pyval) (f : list byte) :
  encode_field (key, v) = Ok f -> float_pattern v ->
  exists k2 kb tag v4 vb v',
    f = k2 ++ kb ++ [tag] ++ v4 ++ vb /\
    len k2 = 2 /\ be_value k2 = len kb /\ utf8_decode Strict kb = Ok key /\
    len v4 = 4 /\ be_value v4 = len vb /\
    wire_value tag vb = Ok v' /\ wire_form v = Ok v'.
Proof.
  intros H Hv. unfold encode_field in H.
  destruct (utf8_encode key) as [kb|e] eqn:Ek; [|discriminate].
  rewrite bind_Ok in H.
  destruct (pack_H (len kb)) as [k2|e] eqn:Ek2; [|discriminate].
  rewrite bind_Ok in H. cbv zeta in H.
  destruct (pack_H_spec _ _ Ek2) as [Hk2 Hkv].
  apply utf8_decode_encode in Ek.
  assert (Htext : forall s,
    (val_bytes ← utf8_encode s;
     val_len ← pack_I (len val_bytes);
     Ok ((k2 ++ kb) ++ [VAL_STRING] ++ val_len ++ val_bytes)) = Ok f ->
    exists v4 vb,
      f = k2 ++ kb ++ [VAL_STRING] ++ v4 ++ vb /\
      len v4 = 4 /\ be_value v4 = len vb /\
      wire_value VAL_STRING vb = Ok (PyStr s)).
  { intros s Hs.
    destruct (utf8_encode s) as [vb|e] eqn:Es; [|discriminate].
    rewrite bind_Ok in Hs.
    destruct (pack_I (len vb)) as [v4|e] eqn:E4; [|discriminate].
    rewrite bind_Ok in Hs. injection Hs as <-.
    destruct (pack_I_spec _ _ E4) as [Hv4 Hvv].
    exists v4, vb. rewrite <- !app_assoc.
    repeat (split; [assumption || reflexivity|]).
    unfold wire_value. change (Byte.eqb VAL_STRING VAL_STRING) with true.
    cbv iota. rewrite (utf8_decode_encode s vb Es). reflexivity. }
  assert (Hnum : forall x, 0 <= x < 2 ^ 64 ->
    (val_len ← pack_I 8;
     Ok ((k2 ++ kb) ++ [VAL_NUMBER] ++ val_len ++ pack_d x)) = Ok f ->
    exists v4 vb,
      f = k2 ++ kb ++ [VAL_NUMBER] ++ v4 ++ vb /\
      len v4 = 4 /\ be_value v4 = len vb /\
      wire_value VAL_NUMBER vb = Ok (PyFloat x)).
  { intros x Hx Hs.
    destruct (pack_I 8) as [v4|e] eqn:E4; [|discriminate].
    rewrite bind_Ok in Hs. injection Hs as <-.
    destruct (pack_I_spec _ _ E4) as [Hv4 Hvv].
    assert (Hl : len (pack_d x) = 8) by apply len_be_bytes.
    exists v4, (pack_d x). rewrite <- !app_assoc.
    repeat (split; [assumption || reflexivity || congruence|]).
    unfold wire_value.
    change (Byte.eqb VAL_NUMBER VAL_STRING) with false.
    change (Byte.eqb VAL_NUMBER VAL_NUMBER) with true. cbv iota.
    rewrite Hl. change (8 >=? 8) with true. cbv iota.
    rewrite <- Hl at 1. rewrite slice_all, (unpack_d_pack x Hx). reflexivity. }
  destruct v as [s|b|n|x|bs|j|j| |r];
    cbn [isinstance type_of issubclass pyclass_eqb orb
         str_value truth bytes_value to_float json_dumps str_of] in H.
  - destruct (Htext s H) as (v4 & vb & ? & ? & ? & ?).
    exists k2, kb, VAL_STRING, v4, vb, (PyStr s). repeat split; assumption.
  - destruct (pack_I 1) as [v4|e] eqn:E4; [|discriminate].
    rewrite bind_Ok in H. injection H as <-.
    destruct (pack_I_spec _ _ E4) as [Hv4 Hvv].
    exists k2, kb, VAL_BOOLEAN, v4, [if b then x01 else x00], (PyBool b).
    rewrite <- !app_assoc. repeat (split; [assumption || reflexivity|]).
    split; [destruct b; reflexivity|reflexivity].
  - destruct (float_of_int n) as [x|e] eqn:En.
    + destruct (Hnum x (float_of_int_bits n x En)) as (v4 & vb & ? & ? & ? & ?).
      { destruct (pack_I 8); [rewrite !bind_Ok in *; exact H|discriminate]. }
      exists k2, kb, VAL_NUMBER, v4, vb, (PyFloat x).
      cbn [wire_form]. rewrite En. repeat split; assumption.
    + destruct (pack_I 8); discriminate.
  - destruct (Hnum x Hv) as (v4 & vb & ? & ? & ? & ?).
    { destruct (pack_I 8); [rewrite !bind_Ok in *; exact H|discriminate]. }
    exists k2, kb, VAL_NUMBER, v4, vb, (PyFloat x). repeat split; assumption.
  - destruct (pack_I (len bs)) as [v4|e] eqn:E4; [|discriminate].
    rewrite bind_Ok in H. injection H as <-.
    destruct (pack_I_spec _ _ E4) as [Hv4 Hvv].
    exists k2, kb, VAL_BYTES, v4, bs, (PyBytes bs).
    rewrite <- !app_assoc. repeat (split; [assumption || reflexivity|]).
    split; reflexivity.
  - destruct (Htext j H) as (v4 & vb & ? & ? & ? & ?).
    exists k2, kb, VAL_STRING, v4, vb, (PyStr j). repeat split; assumption.
  - destruct (Htext j H) as (v4 & vb & ? & ? & ? & ?).
    exists k2, kb, VAL_STRING, v4, vb, (PyStr j). repeat split; assumption.
  - destruct (pack_I 0) as [v4|e] eqn:E4; [|discriminate].
    rewrite bind_Ok in H. injection H as <-.
    destruct (pack_I_spec _ _ E4) as [Hv4 Hvv].
    exists k2, kb, VAL_STRING, v4, [], (PyStr []).
    rewrite <- !app_assoc, app_nil_r.
    repeat (split; [assumption || reflexivity|]).
    split; reflexivity.
  - destruct (Htext r H) as (v4 & vb & ? & ? & ? & ?).
    exists k2, kb, VAL_STRING, v4, vb, (PyStr r). repeat split; assumption.
Qed.

Lemma decode_fields_wire (d : payload) :
  forall (pre out post : list byte) (acc : payload) (k : nat),
    encode_fields d pre = Ok out ->
    Forall (fun kv => float_pattern (snd kv)) d ->
    exists d',
      wire_forms d d' /\
      decode_fields (length d + k) (out ++ post) (len pre) acc
      = decode_fields k (out ++ post) (len out)
          (fold_left (fun a kv => dict_set a (fst kv) (snd kv)) d' acc).
Proof.
  induction d as [|[key v] d IH]; intros pre out post acc k He Hty.
  - injection He as <-. exists []. split; [constructor|reflexivity].
  - cbn [encode_fields] in He.
    destruct (encode_field (key, v)) as [f|e] eqn:Ef; [|discriminate].
    rewrite bind_Ok in He.
    inversion Hty as [|? ? Hv Hty']; subst.
    destruct (encode_field_wire key v f Ef Hv)
      as (k2 & kb & tag & v4 & vb & v' & -> & Hk2 & Hkv & Hkey & Hv4 & Hvv
          & Hw & Hform).
    destruct (encode_fields_prefix _ _ _ He) as [post0 Hout].
    destruct (IH _ out post (dict_set acc key v') k He Hty') as (d' & Hd' & Hdec).
    exists ((key, v') :: d'). split.
    { constructor; [split; [reflexivity|exact Hform]|exact Hd']. }
    cbn [length Nat.add decode_fields fold_left fst snd].
    rewrite (decode_field_layout (out ++ post) pre k2 kb key tag v4 vb
               (post0 ++ post) (len pre) acc)
      by (assumption || reflexivity
          || (rewrite Hout, <- !app_assoc; reflexivity)).
    rewrite Hw, !bind_Ok.
    replace (len pre + (2 + len kb + 1 + 4 + len vb))
      with (len (pre ++ k2 ++ kb ++ [tag] ++ v4 ++ vb)) by lens.
    exact Hdec.
Qed.

Lemma dict_of_fresh (d acc : payload) :
  NoDup (map fst (acc ++ d)) ->
  fold_left (fun a kv => dict_set a (fst kv) (snd kv)) d acc = acc ++ d.
Proof.
  revert acc. induction d as [|[k v] d IH]; intros acc Hnd.
  - rewrite app_nil_r. reflexivity.
  - cbn [fold_left fst snd].
    assert (Hfresh : k ∉ map fst acc).
    { rewrite map_app in Hnd. apply NoDup_app in Hnd as (_ & Hdis & _).
      intros Hin. apply (Hdis k Hin). cbn [map fst]. left. }
    rewrite (dict_set_fresh acc k v Hfresh).
    rewrite IH; rewrite <- app_assoc; [reflexivity|exact Hnd].
Qed.

Lemma wire_forms_keys (d d' : payload) :
  wire_forms d d' -> map fst d' = map fst d.
Proof.
  induction 1 as [|kv kv' d d' [Hk _] _ IH]; [reflexivity|].
  cbn [map]. rewrite Hk, IH. reflexivity.
Qed.

Lemma wire_typed_form (v : pyval) :
  wire_typed v -> float_pattern v /\ wire_form v = Ok v.
Proof. destruct v; cbn; intros H; try contradiction; split; trivial. Qed.

Lemma wire_forms_typed (d d' : payload) :
  Forall (fun kv => wire_typed (snd kv)) d -> wire_forms d d' -> d' = d.
Proof.
  intros Hty H. induction H as [|[k v] [k' v'] d d' [Hk Hv] _ IH]; [reflexivity|].
  inversion Hty as [|? ? Hv0 Hty']; subst. cbn [fst snd] in *.
  destruct (wire_typed_form v Hv0) as [_ Hv1].
  rewrite Hv1 in Hv. injection Hv as <-. subst k'. f_equal. apply IH, Hty'.
Qed.

Lemma wire_typed_patterns (d : payload) :
  Forall (fun kv => wire_typed (snd kv)) d ->
  Forall (fun kv => float_pattern (snd kv)) d.
Proof.
  intros H. eapply Forall_impl; [exact H|].
  intros kv Hkv. apply wire_typed_form, Hkv.
Qed.

Lemma encode_fields_from (d : payload) :
  forall r, encode_fields d r = (fs ← encode_fields d []; Ok (r ++ fs)).
Proof.
  induction d as [|kv d IH]; intros r.
  - cbn. rewrite app_nil_r. reflexivity.
  - cbn [encode_fields]. destruct (encode_field kv) as [f|e]; [|reflexivity].
    rewrite !bind_Ok. rewrite (IH (r ++ f)), (IH ([] ++ f)).
    destruct (encode_fields d []) as [fs|e]; [|reflexivity].
    rewrite !bind_Ok. cbn [app]. rewrite <- app_assoc. reflexivity.
Qed.

Lemma decode_fields_at_end (k : nat) (data : list byte) (offset : Z)
    (result : payload) :
  len data < offset + 2 -> decode_fields k data offset result = Ok result.
Proof.
  intros H. destruct k as [|k]; [reflexivity|].
  cbn [decode_fields]. unfold decode_field.
  rewrite gtb_true by lia. reflexivity.
Qed.

(** The payload decoder on a count [n] followed by encoded fields. *)
Lemma decode_data_counted (n : Z) (fs post : list byte) (k : nat) (d : payload) :
  0 <= n <= 0xFFFF -> encode_fields d [] = Ok fs ->
  Forall (fun kv => float_pattern (snd kv)) d ->
  Z.to_nat n = (length d + k)%nat ->
  exists d',
    wire_forms d d' /\
    _decode_data (be_bytes 2 n ++ fs ++ post)
    = decode_fields k (be_bytes 2 n ++ fs ++ post) (2 + len fs) (dict_of d').
Proof.
  intros Hn He Hty Hk.
  assert (He' : encode_fields d (be_bytes 2 n) = Ok (be_bytes 2 n ++ fs))
    by (rewrite encode_fields_from, He; reflexivity).
  destruct (decode_fields_wire d (be_bytes 2 n) _ post [] k He' Hty)
    as (d' & Hd' & Hdec).
  exists d'. split; [exact Hd'|].
  unfold _decode_data. cbv zeta.
  pose proof (len_be_bytes 2 n) as Hl. change (Z.of_nat 2) with 2 in Hl.
  replace (len (be_bytes 2 n ++ fs ++ post) <? 2) with false
    by (symmetry; apply Z.ltb_ge; rewrite len_app; pose proof (len_nonneg (fs ++ post)); lia).
  rewrite (slice_of _ [] (be_bytes 2 n) (fs ++ post) 0 (0 + 2))
    by (reflexivity || (cbn [len length]; lia)).
  rewrite (unpack_H_len _ Hl), bind_Ok.
  rewrite be_value_be_bytes by (change (256 ^ Z.of_nat 2) with 65536; lia).
  rewrite Hk. rewrite <- app_assoc in Hdec. rewrite Hl in Hdec.
  change (0 + 2) with 2. rewrite Hdec. f_equal.
  rewrite len_app, Hl. reflexivity.
Qed.

Lemma decode_data_wire (d : payload) (db : list byte) :
  _encode_data d = Ok db ->
  Forall (fun kv => float_pattern (snd kv)) d ->
  exists d', wire_forms d d' /\ _decode_data db = Ok (dict_of d').
Proof.
  intros He Hty. unfold _encode_data in He.
  destruct d as [|kv d0] eqn:Ed.
  { replace db with [x00; x00] by (cbv in He; congruence).
    exists []. split; [constructor|reflexivity]. }
  rewrite <- Ed in *. clear Ed.
  destruct (pack_H (len d)) as [hdr|e] eqn:Eh; [|discriminate].
  rewrite bind_Ok in He.
  assert (Hn : 0 <= len d <= 0xFFFF).
  { unfold pack_H in Eh.
    destruct (Z.leb_spec 0 (len d)); destruct (Z.leb_spec (len d) 0xFFFF);
      cbn in Eh; try discriminate; lia. }
  assert (Hhdr : hdr = be_bytes 2 (len d)).
  { unfold pack_H in Eh. destruct (_ && _); congruence. }
  subst hdr. rewrite encode_fields_from in He.
  destruct (encode_fields d []) as [fs|e] eqn:Ef; [|discriminate].
  rewrite bind_Ok in He. injection He as <-.
  destruct (decode_data_counted (len d) fs [] 0 d Hn Ef Hty) as (d' & Hd' & Hdec).
  { unfold len. rewrite Nat2Z.id. lia. }
  exists d'. split; [exact Hd'|].
  rewrite app_nil_r in Hdec. exact Hdec.
Qed.

(** Decoding a frame [encode] made, followed by any bytes: the header is
    read back, and the payload is what [_decode_data] makes of the payload
    bytes. *)
Lemma decode_encoded_frame (m : message) (data junk : list byte) :
  encode m = Ok data ->
  exists db,
    _encode_data (default [] (m_data m)) = Ok db /\
    decode (data ++ junk) =
      (payload ← _decode_data db;
       Ok (Message (Some (default (lit "data") (m_type m)))
                   (Some (default (lit "") (m_channel m))) (Some payload))).
Proof.
  intros He. unfold encode in He. cbv zeta in He.
  set (c := default (lit "") (m_channel m)) in *.
  set (t := default (lit "data") (m_type m)) in *.
  set (d := default [] (m_data m)) in *.
  set (kind := default MSG_DATA (TYPE_TO_BYTE t)) in He.
  destruct (utf8_encode c) as [cb|e] eqn:Ec; [|discriminate].
  rewrite bind_Ok in He.
  destruct (pack_H (len cb)) as [c2|e] eqn:Ec2; [|discriminate].
  rewrite bind_Ok in He.
  destruct (utf8_encode t) as [tb|e] eqn:Et; [|discriminate].
  rewrite bind_Ok in He.
  destruct (pack_H (len tb)) as [t2|e] eqn:Et2; [|discriminate].
  rewrite bind_Ok in He.
  destruct (_encode_data d) as [db|e] eqn:Ed; [|discriminate].
  rewrite bind_Ok in He.
  destruct (pack_I (len db)) as [d4|e] eqn:Ed4; [|discriminate].
  rewrite bind_Ok in He.
  assert (Hdata : data = [kind] ++ c2 ++ cb ++ t2 ++ tb ++ d4 ++ db)
    by (injection He as <-; reflexivity).
  exists db. split; [reflexivity|].
  rewrite Hdata. clear He Hdata.
  destruct (pack_H_spec _ _ Ec2) as [Hc2 Hcv].
  destruct (pack_H_spec _ _ Et2) as [Ht2 Htv].
  destruct (pack_I_spec _ _ Ed4) as [Hd4 Hdv].
  rewrite <- !app_assoc.
  rewrite (decode_header _ c2 cb c t2 tb t (d4 ++ db ++ junk) Hc2 Hcv
             (utf8_decode_encode c cb Ec) Ht2 Htv (utf8_decode_encode t tb Et)).
  pose proof (len_nonneg junk).
  rewrite gtb_false by lens.
  rewrite (slice_of (d4 ++ db ++ junk) [] d4 (db ++ junk) 0 4) by layout.
  rewrite (unpack_I_len d4 Hd4), bind_Ok, Hdv, gtb_false by lens.
  rewrite (slice_of (d4 ++ db ++ junk) d4 db junk 4 (4 + len db)) by layout.
  reflexivity.
Qed.

(** ** Round trips and the payload decoder *)

Lemma pack_H_range (n : Z) (bs : list byte) :
  pack_H n = Ok bs -> 0 <= n <= 0xFFFF.
Proof.
  unfold pack_H.
  destruct (Z.leb_spec 0 n); destruct (Z.leb_spec n 0xFFFF);
    cbn [andb]; intros Hp; try discriminate; lia.
Qed.

Lemma pack_I_range (n : Z) (bs : list byte) :
  pack_I n = Ok bs -> 0 <= n <= 0xFFFFFFFF.
Proof.
  unfold pack_I.
  destruct (Z.leb_spec 0 n); destruct (Z.leb_spec n 0xFFFFFFFF);
    cbn [andb]; intros Hp; try discriminate; lia.
Qed.

(** X3. Round trip for every message [encode] accepts. Let [m] be a
    message whose payload holds no key twice (floats being bit patterns of
    64 bits). If [encode(m)] returns bytes, decoding them gives the message
    with the defaults filled in (message type "data", channel "", payload
    {}) and with each field under its key, in the same order, in its wire
    form: text, booleans, floats and bytes unchanged, an int [n] as the
    float [float(n)], [None] as "", a nested dict or list as its JSON text,
    any other object as its [str] text. *)
Theorem decode_encode_wire_form (m : message) (data : list byte) :
  is_dict (default [] (m_data m)) ->
  Forall (fun kv => float_pattern (snd kv)) (default [] (m_data m)) ->
  encode m = Ok data ->
  exists d',
    wire_forms (default [] (m_data m)) d' /\
    decode data = Ok (Message (Some (default (lit "data") (m_type m)))
                              (Some (default (lit "") (m_channel m)))
                              (Some d')).
Proof.
  intros Hnd Hty He.
  destruct (decode_encoded_frame m data [] He) as (db & Hdb & Hdec).
  destruct (decode_data_wire _ db Hdb Hty) as (d' & Hd' & Hpay).
  exists d'. split; [exact Hd'|].
  rewrite app_nil_r in Hdec. rewrite Hdec, Hpay, bind_Ok.
  unfold dict_of. rewrite dict_of_fresh; [reflexivity|].
  cbn [app]. rewrite (wire_forms_keys _ _ Hd'). exact Hnd.
Qed.

Lemma decode_encode_wire_form_witness :
  exists data d',
    encode resize_message = Ok data /\
    wire_forms [(lit "terminal_id", PyStr (lit "t1"));
                (lit "cols", PyInt 80); (lit "rows", PyInt 24)] d' /\
    decode data = Ok (Message (Some (lit "terminal:resize")) (Some (lit ""))
                              (Some d')).
Proof.
  destruct (encode resize_message) as [data|e] eqn:E;
    [|vm_compute in E; discriminate E].
  destruct (decode_encode_wire_form resize_message data) as (d' & H1 & H2).
  - unfold is_dict. apply (bool_decide_unpack _). vm_compute. exact I.
  - repeat constructor.
  - exact E.
  - exists data, d'. split; [reflexivity|]. split; [exact H1|exact H2].
Defined.

(** X4. Bytes that follow a frame are ignored: for the bytes [data] that
    [encode] returned for any message, decoding [data + junk] gives what
    decoding [data] gives. *)
Theorem decode_ignores_trailing_bytes (m : message) (data junk : list byte) :
  encode m = Ok data -> decode (data ++ junk) = decode data.
Proof.
  intros He.
  destruct (decode_encoded_frame m data junk He) as (db & Hdb & Hdec).
  destruct (decode_encoded_frame m data [] He) as (db' & Hdb' & Hdec').
  rewrite app_nil_r in Hdec'. rewrite Hdec, Hdec'.
  replace db' with db by congruence. reflexivity.
Qed.

Lemma decode_ignores_trailing_bytes_witness :
  exists data,
    encode terminal_message = Ok data /\
    decode (data ++ [xff; xfe]) = decode data.
Proof.
  destruct (encode terminal_message) as [data|e] eqn:E;
    [|vm_compute in E; discriminate E].
  exists data. split; [reflexivity|].
  apply (decode_ignores_trailing_bytes terminal_message data [xff; xfe] E).
Defined.

(** X5. The payload decoder reads as many fields as the count announces
    and the bytes hold. For the encoded fields of a dict [d] (wire-typed
    values), preceded by any count [n] that fits 16 bits, [_decode_data]
    returns the first [n] fields of [d]: all of [d] when the count is too
    large (the loop breaks at the end of the bytes, nothing is raised), a
    prefix of [d] when it is too small (the remaining bytes are left
    unread). *)
Theorem decode_data_field_count (d : payload) (fs : list byte) (n : Z) :
  is_dict d ->
  Forall (fun kv => wire_typed (snd kv)) d ->
  encode_fields d [] = Ok fs ->
  0 <= n <= 0xFFFF ->
  _decode_data (be_bytes 2 n ++ fs) = Ok (take (Z.to_nat n) d).
Proof.
  intros Hnd Hty He Hn.
  destruct (Nat.le_gt_cases (length d) (Z.to_nat n)) as [Hge|Hlt].
  - destruct (decode_data_counted n fs [] (Z.to_nat n - length d) d Hn He
                (wire_typed_patterns d Hty) ltac:(lia)) as (d' & Hd' & Hdec).
    apply (wire_forms_typed d d' Hty) in Hd'. subst d'.
    rewrite app_nil_r in Hdec. rewrite Hdec.
    rewrite decode_fields_at_end
      by (rewrite len_app, len_be_bytes; change (Z.of_nat 2) with 2; lia).
    rewrite take_ge by lia.
    unfold dict_of. rewrite dict_of_fresh; [reflexivity|exact Hnd].
  - rewrite <- (take_drop (Z.to_nat n) d) in He.
    rewrite encode_fields_app in He.
    destruct (encode_fields (take (Z.to_nat n) d) []) as [fs1|e] eqn:E1;
      [|discriminate].
    rewrite bind_Ok in He.
    destruct (encode_fields_prefix _ _ _ He) as [post ->].
    assert (Hty1 : Forall (fun kv => wire_typed (snd kv)) (take (Z.to_nat n) d))
      by (apply Forall_take, Hty).
    destruct (decode_data_counted n fs1 post 0 (take (Z.to_nat n) d) Hn E1
                (wire_typed_patterns _ Hty1)) as (d' & Hd' & Hdec).
    { rewrite length_take. lia. }
    apply (wire_forms_typed _ d' Hty1) in Hd'. subst d'.
    rewrite Hdec. cbn [decode_fields].
    unfold dict_of. rewrite dict_of_fresh; [reflexivity|].
    cbn [app]. unfold is_dict in Hnd.
    rewrite <- (take_drop (Z.to_nat n) d), map_app in Hnd.
    apply NoDup_app in Hnd as [H _]. exact H.
Qed.

Lemma decode_data_field_count_witness :
  exists fs,
    encode_fields two_flags [] = Ok fs /\
    _decode_data (be_bytes 2 1 ++ fs) = Ok [(lit "a", PyBool true)] /\
    _decode_data (be_bytes 2 5 ++ fs) = Ok two_flags.
Proof.
  destruct (encode_fields two_flags []) as [fs|e] eqn:E;
    [|vm_compute in E; discriminate E].
  assert (Hnd : is_dict two_flags)
    by (unfold is_dict; apply (bool_decide_unpack _); vm_compute; exact I).
  assert (Hty : Forall (fun kv => wire_typed (snd kv)) two_flags)
    by (repeat constructor).
  exists fs. split; [reflexivity|]. split.
  - apply (decode_data_field_count two_flags fs 1 Hnd Hty E). lia.
  - apply (decode_data_field_count two_flags fs 5 Hnd Hty E). lia.
Defined.

(** ** Repeated keys *)

Lemma dict_get_set (d : payload) (k : str) (v : pyval) (key : str) :
  dict_get (dict_set d k v) key
  = if decide (k = key) then Some v else dict_get d key.
Proof.
  induction d as [|[k0 v0] d IH]; cbn [dict_set dict_get].
  - destruct (decide (k = key)); reflexivity.
  - destruct (decide (k0 = k)) as [->|Hne]; cbn [dict_get].
    + destruct (decide (k = key)); reflexivity.
    + rewrite IH. destruct (decide (k0 = key)) as [->|]; [|reflexivity].
      destruct (decide (k = key)); [congruence|reflexivity].
Qed.

Lemma dict_set_key_in (d : payload) (k : str) (v : pyval) (x : str) :
  x ∈ map fst (dict_set d k v) -> x = k \/ x ∈ map fst d.
Proof.
  induction d as [|[k0 v0] d IH]; cbn [dict_set map fst].
  - intros H. apply list_elem_of_singleton in H. left. exact H.
  - destruct (decide (k0 = k)); cbn [map fst]; intros H.
    + right. exact H.
    + apply elem_of_cons in H as [->|H]; [right; left|].
      destruct (IH H) as [->|Hin]; [left; reflexivity|right; right; exact Hin].
Qed.

Lemma dict_set_keys (d : payload) (k : str) (v : pyval) :
  NoDup (map fst d) -> NoDup (map fst (dict_set d k v)).
Proof.
  induction d as [|[k0 v0] d IH]; cbn [dict_set map fst]; intros Hnd.
  - apply NoDup_singleton.
  - destruct (decide (k0 = k)); cbn [map fst]; [exact Hnd|].
    apply NoDup_cons in Hnd as [Hout Hnd]. apply NoDup_cons. split.
    + intros Hin. apply dict_set_key_in in Hin as [->|Hin]; [congruence|].
      exact (Hout Hin).
    + apply IH, Hnd.
Qed.

Lemma dict_of_keys (items : list (str * pyval)) (acc : payload) :
  NoDup (map fst acc) ->
  NoDup (map fst (fold_left (fun a kv => dict_set a (fst kv) (snd kv)) items acc)).
Proof.
  revert acc. induction items as [|[k v] items IH]; intros acc Hnd; [exact Hnd|].
  cbn [fold_left fst snd]. apply IH, dict_set_keys, Hnd.
Qed.

Lemma dict_get_app (d1 d2 : payload) (key : str) :
  dict_get (d1 ++ d2) key
  = match dict_get d1 key with Some v => Some v | None => dict_get d2 key end.
Proof.
  induction d1 as [|[k v] d1 IH]; cbn [app dict_get]; [reflexivity|].
  destruct (decide (k = key)); [reflexivity|exact IH].
Qed.

Lemma dict_get_fold (items : list (str * pyval)) (acc : payload) (key : str) :
  dict_get (fold_left (fun a kv => dict_set a (fst kv) (snd kv)) items acc) key
  = match dict_get (reverse items) key with
    | Some v => Some v
    | None => dict_get acc key
    end.
Proof.
  revert acc. induction items as [|[k v] items IH]; intros acc; [reflexivity|].
  cbn [fold_left fst snd]. rewrite IH, reverse_cons, dict_get_app, dict_get_set.
  cbn [dict_get].
  destruct (dict_get (reverse items) key); [reflexivity|].
  destruct (decide (k = key)); reflexivity.
Qed.

(** X6. A key that comes more than once in the payload bytes. For the
    encoded fields of any list of items (wire-typed values, keys possibly
    repeated) preceded by their count, [_decode_data] returns the dict built
    by assigning the items in turn: it holds every key once, and under each
    key the value of its last occurrence. *)
Theorem decode_data_repeated_keys (items : list (str * pyval)) (fs : list byte) :
  Forall (fun kv => wire_typed (snd kv)) items ->
  encode_fields items [] = Ok fs ->
  len items <= 0xFFFF ->
  _decode_data (be_bytes 2 (len items) ++ fs) = Ok (dict_of items) /\
  is_dict (dict_of items) /\
  forall key, dict_get (dict_of items) key = dict_get (reverse items) key.
Proof.
  intros Hty He Hn. split; [|split].
  - destruct (decode_data_counted (len items) fs [] 0 items
                ltac:(pose proof (len_nonneg items); lia) He
                (wire_typed_patterns items Hty)) as (d' & Hd' & Hdec).
    { unfold len. rewrite Nat2Z.id. lia. }
    apply (wire_forms_typed items d' Hty) in Hd'. subst d'.
    rewrite app_nil_r in Hdec. exact Hdec.
  - apply dict_of_keys. constructor.
  - intros key. unfold dict_of. rewrite dict_get_fold.
    destruct (dict_get (reverse items) key); reflexivity.
Qed.

Lemma decode_data_repeated_keys_witness :
  exists fs,
    encode_fields repeated_items [] = Ok fs /\
    _decode_data (be_bytes 2 3 ++ fs)
    = Ok [(lit "a", PyBool false); (lit "b", PyBool true)].
Proof.
  destruct (encode_fields repeated_items []) as [fs|e] eqn:E;
    [|vm_compute in E; discriminate E].
  exists fs. split; [reflexivity|].
  apply (decode_data_repeated_keys repeated_items fs).
  - repeat constructor.
  - exact E.
  - vm_compute. discriminate.
Defined.

(** X7. The two tables of the protocol agree: [TYPE_TO_BYTE] maps a
    message type to a kind byte exactly when the pair is one of its five
    items, and [BYTE_TO_TYPE] maps a byte to a type exactly when
    [TYPE_TO_BYTE] maps that type to that byte (the five kinds are pairwise
    different, so inverting the table loses nothing). *)
Theorem byte_to_type_inverse (t : str) (b : byte) :
  (TYPE_TO_BYTE t = Some b <-> (t, b) ∈ TYPE_TO_BYTE_items) /\
  (BYTE_TO_TYPE b = Some t <-> TYPE_TO_BYTE t = Some b).
Proof.
  assert (Hitems : TYPE_TO_BYTE t = Some b <-> (t, b) ∈ TYPE_TO_BYTE_items).
  { unfold TYPE_TO_BYTE, TYPE_TO_BYTE_items. split.
    - repeat (destruct (decide _) as [->|?];
              [intros [= <-]; repeat ((left; reflexivity) || right)|]).
      discriminate.
    - intros H.
      repeat (apply elem_of_cons in H as [[= -> ->]|H]; [reflexivity|]).
      inversion H. }
  split; [exact Hitems|]. split.
  - intros H. apply Hitems.
    destruct b; vm_compute in H; try discriminate H;
      injection H as <-; repeat ((left; reflexivity) || right).
  - intros H. apply Hitems in H. unfold TYPE_TO_BYTE_items in H.
    repeat (apply elem_of_cons in H as [[= -> ->]|H]; [reflexivity|]).
    inversion H.
Qed.

(** X8. [encode] never writes a length that does not fit its prefix:
    whenever it returns, channel and message type are at most 65535 bytes
    of UTF-8, the payload has at most 65535 fields and at most 4294967295
    bytes, and the frame is 9 bytes longer than channel, message type and
    payload together. *)
Theorem encode_within_limits (m : message) (data : list byte) :
  encode m = Ok data ->
  exists cb tb db,
    utf8_encode (default (lit "") (m_channel m)) = Ok cb /\
    utf8_encode (default (lit "data") (m_type m)) = Ok tb /\
    _encode_data (default [] (m_data m)) = Ok db /\
    len cb <= 0xFFFF /\ len tb <= 0xFFFF /\
    len (default [] (m_data m)) <= 0xFFFF /\ len db <= 0xFFFFFFFF /\
    len data = 9 + len cb + len tb + len db.
Proof.
  intros He. unfold encode in He. cbv zeta in He.
  set (c := default (lit "") (m_channel m)) in *.
  set (t := default (lit "data") (m_type m)) in *.
  set (d := default [] (m_data m)) in *.
  set (kind := default MSG_DATA (TYPE_TO_BYTE t)) in He.
  destruct (utf8_encode c) as [cb|e] eqn:Ec; [|discriminate].
  rewrite bind_Ok in He.
  destruct (pack_H (len cb)) as [c2|e] eqn:Ec2; [|discriminate].
  rewrite bind_Ok in He.
  destruct (utf8_encode t) as [tb|e] eqn:Et; [|discriminate].
  rewrite bind_Ok in He.
  destruct (pack_H (len tb)) as [t2|e] eqn:Et2; [|discriminate].
  rewrite bind_Ok in He.
  destruct (_encode_data d) as [db|e] eqn:Ed; [|discriminate].
  rewrite bind_Ok in He.
  destruct (pack_I (len db)) as [d4|e] eqn:Ed4; [|discriminate].
  rewrite bind_Ok in He. injection He as <-.
  exists cb, tb, db.
  pose proof (pack_H_range _ _ Ec2). pose proof (pack_H_range _ _ Et2).
  pose proof (pack_I_range _ _ Ed4).
  destruct (pack_H_spec _ _ Ec2) as [Hc2 _].
  destruct (pack_H_spec _ _ Et2) as [Ht2 _].
  destruct (pack_I_spec _ _ Ed4) as [Hd4 _].
  assert (Hd : len d <= 0xFFFF).
  { unfold _encode_data in Ed. destruct d as [|kv d'] eqn:Hdd; [rewrite len_nil; lia|].
    rewrite <- Hdd in *.
    destruct (pack_H (len d)) as [hdr|e] eqn:Eh; [|discriminate].
    apply pack_H_range in Eh. lia. }
  repeat (split; [reflexivity || lia|]).
  lens.
Qed.

Lemma encode_within_limits_witness :
  exists data,
    encode terminal_message = Ok data /\ len data = 77.
Proof.
  destruct (encode terminal_message) as [data|e] eqn:E;
    [|vm_compute in E; discriminate E].
  exists data. split; [reflexivity|].
  destruct (encode_within_limits terminal_message data E)
    as (cb & tb & db & Hc & Ht & Hd & _ & _ & _ & _ & Hlen).
  vm_compute in Hc, Ht, Hd.
  injection Hc as <-. injection Ht as <-. injection Hd as <-.
  exact Hlen.
Defined.

(** X9. [encode] is injective on messages with message type, channel and
    a payload of wire-typed values without repeated keys: two such messages
    with the same encoding are the same message. *)
Theorem encode_injective (t1 c1 : str) (d1 : payload) (t2 c2 : str)
    (d2 : payload) (data : list byte) :
  is_dict d1 -> Forall (fun kv => wire_typed (snd kv)) d1 ->
  is_dict d2 -> Forall (fun kv => wire_typed (snd kv)) d2 ->
  encode (Message (Some t1) (Some c1) (Some d1)) = Ok data ->
  encode (Message (Some t2) (Some c2) (Some d2)) = Ok data ->
  t1 = t2 /\ c1 = c2 /\ d1 = d2.
Proof.
  intros Hnd1 Hty1 Hnd2 Hty2 He1 He2.
  destruct (decode_encoded_frame _ data [] He1) as (db1 & Hdb1 & Hdec1).
  destruct (decode_encoded_frame _ data [] He2) as (db2 & Hdb2 & Hdec2).
  cbn [m_type m_channel m_data default] in *. unfold Datatypes.id in *.
  rewrite (decode_data_encoded d1 db1 Hdb1 Hty1 Hnd1), bind_Ok in Hdec1.
  rewrite (decode_data_encoded d2 db2 Hdb2 Hty2 Hnd2), bind_Ok in Hdec2.
  rewrite Hdec1 in Hdec2. injection Hdec2 as -> -> ->.
  repeat split.
Qed.

Lemma encode_injective_witness :
  lit "data" = lit "data" /\ lit "terminal:1" = lit "terminal:1".
Proof.
  destruct (encode terminal_message) as [data|e] eqn:E;
    [|vm_compute in E; discriminate E].
  assert (Hnd : is_dict [(lit "output", PyStr [104; 105; 10]);
                         (lit "exit_code", PyFloat float_zero);
                         (lit "done", PyBool true)])
    by (unfold is_dict; apply (bool_decide_unpack _); vm_compute; exact I).
  assert (Hty : Forall (fun kv => wire_typed (snd kv))
                  [(lit "output", PyStr [104; 105; 10]);
                   (lit "exit_code", PyFloat float_zero);
                   (lit "done", PyBool true)]).
  { repeat constructor; cbn; unfold float_zero; lia. }
  destruct (encode_injective _ _ _ _ _ _ data Hnd Hty Hnd Hty E E) as (H1 & H2 & _).
  split; [exact H1|exact H2].
Defined.

Lemma decode_proper_prefix_witness :
  exists data,
    encode terminal_message = Ok data /\
    exists msg, decode (take 40 data) = Ok msg.
Proof.
  eexists. split; [vm_compute; reflexivity|].
  match goal with
  | |- exists msg, decode (take 40 ?d) = _ =>
      apply (decode_proper_prefix terminal_message d (take 40 d) (drop 40 d))
  end.
  - vm_compute. reflexivity.
  - vm_compute. reflexivity.
  - vm_compute. discriminate.
Defined.

(** ** The client: sending, subscribing, connecting *)

Lemma set_ws_same (c : client) : set_ws (_ws c) c = c.
Proof. destruct c; reflexivity. Qed.

(** [_send_message], outcome by outcome. *)
Lemma send_message_spec (msg : message) (s : sys) :
  _send_message msg s =
  if negb (connected (s_client s))
  then (Raise (WebSocketError "WebSocket is not connected"), s)
  else match message_frame (_binary (s_client s)) msg with
       | Raise e => (Raise (WebSocketErrorFrom "Failed to send message" e), s)
       | Ok f =>
           match ws_send f s with
           | (Ok a, s') => (Ok a, s')
           | (Raise e, s') =>
               (Raise (WebSocketErrorFrom "Failed to send message" e), s')
           end
       end.
Proof.
  destruct s as [c w tr].
  cbv [_send_message message_frame bind get_client try_except raise lift
       s_client].
  destruct (connected c); cbn [negb]; [|reflexivity].
  destruct (_binary c).
  - destruct (encode msg) as [data|e]; [|reflexivity].
    rewrite bind_Ok. reflexivity.
  - destruct (dumps msg) as [text|e]; reflexivity.
Qed.

(** [ws.send] writes the frame or raises; it touches the client at most
    in the state of its socket. *)
Lemma ws_send_spec (f : frame) (s : sys) :
  (s_client (snd (ws_send f s)) = s_client s \/
   s_client (snd (ws_send f s)) = set_ws (Some (Socket false)) (s_client s)) /\
  w_connect (s_world (snd (ws_send f s))) = w_connect (s_world s) /\
  w_recv (s_world (snd (ws_send f s))) = w_recv (s_world s) /\
  ((fst (ws_send f s) = Ok tt /\
    s_client (snd (ws_send f s)) = s_client s /\
    s_trace (snd (ws_send f s)) = s_trace s ++ [EvSend f]) \/
   (exists e, fst (ws_send f s) = Raise e /\
    s_trace (snd (ws_send f s)) = s_trace s)).
Proof.
  destruct s as [c [wc ws wr] tr]. unfold ws_send. simpl_client.
  destruct ws as [|[e|] rest]; cbn [fst snd]; simpl_client.
  - split; [left; reflexivity|]. repeat split. left. repeat split.
  - split; [destruct e; (left; reflexivity) || (right; reflexivity)|].
    repeat split. right. eexists. split; reflexivity.
  - split; [left; reflexivity|]. repeat split. left. repeat split.
Qed.

(** What [_send_message] can do: return after writing exactly the frame of
    the message, or raise one of its two errors having written nothing. *)
Lemma send_message_cases (msg : message) (s : sys) :
  (s_client (snd (_send_message msg s)) = s_client s \/
   s_client (snd (_send_message msg s))
   = set_ws (Some (Socket false)) (s_client s)) /\
  w_connect (s_world (snd (_send_message msg s))) = w_connect (s_world s) /\
  w_recv (s_world (snd (_send_message msg s))) = w_recv (s_world s) /\
  ((exists f, fst (_send_message msg s) = Ok tt /\
      connected (s_client s) = true /\
      message_frame (_binary (s_client s)) msg = Ok f /\
      s_client (snd (_send_message msg s)) = s_client s /\
      s_trace (snd (_send_message msg s)) = s_trace s ++ [EvSend f]) \/
   (fst (_send_message msg s)
      = Raise (WebSocketError "WebSocket is not connected") /\
    connected (s_client s) = false /\
    snd (_send_message msg s) = s) \/
   (exists cause,
      fst (_send_message msg s)
        = Raise (WebSocketErrorFrom "Failed to send message" cause) /\
      connected (s_client s) = true /\
      s_trace (snd (_send_message msg s)) = s_trace s)).
Proof.
  rewrite send_message_spec.
  destruct (connected (s_client s)) eqn:Hc; cbn [negb].
  - destruct (message_frame _ msg) as [f|e] eqn:Ef.
    + destruct (ws_send_spec f s) as (Hcl & Hwc & Hwr & H).
      destruct (ws_send f s) as [[[]|e] s'] eqn:Es; cbn [fst snd] in *;
        (split; [exact Hcl|]); (split; [exact Hwc|]); (split; [exact Hwr|]).
      * destruct H as [(_ & Hc' & Ht)|(e & He & _)]; [|discriminate].
        left. exists f. repeat split; assumption.
      * destruct H as [(He & _)|(e' & He & Ht)]; [discriminate|].
        right. right. exists e. repeat split; assumption.
    + cbn [fst snd]. split; [left; reflexivity|].
      repeat split. right. right. exists e. repeat split.
  - cbn [fst snd]. split; [left; reflexivity|].
    repeat split. right. left. repeat split.
Qed.

(** X11. [_send_message] raises nothing but [WebSocketError]: either
    "WebSocket is not connected", leaving everything as it was, or "Failed
    to send message: ..." wrapping what the encoder or the socket raised.
    Whenever it raises, no frame was written. *)
Theorem send_message_raises_websocket_error (msg : message) (s s' : sys)
    (e : exn) :
  _send_message msg s = (Raise e, s') ->
  sent (s_trace s') = sent (s_trace s) /\
  ((e = WebSocketError "WebSocket is not connected" /\ s' = s) \/
   (exists cause, e = WebSocketErrorFrom "Failed to send message" cause)).
Proof.
  intros H. destruct (send_message_cases msg s) as (_ & _ & _ & Hcases).
  rewrite H in Hcases. cbn [fst snd] in Hcases.
  destruct Hcases as [(f & Hr & _)|[(Hr & _ & Hs)|(cause & Hr & _ & Ht)]].
  - discriminate.
  - injection Hr as ->. subst s'. split; [reflexivity|]. left. split; reflexivity.
  - injection Hr as ->. rewrite Ht. split; [reflexivity|]. right.
    exists cause. reflexivity.
Qed.

Lemma send_message_raises_websocket_error_witness :
  _send_message (Message None (Some [0xD800]) None) connected_system
  = (Raise (WebSocketErrorFrom "Failed to send message" UnicodeEncodeError),
     connected_system) /\
  sent (s_trace connected_system) = sent (s_trace connected_system).
Proof.
  assert (H : _send_message (Message None (Some [0xD800]) None) connected_system
              = (Raise (WebSocketErrorFrom "Failed to send message"
                          UnicodeEncodeError), connected_system))
    by reflexivity.
  split; [exact H|].
  exact (proj1 (send_message_raises_websocket_error _ _ _ _ H)).
Defined.

(** X12. [subscribe] records the channel before it sends: whatever the
    outcome of the call, the channel is among the subscriptions afterwards
    (so a later connect or reconnect subscribes to it). If the call raises
    nothing was written; if it returns on a connected client, exactly the
    Subscribe frame of the channel was written, also when the channel was
    subscribed already; on a client that is not connected it returns
    without touching the network. *)
Theorem subscribe_records_channel (channel : str) (s : sys) :
  let r := subscribe channel s in
  _subscriptions (s_client (snd r)) = {[channel]} ∪ _subscriptions (s_client s) /\
  (forall e, fst r = Raise e -> sent (s_trace (snd r)) = sent (s_trace s)) /\
  (connected (s_client s) = true -> fst r = Ok tt ->
   exists f, subscribe_frame (_binary (s_client s)) channel = Ok f /\
             s_trace (snd r) = s_trace s ++ [EvSend f]) /\
  (connected (s_client s) = false -> r =
     (Ok tt, Sys (set_subscriptions ({[channel]} ∪ _subscriptions (s_client s))
                                    (s_client s)) (s_world s) (s_trace s))).
Proof.
  destruct s as [c w tr]. cbv zeta.
  cbv [subscribe bind modify get_client ret]. simpl_client.
  replace (connected (set_subscriptions ({[channel]} ∪ _subscriptions c) c))
    with (connected c) by reflexivity.
  destruct (connected c) eqn:Hc.
  - set (s1 := Sys (set_subscriptions ({[channel]} ∪ _subscriptions c) c) w tr).
    unfold _send_subscribe.
    destruct (send_message_cases
                (Message (Some (lit "subscribe")) (Some channel) None) s1)
      as (Hcl & _ & _ & Hcases).
    split; [destruct Hcl as [Hcl|Hcl]; rewrite Hcl; reflexivity|]. split; [|split].
    + intros e He.
      destruct Hcases as [(f & Hr & _)|[(Hr & _ & Hs)|(cause & Hr & _ & Ht)]].
      * congruence.
      * rewrite Hs. reflexivity.
      * rewrite Ht. reflexivity.
    + intros _ Hok.
      destruct Hcases as [(f & Hr & _ & Hf & _ & Ht)|[(Hr & _)|(cause & Hr & _)]];
        [|congruence|congruence].
      exists f. split; [exact Hf|exact Ht].
    + discriminate.
  - cbn [fst snd]. simpl_client. split; [reflexivity|].
    split; [discriminate|]. split; [discriminate|reflexivity].
Qed.

(** X13. [unsubscribe] drops the channel from the subscriptions whatever
    the outcome of the call. On a connected client on which it returns it
    has written exactly the Unsubscribe frame of the channel, whether or
    not the channel was subscribed; on a client that is not connected it
    returns without touching the network. *)
Theorem unsubscribe_forgets_channel (channel : str) (s : sys) :
  let r := unsubscribe channel s in
  _subscriptions (s_client (snd r)) = _subscriptions (s_client s) ∖ {[channel]} /\
  (connected (s_client s) = true -> fst r = Ok tt ->
   exists f, unsubscribe_frame (_binary (s_client s)) channel = Ok f /\
             s_trace (snd r) = s_trace s ++ [EvSend f]) /\
  (connected (s_client s) = false -> r =
     (Ok tt, Sys (set_subscriptions (_subscriptions (s_client s) ∖ {[channel]})
                                    (s_client s)) (s_world s) (s_trace s))).
Proof.
  destruct s as [c w tr]. cbv zeta.
  cbv [unsubscribe bind modify get_client ret]. simpl_client.
  replace (connected (set_subscriptions (_subscriptions c ∖ {[channel]}) c))
    with (connected c) by reflexivity.
  destruct (connected c) eqn:Hc.
  - set (s1 := Sys (set_subscriptions (_subscriptions c ∖ {[channel]}) c) w tr).
    unfold _send_unsubscribe.
    destruct (send_message_cases
                (Message (Some (lit "unsubscribe")) (Some channel) None) s1)
      as (Hcl & _ & _ & Hcases).
    split; [destruct Hcl as [Hcl|Hcl]; rewrite Hcl; reflexivity|]. split; [|discriminate].
    intros _ Hok.
    destruct Hcases as [(f & Hr & _ & Hf & _ & Ht)|[(Hr & _)|(cause & Hr & _)]];
      [|congruence|congruence].
    exists f. split; [exact Hf|exact Ht].
  - cbn [fst snd]. simpl_client. split; [reflexivity|].
    split; [discriminate|reflexivity].
Qed.

(** ** Connecting *)

(** The client as [connect] leaves it once the socket is open. *)
Lemma connect_cases (s : sys) :
  connect s =
  match w_connect (s_world s) with
  | None :: rest =>
      let c := s_client s in
      let c1 := set_receive_task true
                  (set_current_reconnect_delay (_reconnect_delay c)
                     (set_running true (set_ws (Some (Socket true)) c))) in
      match for_each (elements (_subscriptions c)) _send_subscribe
              (Sys c1 (World rest (w_send (s_world s)) (w_recv (s_world s)))
                   (s_trace s ++ [EvConnect true])) with
      | (Ok a, s') => (Ok a, s')
      | (Raise e, s') => (Raise (WebSocketErrorFrom "Failed to connect" e), s')
      end
  | Some e :: rest =>
      (Raise (WebSocketErrorFrom "Failed to connect" e),
       Sys (s_client s)
           (World rest (w_send (s_world s)) (w_recv (s_world s)))
           (s_trace s ++ [EvConnect false]))
  | [] =>
      (Raise (WebSocketErrorFrom "Failed to connect" OSError),
       Sys (s_client s) (s_world s) (s_trace s ++ [EvConnect false]))
  end.
Proof.
  destruct s as [c [wc ws wr] tr].
  cbv [connect try_except bind ws_connect modify get_client raise]. simpl_client.
  destruct wc as [|[e|] rest]; reflexivity.
Qed.

(** The resubscription loop, whatever its outcome: it has written the
    Subscribe frames of the first [n] channels, all of them if it returned;
    and if it raised on a client that was connected, the error is that of a
    failed send. *)
Lemma for_each_subscribe_cases (channels : list str) :
  forall s,
    let r := for_each channels _send_subscribe s in
    exists n fs,
      (s_client (snd r) = s_client s \/
       s_client (snd r) = set_ws (Some (Socket false)) (s_client s)) /\
      Forall2 (fun ch f => subscribe_frame (_binary (s_client s)) ch = Ok f)
              (take n channels) fs /\
      s_trace (snd r) = s_trace s ++ map EvSend fs /\
      (fst r = Ok tt -> n = length channels /\ s_client (snd r) = s_client s) /\
      (forall e, fst r = Raise e -> connected (s_client s) = true ->
         exists cause, e = WebSocketErrorFrom "Failed to send message" cause).
Proof.
  induction channels as [|ch channels IH]; intros s; cbv zeta.
  - exists 0%nat, []. cbn [for_each ret fst snd take map].
    rewrite app_nil_r. split; [left; reflexivity|].
    repeat split; try constructor.
    intros e He. discriminate.
  - cbn [for_each]. unfold bind.
    destruct (send_message_cases
                (Message (Some (lit "subscribe")) (Some ch) None) s)
      as (Hcl & _ & _ & Hcases).
    change (_send_message (Message (Some (lit "subscribe")) (Some ch) None) s)
      with (_send_subscribe ch s) in *.
    destruct (_send_subscribe ch s) as [[[]|e] s1] eqn:E1; cbn [fst snd] in *.
    + destruct Hcases as [(f & _ & Hc & Hf & Hc1 & Ht)|[(Hr & _)|(cause & Hr & _)]];
        [|discriminate|discriminate].
      destruct (IH s1) as (n & fs & Hcl' & Hfs & Ht' & Hok & Hraise).
      exists (S n), (f :: fs). rewrite Hc1 in *.
      split; [exact Hcl'|]. split; [constructor; assumption|].
      split; [rewrite Ht', Ht, <- app_assoc; reflexivity|].
      split.
      * intros H. destruct (Hok H) as [-> Hsame]. split; [reflexivity|exact Hsame].
      * exact Hraise.
    + exists 0%nat, []. cbn [take map]. rewrite app_nil_r.
      split; [exact Hcl|]. split; [constructor|].
      destruct Hcases as [(f & Hr & _)|[(Hr & Hc & Hs)|(cause & Hr & _ & Ht)]].
      * discriminate.
      * subst s1. split; [reflexivity|]. split; [discriminate|].
        intros e0 _ Hconn. congruence.
      * split; [exact Ht|]. split; [discriminate|].
        intros e0 [= <-] _. injection Hr as ->. exists cause. reflexivity.
Qed.

(** One Subscribe message of the resubscription loop on a connected
    client. *)
Lemma send_subscribe_step (ch : str) (s : sys) :
  connected (s_client s) = true ->
  match subscribe_frame (_binary (s_client s)) ch with
  | Raise _ => exists e, fst (_send_subscribe ch s) = Raise e
  | Ok f =>
      match w_send (s_world s) with
      | Some _ :: _ => exists e, fst (_send_subscribe ch s) = Raise e
      | None :: rest =>
          _send_subscribe ch s =
          (Ok tt, Sys (s_client s)
                      (World (w_connect (s_world s)) rest (w_recv (s_world s)))
                      (s_trace s ++ [EvSend f]))
      | [] => _send_subscribe ch s
              = (Ok tt, Sys (s_client s) (s_world s) (s_trace s ++ [EvSend f]))
      end
  end.
Proof.
  intros Hc. unfold _send_subscribe. rewrite send_message_spec, Hc. cbn [negb].
  change (message_frame (_binary (s_client s))
            (Message (Some (lit "subscribe")) (Some ch) None))
    with (subscribe_frame (_binary (s_client s)) ch).
  destruct (subscribe_frame (_binary (s_client s)) ch) as [f|e].
  - unfold ws_send. destruct (w_send (s_world s)) as [|[e|] rest].
    + reflexivity.
    + eexists. reflexivity.
    + reflexivity.
  - eexists. reflexivity.
Qed.

(** The resubscription loop on a connected client sends until a send
    fails: it has written the Subscribe frames of the first [n] channels,
    which the network accepted, and either these are all the channels and
    it returned, or the frame of the next channel cannot be built or the
    network refuses it. *)
Lemma for_each_subscribe_until (channels : list str) :
  forall s,
    connected (s_client s) = true ->
    let r := for_each channels _send_subscribe s in
    exists n fs,
      (s_client (snd r) = s_client s \/
       s_client (snd r) = set_ws (Some (Socket false)) (s_client s)) /\
      Forall2 (fun ch f => subscribe_frame (_binary (s_client s)) ch = Ok f)
              (take n channels) fs /\
      s_trace (snd r) = s_trace s ++ map EvSend fs /\
      Forall (fun a => a = None) (take n (w_send (s_world s))) /\
      ((n = length channels /\ fst r = Ok tt /\ s_client (snd r) = s_client s) \/
       (exists ch, channels !! n = Some ch /\
          ((exists e, subscribe_frame (_binary (s_client s)) ch = Raise e) \/
           (exists e, w_send (s_world s) !! n = Some (Some e))))).
Proof.
  induction channels as [|ch channels IH]; intros s Hc; cbv zeta.
  - exists 0%nat, []. cbn [for_each ret fst snd map]. rewrite !take_0, app_nil_r.
    split; [left; reflexivity|]. split; [apply List.Forall2_nil|].
    split; [reflexivity|]. split; [constructor|].
    left. repeat split.
  - cbn [for_each]. unfold bind.
    pose proof (send_subscribe_step ch s Hc) as Hstep.
    destruct (send_message_cases
                (Message (Some (lit "subscribe")) (Some ch) None) s)
      as (Hcl & _ & _ & Hcases).
    change (_send_message (Message (Some (lit "subscribe")) (Some ch) None) s)
      with (_send_subscribe ch s) in *.
    assert (Hfail : forall e, fst (_send_subscribe ch s) = Raise e ->
              s_trace (snd (_send_subscribe ch s)) = s_trace s).
    { intros e He.
      destruct Hcases as [(f & Hr & _)|[(Hr & _ & Hs)|(cause & Hr & _ & Ht)]].
      - congruence.
      - rewrite Hs. reflexivity.
      - exact Ht. }
    destruct (subscribe_frame (_binary (s_client s)) ch) as [f|e0] eqn:Ef.
    + destruct (w_send (s_world s)) as [|[e1|] rest] eqn:Ews.
      * rewrite Hstep.
        set (s1 := Sys (s_client s) (s_world s) (s_trace s ++ [EvSend f])).
        destruct (IH s1 Hc) as (n & fs & Hcl' & Hfs & Ht & Hacc & Hend).
        cbv zeta in *. subst s1. cbn [s_client s_world s_trace] in *.
        exists (S n), (f :: fs).
        split; [exact Hcl'|].
        split; [cbn [take]; constructor; assumption|].
        split; [rewrite Ht, <- app_assoc; reflexivity|].
        split; [constructor|].
        destruct Hend as [(-> & Hr & Hsame)|(ch' & Hch & [Hbad|[e Hbad]])].
        -- left. repeat split; assumption.
        -- right. exists ch'. split; [exact Hch|]. left. exact Hbad.
        -- rewrite Ews in Hbad. rewrite lookup_nil in Hbad. discriminate.
      * destruct Hstep as [e He].
        destruct (_send_subscribe ch s) as [[[]|e'] s1] eqn:E1;
          cbn [fst snd] in *; [discriminate|].
        exists 0%nat, []. rewrite !take_0. cbn [map]. rewrite app_nil_r.
        split; [exact Hcl|]. split; [apply List.Forall2_nil|].
        split; [apply (Hfail e'); reflexivity|]. split; [constructor|].
        right. exists ch. split; [reflexivity|]. right. exists e1. reflexivity.
      * rewrite Hstep.
        set (s1 := Sys (s_client s)
                       (World (w_connect (s_world s)) rest (w_recv (s_world s)))
                       (s_trace s ++ [EvSend f])).
        destruct (IH s1 Hc) as (n & fs & Hcl' & Hfs & Ht & Hacc & Hend).
        cbv zeta in *. subst s1. cbn [s_client s_world s_trace w_send] in *.
        exists (S n), (f :: fs).
        split; [exact Hcl'|].
        split; [cbn [take]; constructor; assumption|].
        split; [rewrite Ht, <- app_assoc; reflexivity|].
        split; [cbn [take]; constructor; [reflexivity|exact Hacc]|].
        destruct Hend as [(-> & Hr & Hsame)|(ch' & Hch & [Hbad|[e Hbad]])].
        -- left. repeat split; assumption.
        -- right. exists ch'. split; [exact Hch|]. left. exact Hbad.
        -- right. exists ch'. split; [exact Hch|]. right. exists e. exact Hbad.
    + destruct Hstep as [e He].
      destruct (_send_subscribe ch s) as [[[]|e'] s1] eqn:E1;
        cbn [fst snd] in *; [discriminate|].
      exists 0%nat, []. rewrite !take_0. cbn [map]. rewrite app_nil_r.
      split; [exact Hcl|]. split; [apply List.Forall2_nil|].
      split; [apply (Hfail e'); reflexivity|]. split; [constructor|].
      right. exists ch. split; [reflexivity|]. left. exists e0. exact Ef.
Qed.

(** X14. A [connect()] that returns normally has opened the connection
    and then written the Subscribe frame of every recorded subscription,
    one each in the order the set is walked, and nothing else; the client
    is then connected and running, its current reconnect delay is the
    initial delay and its subscriptions are unchanged. *)
Theorem connect_resubscribes_all (s s' : sys) :
  connect s = (Ok tt, s') ->
  exists fs,
    Forall2 (fun ch f => subscribe_frame (_binary (s_client s)) ch = Ok f)
            (elements (_subscriptions (s_client s))) fs /\
    s_trace s' = s_trace s ++ EvConnect true :: map EvSend fs /\
    connected (s_client s') = true /\
    _running (s_client s') = true /\
    _current_reconnect_delay (s_client s') = _reconnect_delay (s_client s) /\
    _subscriptions (s_client s') = _subscriptions (s_client s).
Proof.
  rewrite connect_cases.
  destruct (w_connect (s_world s)) as [|[e|] rest]; try discriminate.
  cbv zeta.
  match goal with
  | |- context [for_each ?l ?f ?s0] =>
      destruct (for_each l f s0) as [[[]|e] s1] eqn:E; [|discriminate]
  end.
  intros [= <-].
  apply for_each_subscribe_ok in E as (fs & Hfs & Hc & Ht).
  simpl_client. exists fs. split; [exact Hfs|].
  split; [rewrite Ht, <- app_assoc; reflexivity|].
  rewrite Hc. repeat split.
Qed.

Lemma connect_resubscribes_all_witness :
  exists s' fs,
    connect offline_subscribed_system = (Ok tt, s') /\
    length fs = 2%nat /\
    s_trace s' = EvConnect true :: map EvSend fs.
Proof.
  destruct (connect offline_subscribed_system) as [[[]|e] s'] eqn:E;
    [|vm_compute in E; discriminate E].
  destruct (connect_resubscribes_all offline_subscribed_system s' E)
    as (fs & Hfs & Ht & _).
  exists s', fs. split; [reflexivity|]. split; [|exact Ht].
  apply Forall2_length in Hfs. rewrite <- Hfs. vm_compute. reflexivity.
Defined.

(** X15. [connect()] raises nothing but [WebSocketError("Failed to
    connect: ...")]. Either the socket could not be opened, and the client
    is as it was; or a Subscribe frame could not be sent, the cause being a
    [WebSocketError("Failed to send message: ...")], and the client is
    nevertheless left with its socket, running, with its receive task. *)
Theorem connect_failure (s s' : sys) (e : exn) :
  connect s = (Raise e, s') ->
  exists cause,
    e = WebSocketErrorFrom "Failed to connect" cause /\
    ((s_client s' = s_client s /\ s_trace s' = s_trace s ++ [EvConnect false]) \/
     ((exists cause', cause = WebSocketErrorFrom "Failed to send message" cause') /\
      (exists sock, _ws (s_client s') = Some sock) /\
      _running (s_client s') = true /\
      _receive_task (s_client s') = true /\
      exists fs, s_trace s' = s_trace s ++ EvConnect true :: map EvSend fs)).
Proof.
  rewrite connect_cases.
  destruct (w_connect (s_world s)) as [|[e0|] rest].
  - intros [= <- <-]. eexists. split; [reflexivity|]. left. split; reflexivity.
  - intros [= <- <-]. eexists. split; [reflexivity|]. left. split; reflexivity.
  - cbv zeta.
    match goal with
    | |- context [for_each ?l ?f ?s0] =>
        pose proof (for_each_subscribe_cases l s0) as H;
        destruct (for_each l f s0) as [[[]|e1] s1] eqn:E; [discriminate|]
    end.
    cbv zeta in H. cbn [fst snd] in H. simpl_client.
    destruct H as (n & fs & Hcl & _ & Ht & _ & Hraise).
    intros [= <- <-]. exists e1. split; [reflexivity|]. right.
    split; [apply (Hraise e1 eq_refl); reflexivity|].
    split; [destruct Hcl as [-> | ->]; eexists; reflexivity|].
    split; [destruct Hcl as [-> | ->]; reflexivity|].
    split; [destruct Hcl as [-> | ->]; reflexivity|].
    exists fs. rewrite Ht, <- app_assoc. reflexivity.
Qed.

Lemma connect_failure_witness :
  exists s',
    connect (Sys (__init__ true true 1 30) (World [Some OSError] [] []) [])
    = (Raise (WebSocketErrorFrom "Failed to connect" OSError), s') /\
    exists cause,
      WebSocketErrorFrom "Failed to connect" OSError
      = WebSocketErrorFrom "Failed to connect" cause.
Proof.
  eexists. split; [reflexivity|].
  destruct (connect_failure _ _ _
              (eq_refl : connect (Sys (__init__ true true 1 30)
                                      (World [Some OSError] [] []) [])
                         = (Raise (WebSocketErrorFrom "Failed to connect" OSError),
                            _)))
    as (cause & Hc & _).
  exists cause. exact Hc.
Defined.

(** ** The client: disconnecting and the receive loop *)

(** ** Disconnecting *)

Lemma disconnect_run (s : sys) :
  disconnect s =
  (Ok tt, Sys (set_ws None (set_receive_task false (set_running false (s_client s))))
              (s_world s) (s_trace s ++ closing (_ws (s_client s)))).
Proof.
  destruct s as [c w tr].
  cbv [disconnect bind modify get_client ret ws_close log]. simpl_client.
  destruct (_ws c) as [sock|] eqn:Ews; cbn [closing]; rewrite ?app_nil_r.
  - reflexivity.
  - f_equal. f_equal. destruct c; cbn in *; subst; reflexivity.
Qed.

(** X16. Subscriptions and handlers outlive a [disconnect()]. If
    [disconnect()] and then [connect()] both return, then the old socket,
    if there was one, was closed, the connection was opened anew, and the
    Subscribe frame of every subscription recorded before the disconnect
    was written, one each in the order the set is walked, and nothing else;
    the client is connected and running again, with the subscriptions and
    the handlers it had. *)
Theorem disconnect_keeps_subscriptions (s s' : sys) :
  (disconnect ;; connect) s = (Ok tt, s') ->
  exists fs,
    Forall2 (fun ch f => subscribe_frame (_binary (s_client s)) ch = Ok f)
            (elements (_subscriptions (s_client s))) fs /\
    s_trace s' = s_trace s ++ closing (_ws (s_client s))
                 ++ EvConnect true :: map EvSend fs /\
    connected (s_client s') = true /\
    _running (s_client s') = true /\
    _subscriptions (s_client s') = _subscriptions (s_client s) /\
    _handlers (s_client s') = _handlers (s_client s).
Proof.
  unfold bind. rewrite disconnect_run, connect_cases. simpl_client.
  destruct (w_connect (s_world s)) as [|[e|] rest]; try discriminate.
  cbv zeta.
  match goal with
  | |- context [for_each ?l ?f ?s0] =>
      destruct (for_each l f s0) as [[[]|e] s1] eqn:E; [|discriminate]
  end.
  intros [= <-].
  apply for_each_subscribe_ok in E as (fs & Hfs & Hc & Ht).
  simpl_client. exists fs. split; [exact Hfs|].
  split; [rewrite Ht, <- !app_assoc; reflexivity|].
  rewrite Hc. repeat split.
Qed.

Lemma disconnect_keeps_subscriptions_witness :
  exists s' fs,
    (disconnect ;; connect) subscribed_system = (Ok tt, s') /\
    length fs = 2%nat /\
    s_trace s' = EvClose :: EvConnect true :: map EvSend fs.
Proof.
  destruct ((disconnect ;; connect) subscribed_system) as [[[]|e] s'] eqn:E;
    [|vm_compute in E; discriminate E].
  destruct (disconnect_keeps_subscriptions subscribed_system s' E)
    as (fs & Hfs & Ht & _).
  exists s', fs. split; [reflexivity|]. split; [|exact Ht].
  apply Forall2_length in Hfs. rewrite <- Hfs. vm_compute. reflexivity.
Defined.

(** ** The receive loop returns *)




(** ** One reconnect attempt, step by step *)

(** X18. One call of [_reconnect] closes the old socket if there is one,
    then sleeps the current delay once, then dials once, and the connection
    is established exactly when the network answers the dial. If it is, the
    Subscribe frames of the first [n] subscriptions, in the order the set
    is walked, are written and accepted by the network, and either these
    are all the subscriptions and the client is connected, or the frame of
    the next subscription cannot be built or the network refuses it: the
    loop stops at the first send that fails, and not before. If the
    connection is not established, nothing is written and the client is
    left without a socket. Subscriptions and handlers are unchanged. *)
Theorem reconnect_steps (s : sys) :
  exists (b : bool) (n : nat) (fs : list frame),
    s_trace (snd (_reconnect s))
    = s_trace s ++ closing (_ws (s_client s))
      ++ [EvSleep (_current_reconnect_delay (s_client s)); EvConnect b]
      ++ map EvSend fs /\
    Forall2 (fun ch f => subscribe_frame (_binary (s_client s)) ch = Ok f)
            (take n (elements (_subscriptions (s_client s)))) fs /\
    (b = false -> fs = [] /\ _ws (s_client (snd (_reconnect s))) = None) /\
    _subscriptions (s_client (snd (_reconnect s))) = _subscriptions (s_client s) /\
    _handlers (s_client (snd (_reconnect s))) = _handlers (s_client s) /\
    (b = true <-> exists rest, w_connect (s_world s) = None :: rest) /\
    (b = true ->
     Forall (fun a => a = None) (take n (w_send (s_world s))) /\
     ((n = length (elements (_subscriptions (s_client s))) /\
       connected (s_client (snd (_reconnect s))) = true) \/
      (exists ch,
         elements (_subscriptions (s_client s)) !! n = Some ch /\
         ((exists e, subscribe_frame (_binary (s_client s)) ch = Raise e) \/
          (exists e, w_send (s_world s) !! n = Some (Some e)))))).
Proof.
  destruct s as [c [wc ws wr] tr]. run_reconnect.
  assert (Hloop : forall c0 tr0 rest,
    connected c0 = true ->
    _binary c0 = _binary c -> _subscriptions c0 = _subscriptions c ->
    _handlers c0 = _handlers c ->
    let r := for_each (elements (_subscriptions c)) _send_subscribe
               (Sys c0 (World rest ws wr) tr0) in
    exists n fs,
      s_trace (snd r) = tr0 ++ map EvSend fs /\
      Forall2 (fun ch f => subscribe_frame (_binary c) ch = Ok f)
              (take n (elements (_subscriptions c))) fs /\
      _subscriptions (s_client (snd r)) = _subscriptions c /\
      _handlers (s_client (snd r)) = _handlers c /\
      Forall (fun a => a = None) (take n ws) /\
      ((n = length (elements (_subscriptions c)) /\
        connected (s_client (snd r)) = true) \/
       (exists ch,
          elements (_subscriptions c) !! n = Some ch /\
          ((exists e, subscribe_frame (_binary c) ch = Raise e) \/
           (exists e, ws !! n = Some (Some e)))))).
  { intros c0 tr0 rest Hconn Hb Hs Hh.
    destruct (for_each_subscribe_until (elements (_subscriptions c))
                (Sys c0 (World rest ws wr) tr0) Hconn)
      as (n & fs & Hcl & Hfs & Ht & Hacc & Hend).
    cbv zeta in *. simpl_client. cbn [s_client s_world s_trace w_send] in *.
    rewrite Hb in Hfs, Hend.
    exists n, fs. split; [exact Ht|]. split; [exact Hfs|].
    split; [destruct Hcl as [-> | ->]; simpl_client; assumption|].
    split; [destruct Hcl as [-> | ->]; simpl_client; assumption|].
    split; [exact Hacc|].
    destruct Hend as [(Hn & _ & Hsame)|Hbad].
    - left. split; [exact Hn|]. rewrite Hsame. exact Hconn.
    - right. exact Hbad. }
  destruct (_ws c) as [sock|] eqn:Ews; simpl_client; cbn [closing];
    destruct wc as [|[e|] rest]; simpl_client; cbn [snd]; simpl_client.
  1, 2, 4, 5:
    exists false, 0%nat, []; rewrite take_0; cbn [map];
    rewrite <- ?app_assoc, ?Ews;
    (split; [reflexivity|]); (split; [apply List.Forall2_nil|]);
    (split; [intros _; split; reflexivity|]);
    (split; [reflexivity|]); (split; [reflexivity|]);
    (split; [split; [discriminate|intros [rest' H]; discriminate H]|]);
    discriminate.
  all:
    match goal with
    | |- context [for_each ?l ?f (Sys ?c0 ?w0 ?tr0)] =>
        destruct (Hloop c0 tr0 rest eq_refl eq_refl eq_refl eq_refl)
          as (n & fs & Ht & Hfs & Hsub & Hh & Hacc & Hend);
        cbv zeta in Ht, Hsub, Hh, Hend;
        destruct (for_each l f (Sys c0 w0 tr0)) as [[[]|e] s']
    end; cbn [snd] in *;
      exists true, n, fs; rewrite Ht, <- ?app_assoc;
      (split; [reflexivity|]); (split; [exact Hfs|]);
      (split; [discriminate|]); (split; [assumption|]);
      (split; [assumption|]);
      (split; [split; [intros _; eexists; reflexivity|reflexivity]|]);
      intros _; (split; [exact Hacc|exact Hend]).
Qed.

(** On a network that accepts every frame, a reconnect attempt of a client
    subscribed to two channels closes, sleeps, dials and writes two
    Subscribe frames. *)
Lemma reconnect_steps_witness :
  exists fa fb,
    s_trace (snd (_reconnect subscribed_system))
    = [EvClose; EvSleep 1; EvConnect true; EvSend fa; EvSend fb].
Proof.
  destruct (reconnect_steps subscribed_system)
    as (b & n & fs & Ht & Hfs & _ & _ & _ & Hb & Hend).
  assert (Hbt : b = true) by (apply Hb; eexists; reflexivity).
  destruct (Hend Hbt) as (_ & [(Hn & _)|(ch & Hch & [[e He]|[e He]])]).
  - subst b n. rewrite firstn_all in Hfs.
    apply Forall2_length in Hfs.
    destruct fs as [|fa [|fb [|fc fs]]]; try (vm_compute in Hfs; discriminate Hfs).
    exists fa, fb. rewrite Ht. reflexivity.
  - exfalso.
    apply list_elem_of_lookup_2, elem_of_elements in Hch.
    change (_subscriptions (s_client subscribed_system))
      with ({[lit "a"]} ∪ {[lit "b"]} : gset str) in Hch.
    change (_binary (s_client subscribed_system)) with true in He.
    apply elem_of_union in Hch as [Hch|Hch];
      apply elem_of_singleton in Hch; subst ch;
      vm_compute in He; discriminate He.
  - exfalso. cbn [subscribed_system s_world w_send] in He.
    rewrite lookup_nil in He. discriminate He.
Defined.

(** ** The receive loop at a failure *)

Lemma receive_step_failure (c : client) (wc ws : list (option exn))
    (r : res frame) (rest : list (res frame)) (tr : list event) (e : exn) :
  connected c = true ->
  (f ← r; decode_frame (_binary c) f) = Raise e ->
  receive_step (Sys c (World wc ws (r :: rest)) tr) =
  let c' := match r with
            | Raise ConnectionClosed => set_ws (Some (Socket false)) c
            | _ => c
            end in
  let s' := Sys c' (World wc ws rest) tr in
  match e with
  | ConnectionClosed =>
      if _auto_reconnect c && _running c
      then (_reconnect ;; ret true) s' else (Ok false, s')
  | _ =>
      if _auto_reconnect c && _running c
      then (Ok true, Sys c' (World wc ws rest) (tr ++ [EvSleep (1 / 10)%R]))
      else (Ok false, s')
  end.
Proof.
  intros Hc He. destruct r as [f|e0].
  - rewrite bind_Ok in He.
    cbv [receive_step bind get_client ws_recv lift
         s_client s_world s_trace w_connect w_send w_recv]. simpl_client.
    rewrite Hc. cbn [negb]. rewrite He.
    destruct e; destruct (_auto_reconnect c && _running c); reflexivity.
  - rewrite bind_Raise in He. injection He as ->.
    cbv [receive_step bind get_client ws_recv lift
         s_client s_world s_trace w_connect w_send w_recv]. simpl_client.
    rewrite Hc. cbn [negb].
    destruct e; simpl_client;
      destruct (_auto_reconnect c && _running c); reflexivity.
Qed.



(** X20. With auto-reconnect, a binary frame that [decode] rejects does
    not end the receive loop of a connected, running client: no handler is
    called for it, the loop sleeps 0.1 s and goes on with the next frame on
    the same connection. *)
Theorem undecodable_frame_skipped (c : client) (wc ws : list (option exn))
    (b : list byte) (rest : list (res frame)) (tr : list event) (e : exn)
    (fuel : nat) :
  _auto_reconnect c = true -> _running c = true -> connected c = true ->
  _binary c = true -> decode b = Raise e ->
  _receive_loop (S fuel) (Sys c (World wc ws (Ok (Binary b) :: rest)) tr)
  = _receive_loop fuel (Sys c (World wc ws rest) (tr ++ [EvSleep (1 / 10)%R])).
Proof.
  intros Ha Hr Hc Hb He.
  assert (e = UnicodeDecodeError) as -> by (apply (decode_fault b e He)).
  apply receive_loop_step; [exact Hr|].
  rewrite (receive_step_failure c wc ws (Ok (Binary b)) rest tr
             UnicodeDecodeError Hc)
    by (rewrite bind_Ok; cbn [decode_frame]; rewrite Hb; exact He).
  cbv zeta. rewrite Ha, Hr. reflexivity.
Qed.

Lemma undecodable_frame_skipped_witness :
  _receive_loop 1 auto_reconnect_system
  = (Ok tt, Sys (s_client auto_reconnect_system)
                (World [] [] [Ok (Binary [x03; x00; x00; x00; x00])])
                [EvSleep (1 / 10)%R]).
Proof.
  exact (undecodable_frame_skipped (s_client auto_reconnect_system) [] []
           [x03; x00; x01; xff] [Ok (Binary [x03; x00; x00; x00; x00])] []
           UnicodeDecodeError 0 eq_refl eq_refl eq_refl eq_refl eq_refl).
Defined.

(** ** The client: handlers and senders *)

(** ** Registering and removing handlers *)

(** X21. Registering and removing handlers. After [on(t, h)], a message
    of type [t], [t] not being the wildcard key, is dispatched to [h],
    whatever handler [t] had before, and then to the wildcard handler if
    there is one; after [off(t)], following [on(t, h)] or not, it is
    dispatched to the wildcard handler only. *)
Theorem on_off_dispatch (event_type : str) (h : handler) (data : message)
    (s : sys) :
  m_type data = Some event_type -> event_type <> lit "*" ->
  s_trace (snd ((on event_type h ;; dispatch data) s))
  = s_trace s ++ EvCall (h_id h) data :: wildcard_calls (s_client s) data /\
  s_trace (snd ((on event_type h ;; off event_type ;; dispatch data) s))
  = s_trace s ++ wildcard_calls (s_client s) data /\
  s_trace (snd ((off event_type ;; dispatch data) s))
  = s_trace s ++ wildcard_calls (s_client s) data.
Proof.
  intros Ht Hne. destruct s as [c w tr].
  cbv [on off bind modify]. simpl_client.
  rewrite !dispatch_spec. cbn [snd s_trace s_client].
  unfold handler_calls, wildcard_calls. simpl_client.
  rewrite Ht. cbn [default]. unfold Datatypes.id.
  repeat split;
    repeat first [ rewrite lookup_insert_eq | rewrite lookup_delete_eq
                 | rewrite lookup_delete_ne by congruence
                 | rewrite lookup_insert_ne by congruence ];
    reflexivity.
Qed.

Lemma on_off_dispatch_witness :
  s_trace (snd ((on (lit "x") (Handler 7 (fun _ => Ok tt)) ;; dispatch message_x)
                  (Sys example_client (World [] [] []) [])))
  = [EvCall 7 message_x].
Proof.
  destruct (on_off_dispatch (lit "x") (Handler 7 (fun _ => Ok tt)) message_x
              (Sys example_client (World [] [] []) []) eq_refl
              ltac:(discriminate)) as [H _].
  exact H.
Defined.

(** X22. Dispatch looks handlers up by the message's type only. A
    message whose type is the wildcard key itself (an asterisk) reaches the
    wildcard handler twice, once as the handler of its type and once as the
    wildcard; a message without a type is dispatched to the handler
    registered for the empty string, then to the wildcard; a message with
    no handler for its type and no wildcard handler is dropped. *)
Theorem dispatch_by_type_edge_cases (data : message) (s : sys) :
  (forall h,
     _handlers (s_client s) !! lit "*" = Some h ->
     m_type data = Some (lit "*") ->
     dispatch data s
     = (Ok tt, Sys (s_client s) (s_world s)
                   (s_trace s ++ [EvCall (h_id h) data; EvCall (h_id h) data]))) /\
  (forall h,
     _handlers (s_client s) !! lit "" = Some h ->
     m_type data = None ->
     dispatch data s
     = (Ok tt, Sys (s_client s) (s_world s)
                   (s_trace s ++ EvCall (h_id h) data
                      :: wildcard_calls (s_client s) data))) /\
  (_handlers (s_client s) !! default (lit "") (m_type data) = None ->
   _handlers (s_client s) !! lit "*" = None ->
   dispatch data s = (Ok tt, Sys (s_client s) (s_world s) (s_trace s ++ []))).
Proof.
  rewrite dispatch_spec. unfold handler_calls, wildcard_calls.
  split; [|split].
  - intros h Hh Ht. rewrite Ht. cbn [default]. unfold Datatypes.id.
    rewrite Hh. reflexivity.
  - intros h Hh Ht. rewrite Ht. cbn [default]. rewrite Hh. reflexivity.
  - intros H1 H2. rewrite H1, H2. reflexivity.
Qed.

Lemma dispatch_by_type_edge_cases_witness :
  dispatch message_star (Sys wildcard_client (World [] [] []) [])
  = (Ok tt, Sys wildcard_client (World [] [] [])
                [EvCall 9 message_star; EvCall 9 message_star]).
Proof.
  exact (proj1 (dispatch_by_type_edge_cases message_star
                  (Sys wildcard_client (World [] [] []) []))
               (Handler 9 (fun _ => Ok tt)) eq_refl eq_refl).
Defined.

(** ** What the public senders put on the wire *)

(** A message [_send_message] wrote on a binary connection, as the peer
    decodes it. *)
Lemma send_message_wire (msg : message) (s s' : sys) :
  _binary (s_client s) = true ->
  _send_message msg s = (Ok tt, s') ->
  is_dict (default [] (m_data msg)) ->
  Forall (fun kv => float_pattern (snd kv)) (default [] (m_data msg)) ->
  exists data d',
    s_trace s' = s_trace s ++ [EvSend (Binary data)] /\
    s_client s' = s_client s /\
    wire_forms (default [] (m_data msg)) d' /\
    decode data = Ok (Message (Some (default (lit "data") (m_type msg)))
                              (Some (default (lit "") (m_channel msg)))
                              (Some d')).
Proof.
  intros Hb Hs Hnd Hty.
  destruct (send_message_cases msg s) as (_ & _ & _ & Hcases).
  rewrite Hs in Hcases. cbn [fst snd] in Hcases.
  destruct Hcases as [(f & _ & _ & Hf & Hc & Ht)|[(Hr & _)|(cause & Hr & _)]];
    [|discriminate|discriminate].
  rewrite Hb in Hf. unfold message_frame in Hf.
  destruct (encode msg) as [data|e] eqn:He; [|discriminate].
  rewrite bind_Ok in Hf. injection Hf as <-.
  destruct (decode_encoded_frame msg data [] He) as (db & Hdb & Hdec).
  destruct (decode_data_wire _ db Hdb Hty) as (d' & Hd' & Hpay).
  exists data, d'. repeat (split; [assumption|]).
  rewrite app_nil_r in Hdec. rewrite Hdec, Hpay, bind_Ok.
  unfold dict_of. rewrite dict_of_fresh; [reflexivity|].
  cbn [app]. rewrite (wire_forms_keys _ _ Hd'). exact Hnd.
Qed.

Ltac literal_dict :=
  unfold is_dict; apply (bool_decide_unpack _); vm_compute; exact I.

Ltac wire_forms_inv H :=
  unfold wire_forms in H;
  repeat match type of H with
    | Forall2 _ (_ :: _) _ =>
        let kv := fresh "kv" in let Hk := fresh "Hk" in let Hv := fresh "Hv" in
        apply Forall2_cons_inv_l in H as (kv & ? & [Hk Hv] & H & ->);
        destruct kv; cbn [fst snd wire_form] in Hk, Hv; subst
    | Forall2 _ [] _ => apply Forall2_nil_inv_l in H; subst
    end;
  repeat match goal with
    | Hx : Ok _ = Ok _ |- _ => injection Hx as Hx; subst
    end.

(** X23. What the public senders put on the wire of a binary
    connection. When the call returns, exactly one frame was written, and
    it decodes to: for [send_terminal_input], type "terminal:input",
    channel "", payload [{"terminal_id": ..., "input": ...}]; for
    [resize_terminal], type "terminal:resize", channel "", payload with the
    terminal id and with [cols] and [rows] as the floats [float(cols)] and
    [float(rows)]; for [start_command], type "command:start", channel "",
    payload [{"cmd_id": ...}]. A session's [write] and [resize] send the
    same frames as [send_terminal_input] and [resize_terminal], with the
    session's terminal id. *)
Theorem senders_on_the_wire (s s' : sys) :
  _binary (s_client s) = true ->
  (forall terminal_id input_text,
     send_terminal_input terminal_id input_text s = (Ok tt, s') ->
     exists data,
       s_trace s' = s_trace s ++ [EvSend (Binary data)] /\
       decode data
       = Ok (Message (Some (lit "terminal:input")) (Some (lit ""))
               (Some [(lit "terminal_id", PyStr terminal_id);
                      (lit "input", PyStr input_text)]))) /\
  (forall terminal_id cols rows,
     resize_terminal terminal_id cols rows s = (Ok tt, s') ->
     exists data fc fr,
       float_of_int cols = Ok fc /\ float_of_int rows = Ok fr /\
       s_trace s' = s_trace s ++ [EvSend (Binary data)] /\
       decode data
       = Ok (Message (Some (lit "terminal:resize")) (Some (lit ""))
               (Some [(lit "terminal_id", PyStr terminal_id);
                      (lit "cols", PyFloat fc); (lit "rows", PyFloat fr)]))) /\
  (forall cmd_id,
     start_command cmd_id s = (Ok tt, s') ->
     exists data,
       s_trace s' = s_trace s ++ [EvSend (Binary data)] /\
       decode data
       = Ok (Message (Some (lit "command:start")) (Some (lit ""))
               (Some [(lit "cmd_id", PyStr cmd_id)]))) /\
  (forall self text,
     TerminalSession.write self text s = (Ok tt, s') ->
     exists data,
       s_trace s' = s_trace s ++ [EvSend (Binary data)] /\
       decode data
       = Ok (Message (Some (lit "terminal:input")) (Some (lit ""))
               (Some [(lit "terminal_id",
                       PyStr (TerminalSession._terminal_id self));
                      (lit "input", PyStr text)]))) /\
  (forall self cols rows,
     TerminalSession.resize self cols rows s = (Ok tt, s') ->
     exists data fc fr,
       float_of_int cols = Ok fc /\ float_of_int rows = Ok fr /\
       s_trace s' = s_trace s ++ [EvSend (Binary data)] /\
       decode data
       = Ok (Message (Some (lit "terminal:resize")) (Some (lit ""))
               (Some [(lit "terminal_id",
                       PyStr (TerminalSession._terminal_id self));
                      (lit "cols", PyFloat fc); (lit "rows", PyFloat fr)]))).
Proof.
  intros Hb.
  assert (Hinput : forall terminal_id input_text,
    send_terminal_input terminal_id input_text s = (Ok tt, s') ->
    exists data,
      s_trace s' = s_trace s ++ [EvSend (Binary data)] /\
      decode data
      = Ok (Message (Some (lit "terminal:input")) (Some (lit ""))
              (Some [(lit "terminal_id", PyStr terminal_id);
                     (lit "input", PyStr input_text)]))).
  { intros terminal_id input_text H.
    destruct (send_message_wire _ s s' Hb H) as (data & d' & Ht & _ & Hd' & Hdec);
      [literal_dict|repeat constructor|].
    cbn [m_data m_type m_channel default] in Hd', Hdec.
    unfold Datatypes.id in Hd', Hdec.
    wire_forms_inv Hd'.
    exists data. split; [exact Ht|exact Hdec]. }
  assert (Hresize : forall terminal_id cols rows,
    resize_terminal terminal_id cols rows s = (Ok tt, s') ->
    exists data fc fr,
      float_of_int cols = Ok fc /\ float_of_int rows = Ok fr /\
      s_trace s' = s_trace s ++ [EvSend (Binary data)] /\
      decode data
      = Ok (Message (Some (lit "terminal:resize")) (Some (lit ""))
              (Some [(lit "terminal_id", PyStr terminal_id);
                     (lit "cols", PyFloat fc); (lit "rows", PyFloat fr)]))).
  { intros terminal_id cols rows H.
    destruct (send_message_wire _ s s' Hb H) as (data & d' & Ht & _ & Hd' & Hdec);
      [literal_dict|repeat constructor|].
    cbn [m_data m_type m_channel default] in Hd', Hdec.
    unfold Datatypes.id in Hd', Hdec.
    wire_forms_inv Hd'.
    destruct (float_of_int cols) as [fc|] eqn:Ec; [|discriminate].
    destruct (float_of_int rows) as [fr|] eqn:Er; [|discriminate].
    rewrite bind_Ok in *.
    repeat match goal with
      | Hx : Ok _ = Ok _ |- _ => injection Hx as Hx; subst
      end.
    exists data, fc, fr. repeat split; assumption. }
  split; [exact Hinput|]. split; [exact Hresize|]. split; [|split].
  - intros cmd_id H.
    destruct (send_message_wire _ s s' Hb H) as (data & d' & Ht & _ & Hd' & Hdec);
      [literal_dict|repeat constructor|].
    cbn [m_data m_type m_channel default] in Hd', Hdec.
    unfold Datatypes.id in Hd', Hdec.
    wire_forms_inv Hd'.
    exists data. split; [exact Ht|exact Hdec].
  - intros self text H. exact (Hinput _ _ H).
  - intros self cols rows H. exact (Hresize _ _ _ H).
Qed.

Lemma senders_on_the_wire_witness :
  exists s' data fc fr,
    resize_terminal (lit "t1") 80 24 connected_system = (Ok tt, s') /\
    float_of_int 80 = Ok fc /\ float_of_int 24 = Ok fr /\
    s_trace s' = [EvSend (Binary data)] /\
    decode data
    = Ok (Message (Some (lit "terminal:resize")) (Some (lit ""))
            (Some [(lit "terminal_id", PyStr (lit "t1"));
                   (lit "cols", PyFloat fc); (lit "rows", PyFloat fr)])).
Proof.
  destruct (resize_terminal (lit "t1") 80 24 connected_system)
    as [[[]|e] s'] eqn:E; [|vm_compute in E; discriminate E].
  destruct (senders_on_the_wire connected_system s' eq_refl) as (_ & H & _).
  destruct (H (lit "t1") 80 24 E) as (data & fc & fr & Hc & Hr & Ht & Hd).
  exists s', data, fc, fr. repeat split; assumption.
Defined.

(** ** Terminal sessions *)

(** X24. Entering a terminal session whose client has no subscription
    yet. The session's output handler is registered for "terminal:output"
    whatever happens next. If [__aenter__] returns, the connection was
    opened and exactly one frame was written, the Subscribe frame of the
    session's channel; the client is connected, running, and subscribed to
    that channel only. If it raises, either the connection failed ("Failed
    to connect"), and no subscription is recorded; or the Subscribe frame
    could not be sent ("Failed to send message"), and the channel is
    recorded and the client left running. *)
Theorem session_enter (self : TerminalSession.t) (id : nat) (s : sys) :
  _subscriptions (s_client s) = ∅ ->
  let r := TerminalSession.__aenter__ self id s in
  let c' := s_client (snd r) in
  _handlers c' !! lit "terminal:output"
  = Some (Handler id (TerminalSession._handle_output self)) /\
  (fst r = Ok tt ->
   exists f,
     subscribe_frame (_binary (s_client s)) (TerminalSession._channel self) = Ok f /\
     s_trace (snd r) = s_trace s ++ [EvConnect true; EvSend f] /\
     _subscriptions c' = {[TerminalSession._channel self]} /\
     connected c' = true /\ _running c' = true) /\
  (forall e, fst r = Raise e ->
     (exists cause,
        e = WebSocketErrorFrom "Failed to connect" cause /\
        _subscriptions c' = ∅ /\
        s_trace (snd r) = s_trace s ++ [EvConnect false]) \/
     (exists cause,
        e = WebSocketErrorFrom "Failed to send message" cause /\
        _subscriptions c' = {[TerminalSession._channel self]} /\
        _running c' = true /\
        s_trace (snd r) = s_trace s ++ [EvConnect true])).
Proof.
  intros Hsub. destruct s as [c [wc ws wr] tr]. simpl_client.
  assert (Hrun :
    TerminalSession.__aenter__ self id (Sys c (World wc ws wr) tr) =
    match connect
            (Sys (set_handlers
                    (<[lit "terminal:output" :=
                         Handler id (TerminalSession._handle_output self)]>
                       (_handlers c)) c)
                 (World wc ws wr) tr) with
    | (Ok _, s1) => subscribe (TerminalSession._channel self) s1
    | (Raise e, s1) => (Raise e, s1)
    end) by reflexivity.
  rewrite Hrun. clear Hrun. rewrite connect_cases. simpl_client.
  destruct wc as [|[e0|] rest]; cbv zeta; cbn [fst snd]; simpl_client.
  - split; [apply lookup_insert_eq|]. split; [discriminate|].
    intros e [= <-]. left. eexists. repeat split. exact Hsub.
  - split; [apply lookup_insert_eq|]. split; [discriminate|].
    intros e [= <-]. left. eexists. repeat split. exact Hsub.
  - rewrite Hsub, elements_empty. cbn [for_each ret].
    cbv [subscribe bind modify get_client]. simpl_client. rewrite Hsub.
    unfold connected. simpl_client. cbn [sock_open].
    match goal with
    | |- context [_send_subscribe ?ch ?s1] =>
        destruct (send_message_cases
                    (Message (Some (lit "subscribe")) (Some ch) None) s1)
          as (Hcl & _ & _ & Hcases);
        change (_send_message (Message (Some (lit "subscribe")) (Some ch) None) s1)
          with (_send_subscribe ch s1) in *;
        destruct (_send_subscribe ch s1) as [[[]|e] s2]
    end; cbn [fst snd] in *; simpl_client.
    + destruct Hcases as [(f & _ & _ & Hf & Hc & Ht)|[(Hr & _)|(cause & Hr & _)]];
        [|discriminate|discriminate].
      rewrite Hc. simpl_client. split; [apply lookup_insert_eq|].
      split; [|discriminate]. intros _. exists f.
      split; [exact Hf|]. split; [rewrite Ht, <- app_assoc; reflexivity|].
      split; [apply union_empty_r_L|]. split; reflexivity.
    + split; [destruct Hcl as [-> | ->]; apply lookup_insert_eq|].
      split; [discriminate|]. intros e1 [= <-]. right.
      destruct Hcases as [(f & Hr & _)|[(Hr & Hc & _)|(cause & Hr & _ & Ht)]];
        [discriminate|discriminate|].
      injection Hr as ->. exists cause. split; [reflexivity|].
      split; [destruct Hcl as [-> | ->]; apply union_empty_r_L|].
      split; [destruct Hcl as [-> | ->]; reflexivity|exact Ht].
Qed.

Lemma session_enter_witness :
  exists f,
    subscribe_frame true (lit "terminal:t1") = Ok f /\
    s_trace (snd (TerminalSession.__aenter__ example_session 3 new_client_system))
    = [EvConnect true; EvSend f].
Proof.
  destruct (session_enter example_session 3 new_client_system eq_refl)
    as (_ & H & _).
  destruct H as (f & Hf & Ht & _); [vm_compute; reflexivity|].
  exists f. split; [exact Hf|exact Ht].
Defined.

(** X25. Output reaches the session. Let the session's
    [_handle_output] be the handler registered for "terminal:output" on a
    connected binary client. When the client receives the encoding of a
    "terminal:output" message carrying the text [text] under "output", on
    whatever channel, the receive step calls that handler with the decoded
    message (then the wildcard handler, if any), and the handler passes
    [text] to the session's output callback. *)
Theorem session_output_delivery (self : TerminalSession.t) (id : nat)
    (handler : pyval -> res unit) (c : client) (wc ws : list (option exn))
    (channel text : str) (b : list byte) (rest : list (res frame))
    (tr : list event) :
  TerminalSession._output_handler self = Some handler ->
  connected c = true -> _binary c = true ->
  _handlers c !! lit "terminal:output"
  = Some (Handler id (TerminalSession._handle_output self)) ->
  encode (Message (Some (lit "terminal:output")) (Some channel)
                  (Some [(lit "output", PyStr text)])) = Ok b ->
  let data := Message (Some (lit "terminal:output")) (Some channel)
                      (Some [(lit "output", PyStr text)]) in
  receive_step (Sys c (World wc ws (Ok (Binary b) :: rest)) tr)
  = (Ok true, Sys c (World wc ws rest)
                  (tr ++ EvCall id data :: wildcard_calls c data)) /\
  TerminalSession._handle_output self data = handler (PyStr text).
Proof.
  intros Hh Hc Hb Hreg He data.
  assert (Hdec : decode b = Ok data).
  { destruct (decode_encoded_frame _ b [] He) as (db & Hdb & Hdec).
    cbn [m_type m_channel m_data default] in Hdb, Hdec.
    unfold Datatypes.id in Hdb, Hdec.
    rewrite (decode_data_encoded _ db Hdb) in Hdec.
    - rewrite app_nil_r, bind_Ok in Hdec. exact Hdec.
    - repeat constructor.
    - literal_dict. }
  split.
  - rewrite (receive_step_message c wc ws (Binary b) rest tr data Hc)
      by (cbn [decode_frame]; rewrite Hb; exact Hdec).
    unfold handler_calls, wildcard_calls. cbn [data m_type default].
    unfold Datatypes.id. rewrite Hreg. reflexivity.
  - unfold TerminalSession._handle_output. rewrite Hh.
    cbn [data m_data default dict_get]. unfold Datatypes.id. cbn [dict_get].
    rewrite decide_True by reflexivity. reflexivity.
Qed.

Lemma session_output_delivery_witness :
  exists b,
    encode (Message (Some (lit "terminal:output")) (Some (lit "other"))
                    (Some [(lit "output", PyStr (lit "hi"))])) = Ok b /\
    TerminalSession._handle_output example_session
      (Message (Some (lit "terminal:output")) (Some (lit "other"))
               (Some [(lit "output", PyStr (lit "hi"))]))
    = Ok tt.
Proof.
  destruct (encode (Message (Some (lit "terminal:output")) (Some (lit "other"))
                            (Some [(lit "output", PyStr (lit "hi"))])))
    as [b|e] eqn:E; [|vm_compute in E; discriminate E].
  exists b. split; [reflexivity|].
  exact (proj2 (session_output_delivery example_session 3 _
                  (set_handlers
                     (<[lit "terminal:output" :=
                          Handler 3 (TerminalSession._handle_output example_session)]> ∅)
                     (s_client connected_system))
                  [] [] (lit "other") (lit "hi") b [] []
                  eq_refl eq_refl eq_refl (lookup_insert_eq _ _ _) E)).
Defined.

(** A session entered: what [__aenter__] did when it returns. *)
Lemma session_enter_returns (self : TerminalSession.t) (id : nat) (s s' : sys) :
  TerminalSession.__aenter__ self id s = (Ok tt, s') ->
  exists fs f,
    Forall2 (fun ch f => subscribe_frame (_binary (s_client s)) ch = Ok f)
            (elements (_subscriptions (s_client s))) fs /\
    subscribe_frame (_binary (s_client s)) (TerminalSession._channel self) = Ok f /\
    s_trace s' = s_trace s ++ EvConnect true :: map EvSend fs ++ [EvSend f] /\
    _subscriptions (s_client s')
    = {[TerminalSession._channel self]} ∪ _subscriptions (s_client s) /\
    _binary (s_client s') = _binary (s_client s) /\
    exists sock, _ws (s_client s') = Some sock.
Proof.
  destruct s as [c [wc ws wr] tr]. simpl_client.
  assert (Hrun :
    TerminalSession.__aenter__ self id (Sys c (World wc ws wr) tr) =
    match connect
            (Sys (set_handlers
                    (<[lit "terminal:output" :=
                         Handler id (TerminalSession._handle_output self)]>
                       (_handlers c)) c)
                 (World wc ws wr) tr) with
    | (Ok _, s1) => subscribe (TerminalSession._channel self) s1
    | (Raise e, s1) => (Raise e, s1)
    end) by reflexivity.
  rewrite Hrun. clear Hrun. rewrite connect_cases. simpl_client.
  destruct wc as [|[e0|] rest]; cbv zeta; try discriminate.
  match goal with
  | |- context [for_each ?l ?f ?s0] =>
      destruct (for_each l f s0) as [[[]|e] s1] eqn:E; [|discriminate]
  end.
  apply for_each_subscribe_ok in E as (fs & Hfs & Hc1 & Ht1).
  simpl_client.
  destruct s1 as [c1 w1 tr1]. simpl_client. subst c1 tr1.
  cbv [subscribe bind modify get_client]. simpl_client.
  unfold connected. simpl_client. cbn [sock_open].
  match goal with
  | |- context [_send_subscribe ?ch ?s1] =>
      destruct (send_message_cases
                  (Message (Some (lit "subscribe")) (Some ch) None) s1)
        as (_ & _ & _ & Hcases);
      change (_send_message (Message (Some (lit "subscribe")) (Some ch) None) s1)
        with (_send_subscribe ch s1) in *;
      destruct (_send_subscribe ch s1) as [[[]|e] s2]
  end; cbn [fst snd] in *; simpl_client; [|discriminate].
  intros [= <-].
  destruct Hcases as [(f & _ & _ & Hf & Hc & Ht)|[(Hr & _)|(cause & Hr & _)]];
    [|discriminate|discriminate].
  exists fs, f. rewrite Hc, Ht. simpl_client.
  split; [exact Hfs|]. split; [exact Hf|].
  split; [rewrite <- !app_assoc; reflexivity|].
  split; [reflexivity|]. split; [reflexivity|]. eexists. reflexivity.
Qed.

(** X26. Leaving a terminal session keeps its subscription, so entering
    it again subscribes twice. Starting from a client without
    subscriptions, if [__aenter__], [__aexit__] and [__aenter__] again all
    return, the trace is: connection opened, Subscribe frame of the
    session's channel, socket closed, connection opened, and the same
    Subscribe frame twice (once replayed by [connect], once sent by
    [subscribe]); the channel is recorded once. *)
Theorem session_reenter_subscribes_twice (self : TerminalSession.t) (id : nat)
    (s s' : sys) :
  _subscriptions (s_client s) = ∅ ->
  (TerminalSession.__aenter__ self id ;; TerminalSession.__aexit__ ;;
   TerminalSession.__aenter__ self id) s = (Ok tt, s') ->
  exists f,
    subscribe_frame (_binary (s_client s)) (TerminalSession._channel self) = Ok f /\
    s_trace s' = s_trace s ++ [EvConnect true; EvSend f; EvClose;
                               EvConnect true; EvSend f; EvSend f] /\
    _subscriptions (s_client s') = {[TerminalSession._channel self]}.
Proof.
  intros Hsub H. unfold bind in H.
  destruct (TerminalSession.__aenter__ self id s) as [[[]|e] s1] eqn:E1;
    [|discriminate].
  destruct (session_enter_returns self id s s1 E1)
    as (fs1 & f & Hfs1 & Hf & Ht1 & Hs1 & Hb1 & sock & Hws1).
  rewrite Hsub, elements_empty in Hfs1. apply Forall2_nil_inv_l in Hfs1. subst fs1.
  unfold TerminalSession.__aexit__ in H. rewrite disconnect_run in H.
  rewrite Hws1 in H. cbn [closing] in H.
  apply session_enter_returns in H
    as (fs2 & f2 & Hfs2 & Hf2 & Ht2 & Hs2 & _ & _).
  simpl_client. rewrite Hb1 in Hfs2, Hf2. rewrite Hs1, Hsub in Hfs2, Hs2.
  rewrite union_empty_r_L in Hfs2, Hs2. rewrite elements_singleton in Hfs2.
  apply Forall2_cons_inv_l in Hfs2 as (f3 & fs3 & Hf3 & Hnil & ->).
  apply Forall2_nil_inv_l in Hnil. subst fs3.
  assert (f2 = f) by congruence. assert (f3 = f) by congruence. subst f2 f3.
  exists f. split; [exact Hf|]. split.
  - rewrite Ht2, Ht1. cbn [map app]. rewrite <- !app_assoc. reflexivity.
  - rewrite Hs2. apply union_idemp_L.
Qed.

Lemma session_reenter_subscribes_twice_witness :
  exists s' f,
    (TerminalSession.__aenter__ example_session 3 ;; TerminalSession.__aexit__ ;;
     TerminalSession.__aenter__ example_session 3) session_system
    = (Ok tt, s') /\
    s_trace s' = [EvConnect true; EvSend f; EvClose;
                  EvConnect true; EvSend f; EvSend f].
Proof.
  destruct ((TerminalSession.__aenter__ example_session 3 ;;
             TerminalSession.__aexit__ ;;
             TerminalSession.__aenter__ example_session 3) session_system)
    as [[[]|e] s'] eqn:E; [|vm_compute in E; discriminate E].
  destruct (session_reenter_subscribes_twice example_session 3 session_system
              s' eq_refl E) as (f & _ & Ht & _).
  exists s', f. split; [reflexivity|exact Ht].
Defined.
